(** * Riemann sums and domain validation (Clase_Integrales.py, Clase Integrales/Int.py)

    A shallow embedding of the numerical core of the repository:
    [riemann_sum] and [verificar_dominio] of [Clase_Integrales.py], their
    object-oriented twins [RiemannIntegrator.integrar] and
    [verificar_dominio] of [Clase Integrales/Int.py], and the error
    comparison printed by [interfaz_usuario] / [_mostrar_resultados].

    The Python code computes with [float] (IEEE-754 binary64).  The
    embedding is written once over an interface of the arithmetic the code
    uses ([PyFloat]) and instantiated twice: at Rocq's primitive binary64
    floats (the arithmetic the interpreter really performs) and at the real
    numbers (the same code in exact arithmetic). *)

From Stdlib Require Import ZArith List String Bool Lia Reals Lra Floats.
From Stdlib Require Import Permutation.
Import ListNotations.

Set Implicit Arguments.

(** ** Python outcomes *)

(** The exceptions the modelled code can meet. *)
Inductive exn : Type :=
| ValueError (msg : string)
| ZeroDivisionError
| TypeError
| OverflowError
| IndexError.

(** A call either returns a value or propagates an exception. *)
Inductive result (A : Type) : Type :=
| Ok (a : A)
| Raise (e : exn).
Arguments Ok {A} a.
Arguments Raise {A} e.

Definition bind {A B : Type} (m : result A) (k : A -> result B) : result B :=
  match m with
  | Ok a => k a
  | Raise e => Raise e
  end.

Declare Scope py_scope.
Delimit Scope py_scope with py.
Notation "x <- m ;; k" := (bind m (fun x => k))
  (at level 61, m at next level, right associativity) : py_scope.

(** What a user function hands back: a number or [None]
    ([evaluar_expresion] returns [None] when [eval] fails). *)
Inductive pyval (X : Type) : Type :=
| Num (x : X)
| PyNone.
Arguments Num {X} x.
Arguments PyNone {X}.

(** ** The arithmetic the code uses *)

Class PyFloat (X : Type) : Type := {
  add : X -> X -> X;
  sub : X -> X -> X;
  mul : X -> X -> X;
  (** [x / y] for a divisor that is not zero *)
  div : X -> X -> X;
  (** conversion of a Python [int] in mixed arithmetic *)
  of_int : Z -> X;
  (** the literal [0.5] *)
  half : X;
  (** [abs] / [np.abs] *)
  fabs : X -> X;
  (** [math.sqrt] / the root inside [np.std] *)
  fsqrt : X -> X;
  eqb : X -> X -> bool;
  ltb : X -> X -> bool;
  leb : X -> X -> bool;
  (** [np.isnan], [np.isinf] *)
  isnan : X -> bool;
  isinf : X -> bool;
  (** [int(x)]: truncation toward zero; [OverflowError] on an infinity and
      [ValueError] on a NaN *)
  int_ : X -> result Z;
  math_pi : X;
  math_e : X
}.

Infix "+" := add : py_scope.
Infix "-" := sub : py_scope.
Infix "*" := mul : py_scope.
Infix "/" := div : py_scope.
Infix "<=?" := leb : py_scope.
Infix "<?" := ltb : py_scope.
Infix "=?" := eqb : py_scope.

(** *** Instance 1: binary64 floats, as CPython computes *)

Module F64.

(** Correctly rounded conversion of an integer. *)
Definition of_Z (z : Z) : float :=
  SF2Prim (binary_normalize prec emax z 0%Z false).

(** [int(x)] on a float. *)
Definition to_Z (x : float) : result Z :=
  match Prim2SF x with
  | S754_zero _ => Ok 0%Z
  | S754_finite s m e =>
      let mag := match e with
                 | Z0 => Zpos m
                 | Zpos p => Z.shiftl (Zpos m) (Zpos p)
                 | Zneg p => Z.shiftr (Zpos m) (Zpos p)
                 end in
      Ok (if s then Z.opp mag else mag)
  | S754_infinity _ => Raise OverflowError
  | S754_nan => Raise (ValueError "cannot convert float NaN to integer")
  end.

End F64.

#[export] Instance float_PyFloat : PyFloat float := {|
  add := PrimFloat.add;
  sub := PrimFloat.sub;
  mul := PrimFloat.mul;
  div := PrimFloat.div;
  of_int := F64.of_Z;
  half := PrimFloat.div (F64.of_Z 1) (F64.of_Z 2);
  fabs := PrimFloat.abs;
  fsqrt := PrimFloat.sqrt;
  eqb := PrimFloat.eqb;
  ltb := PrimFloat.ltb;
  leb := PrimFloat.leb;
  isnan := PrimFloat.is_nan;
  isinf := PrimFloat.is_infinity;
  int_ := F64.to_Z;
  math_pi := PrimFloat.div (F64.of_Z 884279719003555) (F64.of_Z 281474976710656);
  math_e := PrimFloat.div (F64.of_Z 6121026514868073) (F64.of_Z 2251799813685248)
|}.

(** *** Instance 2: the real numbers (exact arithmetic) *)

Module Exact.

Definition Rleb (x y : R) : bool := if Rle_dec x y then true else false.
Definition Rltb (x y : R) : bool := if Rlt_dec x y then true else false.
Definition Reqb (x y : R) : bool := if Req_dec_T x y then true else false.

(** Truncation toward zero. *)
Definition to_Z (x : R) : Z :=
  if Rle_dec 0 x then Int_part x else Z.opp (Int_part (- x)).

End Exact.

#[export] Instance R_PyFloat : PyFloat R := {|
  add := Rplus;
  sub := Rminus;
  mul := Rmult;
  div := Rdiv;
  of_int := IZR;
  half := (/ 2)%R;
  fabs := Rabs;
  fsqrt := R_sqrt.sqrt;
  eqb := Exact.Reqb;
  ltb := Exact.Rltb;
  leb := Exact.Rleb;
  isnan := fun _ => false;
  isinf := fun _ => false;
  int_ := fun x => Ok (Exact.to_Z x);
  math_pi := PI;
  math_e := exp 1
|}.

(** ** Shared Python idioms *)

(** [lo, lo+1, ..., lo+k-1] *)
Fixpoint count_from (lo : Z) (k : nat) : list Z :=
  match k with
  | O => []
  | S k' => lo :: count_from (lo + 1) k'
  end.

(** [range(lo, hi)] *)
Definition range2 (lo hi : Z) : list Z := count_from lo (Z.to_nat (hi - lo)).

(** [range(n)] *)
Definition range (n : Z) : list Z := range2 0 n.

(** A [for] loop threading the loop-carried variable; an exception in the
    body leaves the loop. *)
Fixpoint for_each {I S : Type} (body : I -> S -> result S) (l : list I) (s : S)
  : result S :=
  match l with
  | [] => Ok s
  | i :: l' => bind (body i s) (for_each body l')
  end.

(** A number is required of an operand: [None * delta_x] is a [TypeError]. *)
Definition as_num {X : Type} (v : pyval X) : result X :=
  match v with
  | Num x => Ok x
  | PyNone => Raise TypeError
  end.

(** A user function: returns a number or [None], or raises. *)
Definition pyfun (X : Type) : Type := X -> result (pyval X).

Section Riemann.

Context {X : Type} `{PyFloat X}.
Local Open Scope string_scope.
Local Open Scope py_scope.

(** *** Clase_Integrales.py, [riemann_sum] *)

Definition riemann_sum (f : pyfun X) (a b : X) (n : Z) (method : string)
  : result X :=
  if (n <=? 0)%Z then
    Raise (ValueError "El número de subintervalos debe ser positivo")
  else
    (* n is a non-zero int here: the quotient cannot raise *)
    let delta_x := (b - a) / of_int n in
    for_each (fun i suma =>
      if String.eqb method "left" then
        let x := a + of_int i * delta_x in
        y <- f x ;; v <- as_num y ;; Ok (suma + v * delta_x)
      else if String.eqb method "right" then
        let x := a + of_int (i + 1) * delta_x in
        y <- f x ;; v <- as_num y ;; Ok (suma + v * delta_x)
      else if String.eqb method "midpoint" then
        let x := a + (of_int i + half) * delta_x in
        y <- f x ;; v <- as_num y ;; Ok (suma + v * delta_x)
      else if String.eqb method "trapezoid" then
        let x_left := a + of_int i * delta_x in
        let x_right := a + of_int (i + 1) * delta_x in
        yl <- f x_left ;; yr <- f x_right ;;
        vl <- as_num yl ;; vr <- as_num yr ;;
        Ok (suma + (vl + vr) / of_int 2 * delta_x)
      else
        Raise (ValueError "Método no reconocido. Use 'left', 'right', 'midpoint' o 'trapezoid'"))
      (range n) (of_int 0).

End Riemann.


(** ** Control flow with a log of the evaluations of the user function *)

(** How a block of statements ends: it falls through with a value, executes
    [return v], or raises. *)
Inductive flow (A : Type) : Type :=
| Next (a : A)
| Return (v : bool)
| Throw (e : exn).
Arguments Next {A} a.
Arguments Return {A} v.
Arguments Throw {A} e.

Section Traced.

Variable X : Type.

(** A block: the arguments at which the user function was called, in the
    order of the calls, and how the block ended. *)
Definition M (A : Type) : Type := (list X * flow A)%type.

Definition mret {A : Type} (a : A) : M A := ([], Next a).

Definition mbind {A B : Type} (m : M A) (k : A -> M B) : M B :=
  match snd m with
  | Next a => let r := k a in (fst m ++ fst r, snd r)
  | Return v => (fst m, Return v)
  | Throw e => (fst m, Throw e)
  end.

(** [return v] *)
Definition return_ {A : Type} (v : bool) : M A := ([], Return v).

(** An expression of the host language that may raise. *)
Definition lift {A : Type} (r : result A) : M A :=
  ([], match r with Ok a => Next a | Raise e => Throw e end).

(** [f(x)]: the call is logged whether or not it raises. *)
Definition call (f : X -> result (pyval X)) (x : X) : M (pyval X) :=
  ([x], match f x with Ok v => Next v | Raise e => Throw e end).

(** [try: body / except Exception: handler] *)
Definition try_except {A : Type} (body handler : M A) : M A :=
  match snd body with
  | Throw _ => (fst body ++ fst handler, snd handler)
  | _ => body
  end.

(** [for x in l: body] *)
Fixpoint for_ {B : Type} (l : list B) (body : B -> M unit) : M unit :=
  match l with
  | [] => mret tt
  | x :: l' => mbind (body x) (fun _ => for_ l' body)
  end.

(** The value a block falls through with, transformed. *)
Definition mmap {A B : Type} (g : A -> B) (m : M A) : M B :=
  (fst m, match snd m with
          | Next a => Next (g a)
          | Return v => Return v
          | Throw e => Throw e
          end).

(** [[g(x) for x in l]] *)
Fixpoint comprehension {B C : Type} (g : B -> M C) (l : list B) : M (list C) :=
  match l with
  | [] => mret []
  | x :: l' => mbind (g x) (fun y => mmap (cons y) (comprehension g l'))
  end.

(** The boundary of a function whose last statement is [return v]: the log
    and what the caller receives. *)
Definition run (m : M bool) : list X * result bool :=
  (fst m, match snd m with
          | Next v => Ok v
          | Return v => Ok v
          | Throw e => Raise e
          end).

End Traced.

Arguments mret {X A} a.
Arguments return_ {X A} v.
Arguments lift {X A} r.

Declare Scope traced_scope.
Delimit Scope traced_scope with traced.
Notation "x <~ m ;; k" := (mbind m (fun x => k))
  (at level 61, m at next level, right associativity) : traced_scope.
Notation "m ;;; k" := (mbind m (fun _ => k))
  (at level 61, right associativity) : traced_scope.

(** ** numpy, as far as the code uses it *)

Section Numpy.

Context {X : Type} `{PyFloat X}.
Local Open Scope py_scope.

(** [np.linspace(start, stop, num)]: [num] samples [start + i*step] with
    [step = (stop - start)/(num - 1)], the last one set to [stop]. *)
Definition np_linspace (start stop : X) (num : Z) : list X :=
  if (num <=? 0)%Z then []
  else if (num =? 1)%Z then [start]
  else
    let step := (stop - start) / of_int (num - 1) in
    map (fun i => of_int i * step + start) (range (num - 1)) ++ [stop].

(** The array numpy makes of a list of results before it computes with
    it: a [None] among them is a [TypeError]. *)
Fixpoint np_asarray (l : list (pyval X)) : result (list X) :=
  match l with
  | [] => Ok []
  | v :: t =>
      bind (as_num v) (fun x => bind (np_asarray t) (fun xs => Ok (x :: xs)))
  end.

(** [np.diff] *)
Fixpoint np_diff (l : list X) : list X :=
  match l with
  | x :: (y :: _) as t => (y - x) :: np_diff t
  | _ => []
  end.

(** [np.abs] *)
Definition np_abs (l : list X) : list X := map fabs l.

(** [np.mean]: the sum of the entries divided by their number.  The
    entries are added here from left to right; numpy adds eight or more
    floats pairwise, in blocks.  Both are the same number in exact
    arithmetic; in binary64 they can differ in the last bits, and with
    them the threshold of step 3. *)
Definition np_mean (l : list X) : X :=
  fold_left add l (of_int 0) / of_int (Z.of_nat (List.length l)).

(** [np.std]: the root of the mean squared deviation *)
Definition np_std (l : list X) : X :=
  let m := np_mean l in
  fsqrt (np_mean (map (fun x => (x - m) * (x - m)) l)).

(** [np.where(l > u)[0]]: the indices of the entries above [u] *)
Definition np_where_gt (l : list X) (u : X) : list nat :=
  map fst (filter (fun p => u <? snd p) (combine (seq 0 (List.length l)) l)).

(** [l[i]] *)
Definition getitem (l : list X) (i : nat) : result X :=
  match nth_error l i with
  | Some x => Ok x
  | None => Raise IndexError
  end.

(** [set(l)]: one representative of each class of [==].  CPython iterates
    a set in the order of its hash table; here the order is that of the
    last occurrences in [l].  What is stated on a loop over a set is
    therefore stated on its members and on the answer of the loop, which
    does not depend on the order (proved below for step 4), and not on
    the order of the calls. *)
Fixpoint pyset (l : list X) : list X :=
  match l with
  | [] => []
  | x :: t => if existsb (eqb x) t then pyset t else x :: pyset t
  end.

End Numpy.

(** ** Domain validation *)

Section Domain.

Context {X : Type} `{PyFloat X}.
Local Open Scope py_scope.
Local Open Scope traced_scope.

(** [resultado is None or np.isnan(resultado) or np.isinf(resultado)] *)
Definition undefined_ (v : pyval X) : bool :=
  match v with
  | PyNone => true
  | Num x => isnan x || isinf x
  end.

(** The body of every probe of Clase_Integrales.py:
    [resultado = f(x)] followed by [if <undefined>: return False]. *)
Definition probe (f : pyfun X) (x : X) : M X unit :=
  resultado <~ call f x ;;
  if undefined_ resultado then return_ false else mret tt.

(** The list [puntos_especiales] built in step 4.  Its integers are
    Python [int]s, which the code hands to [f] as they are; here [f] takes
    numbers of one kind, so an integer point [i] is the number [of_int i]
    (the float [float(i)] in binary64).  A function that answers
    differently on an [int] and on the float equal to it ([x**20] at 10
    gives an [int] too large for [np.isnan]) is outside this model. *)
Definition puntos_especiales (a b : X) (int_a int_b : Z) : list X :=
  (* [i for i in range(int(a), int(b)+1) if a <= i <= b] *)
  filter (fun i => (a <=? i) && (i <=? b))
         (map of_int (range2 int_a (int_b + 1)))
  (* for i in range(1, 21): for j in range(i): punto = j/i ... *)
  ++ flat_map (fun i =>
       filter (fun punto => (a <=? punto) && (punto <=? b))
              (map (fun j => of_int j / of_int i) (range i)))
     (range2 1 21)
  (* [v for v in valores_especiales if a <= v <= b] *)
  ++ filter (fun v => (a <=? v) && (v <=? b))
            [math_pi; math_e; fsqrt (of_int 2); fsqrt (of_int 3)].

(** *** Clase_Integrales.py, [verificar_dominio]

    The file defines the function twice with the same body; the copies
    differ in the constant [n_verificacion] only.  The body is cut at the
    four numbered comments of the source. *)

(** 1. Verificar los extremos del intervalo *)
Definition paso1_extremos (f : pyfun X) (a b : X) : M X unit :=
  try_except
    (resultado_a <~ call f a ;;
     resultado_b <~ call f b ;;
     if undefined_ resultado_a || undefined_ resultado_b
     then return_ false else mret tt)
    (return_ false).

(** 2. Verificar puntos uniformemente distribuidos *)
Definition paso2_uniformes (f : pyfun X) (puntos_uniformes : list X)
  : M X unit :=
  try_except (for_ puntos_uniformes (probe f)) (return_ false).

(** 3. Búsqueda adaptativa de puntos problemáticos; the comprehension that
    fills [valores] is outside every [try]. *)
Definition paso3_adaptativo (f : pyfun X) (puntos_uniformes : list X)
  : M X unit :=
  valores <~ comprehension (call f) puntos_uniformes ;;
  numeros <~ lift (np_asarray valores) ;;
  let diferencias := np_abs (np_diff numeros) in
  let umbral_cambio := np_mean diferencias + of_int 3 * np_std diferencias in
  let indices_sospechosos := np_where_gt diferencias umbral_cambio in
  for_ indices_sospechosos (fun i =>
    x_izq <~ lift (getitem puntos_uniformes i) ;;
    x_der <~ lift (getitem puntos_uniformes (i + 1)) ;;
    let puntos_detallados := np_linspace x_izq x_der 100 in
    try_except (for_ puntos_detallados (probe f)) (return_ false)).

(** 4. Verificar puntos "redondos": the loop over [set(puntos_especiales)] *)
Definition paso4_especiales (f : pyfun X) (a b tolerancia : X)
    (puntos : list X) : M X unit :=
  for_ puntos (fun punto =>
    try_except (probe f punto) (return_ false) ;;;
    (if a + tolerancia <? punto
     then try_except (probe f (punto - tolerancia)) (return_ false)
     else mret tt) ;;;
    (if punto <? b - tolerancia
     then try_except (probe f (punto + tolerancia)) (return_ false)
     else mret tt)).

Definition verificar_dominio_body (n_verificacion : Z)
    (f : pyfun X) (a b tolerancia : X) : M X bool :=
  paso1_extremos f a b ;;;
  let puntos_uniformes := np_linspace a b n_verificacion in
  paso2_uniformes f puntos_uniformes ;;;
  paso3_adaptativo f puntos_uniformes ;;;
  int_a <~ lift (int_ a) ;;
  int_b <~ lift (int_ b) ;;
  paso4_especiales f a b tolerancia
    (pyset (puntos_especiales a b int_a int_b)) ;;;
  mret true.

(** Lines 58-157: [n_verificacion = 1000000]. *)
Definition verificar_dominio (f : pyfun X) (a b tolerancia : X)
  : list X * result bool :=
  run (verificar_dominio_body 1000000 f a b tolerancia).

(** Lines 491-590, the binding in force once the module is loaded:
    [n_verificacion = 1000]. *)
Definition verificar_dominio_2 (f : pyfun X) (a b tolerancia : X)
  : list X * result bool :=
  run (verificar_dominio_body 1000 f a b tolerancia).

End Domain.

(** ** Clase Integrales/Int.py *)

Module Int.

Section Int.

Context {X : Type} `{PyFloat X}.
Local Open Scope string_scope.
Local Open Scope py_scope.

(** *** [RiemannIntegrator] *)

Definition METODOS : list (string * string) :=
  [("left", "Punto Izquierdo"); ("right", "Punto Derecho");
   ("midpoint", "Punto Medio"); ("trapezoid", "Trapecio")].

Record RiemannIntegrator : Type := {
  funcion : pyfun X;   (* self.funcion.evaluar *)
  metodo : string
}.

(** [RiemannIntegrator.__init__] *)
Definition RiemannIntegrator_init (funcion : pyfun X) (metodo : string)
  : result RiemannIntegrator :=
  if existsb (fun kv => String.eqb metodo (fst kv)) METODOS then
    Ok {| funcion := funcion; metodo := metodo |}
  else
    Raise (ValueError "Método no válido. Use uno de: ['left', 'right', 'midpoint', 'trapezoid']").

(** [RiemannIntegrator.integrar] *)
Definition integrar (self : RiemannIntegrator) (a b : X) (n : Z) : result X :=
  if (n <=? 0)%Z then
    Raise (ValueError "El número de subintervalos debe ser positivo")
  else
    let delta_x := (b - a) / of_int n in
    for_each (fun i suma =>
      if String.eqb (metodo self) "left" then
        let x := a + of_int i * delta_x in
        y <- funcion self x ;; v <- as_num y ;; Ok (suma + v * delta_x)
      else if String.eqb (metodo self) "right" then
        let x := a + of_int (i + 1) * delta_x in
        y <- funcion self x ;; v <- as_num y ;; Ok (suma + v * delta_x)
      else if String.eqb (metodo self) "midpoint" then
        let x := a + (of_int i + half) * delta_x in
        y <- funcion self x ;; v <- as_num y ;; Ok (suma + v * delta_x)
      else if String.eqb (metodo self) "trapezoid" then
        let x_left := a + of_int i * delta_x in
        let x_right := a + of_int (i + 1) * delta_x in
        yl <- funcion self x_left ;; yr <- funcion self x_right ;;
        vl <- as_num yl ;; vr <- as_num yr ;;
        Ok (suma + (vl + vr) / of_int 2 * delta_x)
      else
        Ok suma)
      (range n) (of_int 0).


(** *** [verificar_dominio] *)

Local Open Scope traced_scope.

(** [np.isnan(f(x))], [np.isinf(f(x))]: each one calls [f]; on [None]
    numpy raises a [TypeError]. *)
Definition np_isnan (f : pyfun X) (x : X) : M X bool :=
  y <~ call f x ;; v <~ lift (as_num y) ;; mret (isnan v).

Definition np_isinf (f : pyfun X) (x : X) : M X bool :=
  y <~ call f x ;; v <~ lift (as_num y) ;; mret (isinf v).

(** [c1 or c2], [c1 and c2]: the right operand is evaluated on demand. *)
Definition or_ (c1 c2 : M X bool) : M X bool :=
  v <~ c1 ;; if v then mret true else c2.

Definition and_ (c1 : bool) (c2 : M X bool) : M X bool :=
  if c1 then c2 else mret false.

(** [if <cond>: return False] *)
Definition return_false_if (cond : M X bool) : M X unit :=
  c <~ cond ;; if c then return_ false else mret tt.

Definition verificar_dominio (f : pyfun X) (a b tolerancia : X)
  : list X * result bool :=
  run (try_except
    (return_false_if
       (or_ (np_isnan f a) (or_ (np_isnan f b)
          (or_ (np_isinf f a) (np_isinf f b)))) ;;;
     let puntos_uniformes := np_linspace a b 1000 in
     for_ puntos_uniformes (fun x =>
       return_false_if (or_ (np_isnan f x) (np_isinf f x))) ;;;
     valores <~ comprehension (call f) puntos_uniformes ;;
     numeros <~ lift (np_asarray valores) ;;
     let diferencias := np_abs (np_diff numeros) in
     let umbral := np_mean diferencias + of_int 3 * np_std diferencias in
     let indices := np_where_gt diferencias umbral in
     for_ indices (fun i =>
       x_izq <~ lift (getitem puntos_uniformes i) ;;
       x_der <~ lift (getitem puntos_uniformes (i + 1)) ;;
       let puntos_detallados := np_linspace x_izq x_der 100 in
       for_ puntos_detallados (fun x =>
         return_false_if (or_ (np_isnan f x) (np_isinf f x)))) ;;;
     int_a <~ lift (int_ a) ;;
     int_b <~ lift (int_ b) ;;
     for_ (pyset (puntos_especiales a b int_a int_b)) (fun punto =>
       return_false_if (or_ (np_isnan f punto) (np_isinf f punto)) ;;;
       return_false_if
         (and_ (a + tolerancia <? punto)
               (or_ (np_isnan f (punto - tolerancia))
                    (np_isinf f (punto - tolerancia)))) ;;;
       return_false_if
         (and_ (punto <? b - tolerancia)
               (or_ (np_isnan f (punto + tolerancia))
                    (np_isinf f (punto + tolerancia))))) ;;;
     mret true)
    (return_ false)).

End Int.

End Int.

(** ** The error comparison *)

(** What the comparison prints, line by line. *)
Inductive line (X : Type) : Type :=
| ValorExacto (v : X)
| ErrorAbsoluto (v : X)
| ErrorRelativo (percent : X).
Arguments ValorExacto {X} v.
Arguments ErrorAbsoluto {X} v.
Arguments ErrorRelativo {X} percent.

Section Comparacion.

Context {X : Type} `{PyFloat X}.
Local Open Scope py_scope.

(** [x / y] on floats: a zero divisor raises. *)
Definition truediv (x y : X) : result X :=
  if y =? of_int 0 then Raise ZeroDivisionError else Ok (x / y).

(** Clase_Integrales.py, [interfaz_usuario], lines 985-991: the lines
    printed and how the block ends.  [resultado_exacto] is [None] when
    [resolver_integral_exacta] failed. *)
Definition interfaz_usuario_comparacion (resultado : X)
    (resultado_exacto : option X) : list (line X) * result unit :=
  match resultado_exacto with
  | None => ([], Ok tt)
  | Some exacto =>
      let error := fabs (exacto - resultado) in
      match truediv error (fabs exacto) with
      | Ok q =>
          ([ValorExacto exacto; ErrorAbsoluto error;
            ErrorRelativo (q * of_int 100)], Ok tt)
      | Raise e => ([ValorExacto exacto; ErrorAbsoluto error], Raise e)
      end
  end.

(** Int.py, [CalculadoraIntegrales._mostrar_resultados], lines 421-430:
    the same block under [try: ... except: pass], guarded by
    [not np.isnan(exacto)]. *)
Definition mostrar_resultados_comparacion (resultado exacto : X)
  : list (line X) * result unit :=
  if isnan exacto then ([], Ok tt)
  else
    let error := fabs (exacto - resultado) in
    match truediv error (fabs exacto) with
    | Ok q =>
        ([ValorExacto exacto; ErrorAbsoluto error;
          ErrorRelativo (q * of_int 100)], Ok tt)
    | Raise _ => ([ValorExacto exacto; ErrorAbsoluto error], Ok tt)
    end.

End Comparacion.

(** ** Specification-side definitions *)

(** The four recognised values of [method]. *)
Inductive rule : Type := Left | Right | Midpoint | Trapezoid.

Definition method_name (r : rule) : string :=
  match r with
  | Left => "left"
  | Right => "right"
  | Midpoint => "midpoint"
  | Trapezoid => "trapezoid"
  end.

Section RiemannSpec.

Context {X : Type} `{PyFloat X}.
Local Open Scope py_scope.

(** A user function that returns a number at every argument. *)
Definition total (g : X -> X) : pyfun X := fun x => Ok (Num (g x)).

(** The sample of subinterval [i], in the words of the specification. *)
Definition sample (r : rule) (g : X -> X) (a delta_x : X) (i : Z) : X :=
  match r with
  | Left => g (a + of_int i * delta_x)
  | Right => g (a + of_int (i + 1) * delta_x)
  | Midpoint => g (a + (of_int i + half) * delta_x)
  | Trapezoid =>
      (g (a + of_int i * delta_x) + g (a + of_int (i + 1) * delta_x))
      / of_int 2
  end.

(** The sum of [sample * delta_x] over [i = 0..n-1], in index order. *)
Definition riemann_spec (r : rule) (g : X -> X) (a b : X) (n : Z) : X :=
  let delta_x := (b - a) / of_int n in
  fold_left (fun suma i => suma + sample r g a delta_x i * delta_x)
            (range n) (of_int 0).




(** [f] is defined and finite at [x]: the test of every probe of
    [verificar_dominio]. *)
Definition good (f : pyfun X) (x : X) : bool :=
  match f x with
  | Ok v => negb (undefined_ v)
  | Raise _ => false
  end.

(** The probes step 4 makes around one special point. *)
Definition vecinos (a b tolerancia punto : X) : list X :=
  punto
  :: (if a + tolerancia <? punto then [punto - tolerancia] else [])
  ++ (if punto <? b - tolerancia then [punto + tolerancia] else []).

End RiemannSpec.

(** *** Inputs used in the examples *)

Module Ex.

(** The float [num/den], as Python evaluates the quotient of two ints. *)
Definition q (num den : Z) : float := PrimFloat.div (F64.of_Z num) (F64.of_Z den).

(** [lambda x: 1/x] *)
Definition inv (x : float) : result (pyval float) :=
  if PrimFloat.eqb x (F64.of_Z 0) then Raise ZeroDivisionError
  else Ok (Num (PrimFloat.div (F64.of_Z 1) x)).

(** [lambda x: x**2] *)
Definition sq (x : float) : result (pyval float) :=
  Ok (Num (PrimFloat.mul x x)).

(** The same two functions in exact arithmetic. *)
Definition Rinv (x : R) : result (pyval R) :=
  if Exact.Reqb x 0 then Raise ZeroDivisionError else Ok (Num (1 / x)%R).

Definition Rsq (x : R) : result (pyval R) := Ok (Num (x * x)%R).

(** The default [tolerancia = 1e-6]. *)
Definition tol : float := q 1 1000000.
Definition Rtol : R := (1 / 1000000)%R.

End Ex.

(** *** What a run of [verificar_dominio] probes *)

Section DomainSpec.

Context {X : Type} `{PyFloat X}.
Local Open Scope py_scope.

(** A block of probes [m] tests the condition [c] over the points [T]: it
    calls the function inside [T] only; it falls through (with [v]) when
    the test holds and otherwise leaves by [return False] or by an
    exception. *)
Definition checks_to {A : Type} (m : M X A) (v : A) (c : bool) (T : list X)
  : Prop :=
  incl (fst m) T /\
  (if c then snd m = Next v
   else snd m = Return false \/ exists e, snd m = Throw e).

(** No exception leaves the block. *)
Definition nothrow {A : Type} (m : M X A) : Prop :=
  forall e, snd m <> Throw e.

(** The numbers [valores] holds when the function is defined on the grid. *)
Definition valores_de (f : pyfun X) (l : list X) : list X :=
  map (fun x => match f x with
                | Ok (Num v) => v
                | _ => of_int 0
                end) l.

(** [indices_sospechosos] *)
Definition sospechosos (f : pyfun X) (grid : list X) : list nat :=
  let diferencias := np_abs (np_diff (valores_de f grid)) in
  np_where_gt diferencias (np_mean diferencias + of_int 3 * np_std diferencias).

(** Every point of every refined gap. *)
Definition refinados (f : pyfun X) (grid : list X) : list X :=
  flat_map (fun i => np_linspace (nth i grid (of_int 0))
                                 (nth (i + 1) grid (of_int 0)) 100)
           (sospechosos f grid).

(** Every point a complete run evaluates the function at, step by step. *)
Definition todos_los_puntos (n_verificacion : Z) (f : pyfun X)
    (a b tolerancia : X) (int_a int_b : Z) : list X :=
  let grid := np_linspace a b n_verificacion in
  [a; b] ++ grid ++ (grid ++ refinados f grid)
  ++ flat_map (vecinos a b tolerancia)
              (pyset (puntos_especiales a b int_a int_b)).

(** Fail-closed outcome of a run: the caller receives a boolean, and it is
    [False] as soon as the function was evaluated at a point where it
    raises or returns [None], a NaN or an infinity. *)
Definition fail_closed (f : pyfun X) (r : list X * result bool) : Prop :=
  exists v, snd r = Ok v /\
            forall x, In x (fst r) -> good f x = false -> v = false.

End DomainSpec.

Abbreviation checks m c T := (checks_to m tt c T).

(** The special points in the words of the specification, over the reals:
    an integer of [[a, b]], a fraction [j/i] with [1 <= i <= 20] and
    [0 <= j <= i] in [[a, b]], or one of the four constants in [[a, b]]. *)
Definition special_point (a b p : R) : Prop :=
  (a <= p <= b)%R /\
  ((exists k : Z, p = IZR k) \/
   (exists i j : Z, (1 <= i <= 20)%Z /\ (0 <= j <= i)%Z /\
                    p = (IZR j / IZR i)%R) \/
   In p [PI; exp 1; R_sqrt.sqrt 2; R_sqrt.sqrt 3]).

(** ** The rest of the two files *)

(** *** Clase_Integrales.py: [get_polygon_coordinates] and the frames of
    [graficar_riemann_dinamico] *)

(** The text a frame writes into [aprox_text]. *)
Inductive texto (X : Type) : Type :=
| SinTexto
| Parcial (k n : Z) (v : X)
| Final (v : X).
Arguments SinTexto {X}.
Arguments Parcial {X} k n v.
Arguments Final {X} v.

(** What the closures [init] and [animate] share: the [nonlocal]
    [suma_actual], the list of polygons drawn (each the list of its
    vertices, [list(zip(xs, ys))]), and the two texts ([integral_text] shows
    the same number as [aprox_text]). *)
Record animacion (X : Type) : Type := {
  suma_actual : X;
  poligonos : list (list (X * pyval X));
  aprox_text : texto X;
  integral_text : option X
}.
Arguments suma_actual {X} _.
Arguments poligonos {X} _.
Arguments aprox_text {X} _.
Arguments integral_text {X} _.

Section Graficar.

Context {X : Type} `{PyFloat X}.
Local Open Scope string_scope.
Local Open Scope py_scope.

(** [x / n] for a Python [int] [n]: zero raises. *)
Definition truediv_int (x : X) (n : Z) : result X :=
  if (n =? 0)%Z then Raise ZeroDivisionError else Ok (x / of_int n).

(** Lines 159-198.  The heights are stored as the function returned them. *)
Definition get_polygon_coordinates (f : pyfun X) (a b : X) (i n : Z)
    (method : string) : result (list X * list (pyval X)) :=
  delta_x <- truediv_int (b - a) n ;;
  let x_left := a + of_int i * delta_x in
  let x_right := a + of_int (i + 1) * delta_x in
  if String.eqb method "left" then
    y_height <- f x_left ;;
    Ok ([x_left; x_right; x_right; x_left],
        [Num (of_int 0); Num (of_int 0); y_height; y_height])
  else if String.eqb method "right" then
    y_height <- f x_right ;;
    Ok ([x_left; x_right; x_right; x_left],
        [Num (of_int 0); Num (of_int 0); y_height; y_height])
  else if String.eqb method "midpoint" then
    let x_mid := (x_left + x_right) / of_int 2 in
    y_height <- f x_mid ;;
    Ok ([x_left; x_right; x_right; x_left],
        [Num (of_int 0); Num (of_int 0); y_height; y_height])
  else if String.eqb method "trapezoid" then
    y_left <- f x_left ;;
    y_right <- f x_right ;;
    Ok ([x_left; x_right; x_right; x_left],
        [Num (of_int 0); Num (of_int 0); y_right; y_left])
  else
    Raise (ValueError "Método no reconocido").

(** The state before the first frame (lines 263-267). *)
Definition animacion_inicial : animacion X :=
  {| suma_actual := of_int 0; poligonos := [];
     aprox_text := SinTexto; integral_text := None |}.

(** [init] (lines 270-278) *)
Definition init (st : animacion X) : animacion X :=
  {| suma_actual := suma_actual st; poligonos := [];
     aprox_text := SinTexto; integral_text := None |}.

(** [animate] (lines 280-320); [delta_x] is the variable of the enclosing
    function. *)
Definition animate (f : pyfun X) (a b : X) (n : Z) (method : string)
    (delta_x : X) (i : Z) (st : animacion X) : result (animacion X) :=
  let st :=
    if (i =? 0)%Z then
      {| suma_actual := of_int 0; poligonos := [];
         aprox_text := aprox_text st; integral_text := integral_text st |}
    else st in
  if (i <? n)%Z then
    coords <- get_polygon_coordinates f a b i n method ;;
    let poligono := combine (fst coords) (snd coords) in
    suma <-
      (if String.eqb method "left" then
         y <- f (a + of_int i * delta_x) ;; v <- as_num y ;;
         Ok (suma_actual st + v * delta_x)
       else if String.eqb method "right" then
         y <- f (a + of_int (i + 1) * delta_x) ;; v <- as_num y ;;
         Ok (suma_actual st + v * delta_x)
       else if String.eqb method "midpoint" then
         y <- f (a + (of_int i + half) * delta_x) ;; v <- as_num y ;;
         Ok (suma_actual st + v * delta_x)
       else if String.eqb method "trapezoid" then
         yl <- f (a + of_int i * delta_x) ;;
         yr <- f (a + of_int (i + 1) * delta_x) ;;
         vl <- as_num yl ;; vr <- as_num yr ;;
         Ok (suma_actual st + (vl + vr) / of_int 2 * delta_x)
       else Ok (suma_actual st)) ;;
    Ok {| suma_actual := suma;
          poligonos := poligonos st ++ [poligono];
          aprox_text := Parcial (i + 1) n suma;
          integral_text := Some suma |}
  else if (i =? n)%Z then
    Ok {| suma_actual := suma_actual st;
          poligonos := poligonos st;
          aprox_text := Final (suma_actual st);
          integral_text := Some (suma_actual st) |}
  else Ok st.

(** One pass of the animation: [delta_x = (b - a) / n], then [animate] on
    the frames [0, 1, ..., n] ([frames = n + 1]). *)
Definition frames (f : pyfun X) (a b : X) (n : Z) (method : string)
    (st : animacion X) : result (animacion X) :=
  delta_x <- truediv_int (b - a) n ;;
  for_each (animate f a b n method delta_x) (range (n + 1)) st.

End Graficar.

(** *** Int.py: the frames of [RiemannIntegrator.graficar] *)

Module IntGraficar.

Section IntGraficar.

Context {X : Type} `{PyFloat X}.
Local Open Scope py_scope.

(** [animate] (lines 152-208) of an integrator built by [__init__], whose
    [metodo] is therefore one of the four; the polygon is computed in
    place, and the midpoint is [(x_left + x_right)/2] both for the polygon
    and for the sum. *)
Definition animate (f : pyfun X) (metodo : rule) (a b : X) (n : Z)
    (delta_x : X) (i : Z) (st : animacion X) : result (animacion X) :=
  let st :=
    if (i =? 0)%Z then
      {| suma_actual := of_int 0; poligonos := [];
         aprox_text := aprox_text st; integral_text := integral_text st |}
    else st in
  if (i <? n)%Z then
    let x_left := a + of_int i * delta_x in
    let x_right := a + of_int (i + 1) * delta_x in
    ys <-
      match metodo with
      | Left =>
          y_height <- f x_left ;;
          Ok [Num (of_int 0); Num (of_int 0); y_height; y_height]
      | Right =>
          y_height <- f x_right ;;
          Ok [Num (of_int 0); Num (of_int 0); y_height; y_height]
      | Midpoint =>
          let x_mid := (x_left + x_right) / of_int 2 in
          y_height <- f x_mid ;;
          Ok [Num (of_int 0); Num (of_int 0); y_height; y_height]
      | Trapezoid =>
          y_left <- f x_left ;;
          y_right <- f x_right ;;
          Ok [Num (of_int 0); Num (of_int 0); y_right; y_left]
      end ;;
    let poligono := combine [x_left; x_right; x_right; x_left] ys in
    suma <-
      match metodo with
      | Left =>
          y <- f x_left ;; v <- as_num y ;; Ok (suma_actual st + v * delta_x)
      | Right =>
          y <- f x_right ;; v <- as_num y ;; Ok (suma_actual st + v * delta_x)
      | Midpoint =>
          y <- f ((x_left + x_right) / of_int 2) ;; v <- as_num y ;;
          Ok (suma_actual st + v * delta_x)
      | Trapezoid =>
          yl <- f x_left ;; yr <- f x_right ;;
          vl <- as_num yl ;; vr <- as_num yr ;;
          Ok (suma_actual st + (vl + vr) / of_int 2 * delta_x)
      end ;;
    Ok {| suma_actual := suma;
          poligonos := poligonos st ++ [poligono];
          aprox_text := Parcial (i + 1) n suma;
          integral_text := Some suma |}
  else if (i =? n)%Z then
    Ok {| suma_actual := suma_actual st;
          poligonos := poligonos st;
          aprox_text := Final (suma_actual st);
          integral_text := Some (suma_actual st) |}
  else Ok st.

Definition frames (f : pyfun X) (metodo : rule) (a b : X) (n : Z)
    (st : animacion X) : result (animacion X) :=
  delta_x <- truediv_int (b - a) n ;;
  for_each (animate f metodo a b n delta_x) (range (n + 1)) st.

End IntGraficar.

End IntGraficar.

(** *** What the two user interfaces pass on *)

(** [except ValueError: handler] *)
Definition except_ValueError {A : Type} (body handler : result A) : result A :=
  match body with
  | Raise (ValueError _) => handler
  | _ => body
  end.

(** [l[i]] on a Python list: a negative index counts from the end. *)
Definition py_index {A : Type} (l : list A) (i : Z) : result A :=
  let len := Z.of_nat (List.length l) in
  let k := if (i <? 0)%Z then (len + i)%Z else i in
  if ((0 <=? k) && (k <? len))%Z then
    match nth_error l (Z.to_nat k) with
    | Some x => Ok x
    | None => Raise IndexError
    end
  else Raise IndexError.

(** [metodos = ['left', 'right', 'midpoint', 'trapezoid']] *)
Definition metodos : list string :=
  ["left"; "right"; "midpoint"; "trapezoid"]%string.

Section Interfaz.

Context {X : Type} `{PyFloat X}.
Local Open Scope py_scope.

(** Clase_Integrales.py, [interfaz_usuario], lines 902-910: the limits,
    from what [float(input(...))] gave for each. *)
Definition interfaz_usuario_limites (entrada_a entrada_b : result X)
  : result (X * X) :=
  except_ValueError
    (a <- entrada_a ;; b <- entrada_b ;;
     if b <=? a then Ok (of_int 0, of_int 1) else Ok (a, b))
    (Ok (of_int 0, of_int 1)).

(** Lines 948-955: the number of subintervals, from [int(input(...))]. *)
Definition interfaz_usuario_subintervalos (entrada : result Z) : result Z :=
  except_ValueError
    (n <- entrada ;; if (n <=? 0)%Z then Ok 10%Z else Ok n)
    (Ok 10%Z).

(** Lines 964-974: the method, from [int(input(...))]. *)
Definition interfaz_usuario_metodo (entrada : result Z) : result string :=
  except_ValueError
    (metodo_num <- entrada ;;
     if ((metodo_num <? 1) || (4 <? metodo_num))%Z then Ok "midpoint"%string
     else py_index metodos (metodo_num - 1))
    (Ok "midpoint"%string).

End Interfaz.

(** Int.py, class [CalculadoraIntegrales] *)

Module Calculadora.

Section Calculadora.

Context {X : Type} `{PyFloat X}.
Local Open Scope py_scope.

(** [_definir_limites] (lines 351-360): the values of [self.a], [self.b]. *)
Definition definir_limites (entrada_a entrada_b : result X)
  : result (X * X) :=
  except_ValueError
    (a <- entrada_a ;; b <- entrada_b ;;
     if b <=? a then Ok (of_int 0, of_int 1) else Ok (a, b))
    (Ok (of_int 0, of_int 1)).

(** [_seleccionar_metodo_riemann] (lines 383-396):
    [except (ValueError, IndexError)] *)
Definition seleccionar_metodo_riemann (entrada : result Z) : result string :=
  match (opcion <- entrada ;; py_index metodos (opcion - 1)) with
  | Raise (ValueError _) => Ok "midpoint"%string
  | Raise IndexError => Ok "midpoint"%string
  | r => r
  end.

(** [_obtener_subintervalos] (lines 398-404) *)
Definition obtener_subintervalos (entrada : result Z) : result Z :=
  except_ValueError (n <- entrada ;; Ok (Z.max 1 n)) (Ok 100%Z).

End Calculadora.

End Calculadora.

(** *** The two evaluators of an expression *)

Section Evaluadores.

Context {X : Type} `{PyFloat X}.

(** What [eval(expresion, ...)] does at a value of the variable is the
    parameter [ev]: it returns an object or raises. *)



End Evaluadores.

(** *** Ejercicios/Ejercicio_7_19_02.py *)

(** [factorial] (lines 2-6) *)
Definition factorial (n : Z) : Z :=
  fold_left (fun fact i => (fact * i)%Z) (range2 1 (n + 1)) 1%Z.

(** [taylor_sin] (lines 8-17) in exact arithmetic: [x ** k] is the power of
    a real, the integers [(-1) ** n] and [factorial(2*n + 1)] are converted
    as the mixed operations do.  [fuel] bounds the number of turns of the
    [while] loop; [None] means that the bound was reached. *)
Fixpoint taylor_sin_loop (fuel : nat) (x tol term sum_sin : R) (n : Z)
  : option R :=
  if Exact.Rltb tol (Rabs term) then
    match fuel with
    | O => None
    | S fuel' =>
        let term := (IZR ((-1) ^ n) * x ^ Z.to_nat (2 * n + 1)
                     / IZR (factorial (2 * n + 1)))%R in
        let sum_sin := (sum_sin + term)%R in
        let n := (n + 1)%Z in
        taylor_sin_loop fuel' x tol term sum_sin n
    end
  else Some sum_sin.

Definition taylor_sin (fuel : nat) (x tol : R) : option R :=
  let term := x in
  let sum_sin := term in
  let n := 1%Z in
  taylor_sin_loop fuel x tol term sum_sin n.

(** *** Specification-side notions for the added properties *)

(** The area enclosed by a polygon given by its vertices (the shoelace
    formula, counter-clockwise positive). *)
Fixpoint shoelace (first prev : R * R) (l : list (R * R)) : R :=
  match l with
  | [] => (fst prev * snd first - fst first * snd prev)%R
  | p :: t => (fst prev * snd p - fst p * snd prev + shoelace first p t)%R
  end.

Definition polygon_area (l : list (R * R)) : R :=
  match l with
  | [] => 0%R
  | p :: t => (shoelace p p t / 2)%R
  end.

(** The vertices of a polygon whose heights are all numbers. *)
Definition vertices (l : list (R * pyval R)) : list (R * R) :=
  map (fun p => (fst p, match snd p with Num y => y | PyNone => 0%R end)) l.

(** The sum of the terms [t i] for [i] in [l], in the order of [l]. *)
Definition sum_terms (t : Z -> R) (l : list Z) : R :=
  fold_left (fun suma i => (suma + t i)%R) l 0%R.

(** ** The loop of [riemann_sum] *)

Section RiemannLemmas.

Context {X : Type} `{PyFloat X}.
Local Open Scope py_scope.

Lemma for_each_fold {I S : Type} (body : I -> S -> result S) (g : S -> I -> S)
    (l : list I) :
  (forall i s, In i l -> body i s = Ok (g s i)) ->
  forall s, for_each body l s = Ok (fold_left g l s).
Proof.
  induction l as [|i l IH]; intros Hb s; simpl.
  - reflexivity.
  - rewrite Hb by (left; reflexivity). simpl.
    apply IH. intros j s' Hj. apply Hb. right; exact Hj.
Qed.



(** On a function that always returns a number, the loop computes the
    in-order sum of the specification. *)
Lemma riemann_sum_total (r : rule) (g : X -> X) (a b : X) (n : Z) :
  (1 <= n)%Z ->
  riemann_sum (total g) a b n (method_name r) = Ok (riemann_spec r g a b n).
Proof.
  intros Hn. unfold riemann_sum, riemann_spec.
  destruct (Z.leb_spec n 0) as [Hle|_]; [lia|].
  apply for_each_fold. intros i s _.
  destruct r; reflexivity.
Qed.

(** With one of the four methods, the loop of [integrar] is the loop of
    [riemann_sum]. *)
Lemma integrar_riemann_sum (r : rule) (f : pyfun X) (a b : X) (n : Z) :
  Int.integrar {| Int.funcion := f; Int.metodo := method_name r |} a b n
  = riemann_sum f a b n (method_name r).
Proof.
  destruct r; unfold Int.integrar, riemann_sum;
    cbn [Int.metodo Int.funcion method_name];
    destruct (n <=? 0)%Z; reflexivity.
Qed.

End RiemannLemmas.

(** ** Theorems on the Riemann sums *)



(** C9.  Constructed with one of the four methods, [RiemannIntegrator]
    accepts it, and [integrar] returns what the procedural [riemann_sum]
    returns on the same function, limits and [n]: the same number, or the
    same exception. *)
Theorem integrar_agrees_with_riemann_sum {X : Type} `{PyFloat X}
    (r : rule) (f : pyfun X) (a b : X) (n : Z) :
  exists self,
    Int.RiemannIntegrator_init f (method_name r) = Ok self /\
    Int.integrar self a b n = riemann_sum f a b n (method_name r).
Proof.
  exists {| Int.funcion := f; Int.metodo := method_name r |}. split.
  - destruct r; reflexivity.
  - apply integrar_riemann_sum.
Qed.

(** *** What the call does when a sample is missing *)

Section RiemannOutcome.

Context {X : Type} `{PyFloat X}.
Local Open Scope py_scope.



End RiemannOutcome.




(** *** Exactness claims, in exact and in binary64 arithmetic *)

Lemma length_count_from (k : nat) (lo : Z) : List.length (count_from lo k) = k.
Proof.
  revert lo. induction k as [|k IH]; intros lo; simpl; [reflexivity|].
  rewrite IH. reflexivity.
Qed.

Lemma fold_left_constant_term (c : R) (term : Z -> R) (l : list Z) :
  (forall i, term i = c) ->
  forall s, fold_left (fun suma i => (suma + term i)%R) l s
            = (s + INR (List.length l) * c)%R.
Proof.
  intros Hc. induction l as [|i l IH]; intros s.
  - simpl. ring.
  - cbn [fold_left]. rewrite IH, Hc.
    change (List.length (i :: l)) with (S (List.length l)).
    rewrite S_INR. ring.
Qed.

(** C7 (in exact arithmetic).  Over the reals, for the constant function
    [1], every [a], [b], every [n >= 1] and each of the four methods,
    [riemann_sum] returns exactly [b - a]. *)
Theorem riemann_sum_constant_one_exact
    (r : rule) (a b : R) (n : Z) :
  (1 <= n)%Z ->
  riemann_sum (total (fun _ : R => 1%R)) a b n (method_name r)
  = Ok (b - a)%R.
Proof.
  intros Hn. rewrite riemann_sum_total by exact Hn. f_equal.
  unfold riemann_spec.
  assert (Hnz : IZR n <> 0%R) by (apply not_0_IZR; lia).
  rewrite (fold_left_constant_term
             (c := ((b - a) / IZR n)%R)
             (fun i => (sample r (fun _ : R => 1%R) a ((b - a) / of_int n)%py i
                        * ((b - a) / of_int n))%py)).
  - unfold range, range2. rewrite length_count_from, Z.sub_0_r.
    rewrite INR_IZR_INZ, Z2Nat.id by lia. cbn. field. exact Hnz.
  - intros i. destruct r; cbn; field; exact Hnz.
Qed.

Lemma riemann_sum_constant_one_exact_witness :
  (1 <= 10)%Z /\
  riemann_sum (total (fun _ : R => 1%R)) 0%R 1%R 10 "left" = Ok (1 - 0)%R.
Proof.
  split; [lia|].
  apply (@riemann_sum_constant_one_exact Left 0%R 1%R 10).
  lia.
Defined.

(** C7, the claim as stated fails on the floats the code computes with:
    with [f(x) = 1] on [[0, 1]], [n = 10] and the left rule, ten additions
    of [0.1] give [0.9999999999999999], not [1 - 0]. *)
Lemma riemann_sum_constant_one_rounds :
  riemann_sum (total (fun _ : float => F64.of_Z 1))
              (F64.of_Z 0) (F64.of_Z 1) 10 "left"
  = Ok (PrimFloat.sub (F64.of_Z 1) (Ex.q 1 9007199254740992)) /\
  riemann_sum (total (fun _ : float => F64.of_Z 1))
              (F64.of_Z 0) (F64.of_Z 1) 10 "left"
  <> Ok (PrimFloat.sub (F64.of_Z 1) (F64.of_Z 0)).
Proof.
  split.
  - vm_compute. reflexivity.
  - intros E.
    assert (E' : match riemann_sum (total (fun _ : float => F64.of_Z 1))
                         (F64.of_Z 0) (F64.of_Z 1) 10 "left" with
                 | Ok s => PrimFloat.ltb s (F64.of_Z 1)
                 | Raise _ => false
                 end = true) by (vm_compute; reflexivity).
    rewrite E in E'. vm_compute in E'. discriminate E'.
Qed.

(** C8 (in exact arithmetic).  Over the reals, for every function
    returning numbers and every [a], [b], the trapezoid rule with one
    subinterval returns exactly [(f(a) + f(b))/2 * (b - a)]. *)
Theorem riemann_sum_one_trapezoid_exact (g : R -> R) (a b : R) :
  riemann_sum (total g) a b 1 "trapezoid"
  = Ok ((g a + g b) / 2 * (b - a))%R.
Proof.
  change "trapezoid"%string with (method_name Trapezoid).
  rewrite riemann_sum_total by lia. f_equal.
  unfold riemann_spec.
  change (range 1) with [0%Z]. cbn.
  replace (a + 0 * ((b - a) / 1))%R with a by field.
  replace (a + 1 * ((b - a) / 1))%R with b by field.
  field.
Qed.

(** C8, the claim as stated fails on the floats the code computes with:
    the right end of the only subinterval is computed as
    [a + 1 * ((b - a)/1)], which need not be [b].  With [f(x) = x],
    [a = 0.2] and [b = 0.9] it is [0.8999999999999999], and the sum
    returned differs from [(f(a) + f(b))/2 * (b - a)]. *)
Lemma riemann_sum_one_trapezoid_rounds :
  let a := Ex.q 2 10 in
  let b := Ex.q 9 10 in
  PrimFloat.eqb (a + of_int 1 * ((b - a) / of_int 1))%py b = false /\
  riemann_sum (total (fun x : float => x)) a b 1 "trapezoid"
  <> Ok ((a + b) / of_int 2 * (b - a))%py.
Proof.
  cbv zeta. split.
  - vm_compute. reflexivity.
  - intros E.
    assert (E' : match riemann_sum (total (fun x : float => x))
                         (Ex.q 2 10) (Ex.q 9 10) 1 "trapezoid" with
                 | Ok s => PrimFloat.eqb s
                             ((Ex.q 2 10 + Ex.q 9 10) / of_int 2
                              * (Ex.q 9 10 - Ex.q 2 10))%py
                 | Raise _ => true
                 end = false) by (vm_compute; reflexivity).
    rewrite E in E'. vm_compute in E'. discriminate E'.
Qed.

(** ** Blocks of probes *)

Section TracedLemmas.

Context {X : Type} `{PyFloat X}.
Local Open Scope py_scope.
Local Open Scope traced_scope.

Lemma mbind_next {A B : Type} (m : M X A) (k : A -> M X B) (a : A) :
  snd m = Next a -> mbind m k = (fst m ++ fst (k a), snd (k a)).
Proof. intros E. unfold mbind. rewrite E. reflexivity. Qed.

Lemma mbind_return {A B : Type} (m : M X A) (k : A -> M X B) (v : bool) :
  snd m = Return v -> mbind m k = (fst m, Return v).
Proof. intros E. unfold mbind. rewrite E. reflexivity. Qed.

Lemma mbind_throw {A B : Type} (m : M X A) (k : A -> M X B) (e : exn) :
  snd m = Throw e -> mbind m k = (fst m, Throw e).
Proof. intros E. unfold mbind. rewrite E. reflexivity. Qed.

Lemma mbind_lift_ok {A B : Type} (a : A) (k : A -> M X B) :
  mbind (lift (Ok a)) k = k a.
Proof. unfold mbind, lift. simpl. destruct (k a); reflexivity. Qed.

Lemma seq_next (m1 m2 : M X unit) :
  snd (m1 ;;; m2) = Next tt ->
  snd m1 = Next tt /\ snd m2 = Next tt /\ fst (m1 ;;; m2) = fst m1 ++ fst m2.
Proof.
  unfold mbind. destruct (snd m1) as [[]|v|e]; cbn [fst snd];
    intros E; try discriminate E.
  repeat split. exact E.
Qed.

(** Sequencing two blocks of probes; the second one is only reached, and
    only needs to be a block of probes, when the first test holds. *)
Lemma checks_seq {A : Type} (m1 : M X unit) (m2 : M X A) (v : A)
    (c1 c2 : bool) (T1 T2 : list X) :
  checks m1 c1 T1 -> (c1 = true -> checks_to m2 v c2 T2) ->
  checks_to (m1 ;;; m2) v (c1 && c2) (T1 ++ T2).
Proof.
  intros [I1 S1] H2. destruct c1; simpl.
  - destruct (H2 eq_refl) as [I2 S2].
    rewrite (mbind_next _ _ S1). simpl. split.
    + apply incl_app; [apply incl_appl; exact I1|apply incl_appr; exact I2].
    + exact S2.
  - split.
    + destruct S1 as [S1|[e S1]];
        [rewrite (mbind_return _ _ S1)|rewrite (mbind_throw _ _ S1)];
        simpl; apply incl_appl; exact I1.
    + destruct S1 as [S1|[e S1]];
        [rewrite (mbind_return _ _ S1)|rewrite (mbind_throw _ _ S1)];
        simpl; [left; reflexivity|right; exists e; reflexivity].
Qed.

Lemma checks_skip : checks (mret (X := X) tt) true [].
Proof. split; [apply incl_refl|reflexivity]. Qed.

Lemma checks_for {B : Type} (body : B -> M X unit) (c : B -> bool)
    (T : B -> list X) (l : list B) :
  (forall x, In x l -> checks (body x) (c x) (T x)) ->
  checks (for_ l body) (forallb c l) (flat_map T l).
Proof.
  induction l as [|x l IH]; intros Hb.
  - exact checks_skip.
  - cbn [for_ forallb flat_map]. apply checks_seq.
    + apply Hb. left; reflexivity.
    + intros _. apply IH. intros y Hy. apply Hb. right; exact Hy.
Qed.

(** [try: ... except Exception: return False] keeps a block of probes and
    stops its exceptions. *)
Lemma checks_try (m : M X unit) (c : bool) (T : list X) :
  checks m c T -> checks (try_except m (return_ false)) c T.
Proof.
  intros [I S]. unfold try_except. destruct c.
  - rewrite S. split; [exact I|exact S].
  - destruct S as [S|[e S]]; rewrite S.
    + split; [exact I|left; exact S].
    + simpl. rewrite app_nil_r. split; [exact I|left; reflexivity].
Qed.

Lemma nothrow_try {A : Type} (m : M X A) (v : bool) :
  nothrow (try_except m (return_ v)).
Proof.
  intros e. unfold try_except. destruct (snd m) eqn:E; simpl;
    try rewrite E; discriminate.
Qed.

Lemma nothrow_seq {A B : Type} (m : M X A) (k : A -> M X B) :
  nothrow m -> (forall a, snd m = Next a -> nothrow (k a)) ->
  nothrow (mbind m k).
Proof.
  intros N1 N2 e. destruct (snd m) as [a|v|e'] eqn:E.
  - rewrite (mbind_next _ _ E). simpl. apply N2. reflexivity.
  - rewrite (mbind_return _ _ E). discriminate.
  - exfalso. exact (N1 e' E).
Qed.

Lemma nothrow_mret {A : Type} (a : A) : nothrow (mret (X := X) a).
Proof. intros e. discriminate. Qed.

Lemma nothrow_for {B : Type} (body : B -> M X unit) (l : list B) :
  (forall x, In x l -> nothrow (body x)) -> nothrow (for_ l body).
Proof.
  induction l as [|x l IH]; intros Hb.
  - apply nothrow_mret.
  - cbn [for_]. apply nothrow_seq.
    + apply Hb. left; reflexivity.
    + intros _ _. apply IH. intros y Hy. apply Hb. right; exact Hy.
Qed.

(** One probe of Clase_Integrales.py. *)
Lemma checks_probe (f : pyfun X) (x : X) :
  checks (probe f x) (good f x) [x].
Proof.
  unfold probe, good, checks_to, mbind, call.
  destruct (f x) as [v|e]; simpl.
  - destruct (undefined_ v); simpl;
      (split; [apply incl_refl|]); [left|]; reflexivity.
  - split; [apply incl_refl|]. right. exists e. reflexivity.
Qed.

Lemma fst_probe (f : pyfun X) (x : X) : fst (probe f x) = [x].
Proof.
  unfold probe, mbind, call. destruct (f x) as [v|e]; simpl;
    [destruct (undefined_ v)|]; reflexivity.
Qed.

Lemma good_number (f : pyfun X) (x : X) :
  good f x = true ->
  exists v, f x = Ok (Num v) /\ isnan v = false /\ isinf v = false.
Proof.
  unfold good. destruct (f x) as [[v|]|e]; simpl; try discriminate.
  intros E. exists v. apply negb_true_iff, orb_false_iff in E.
  split; [reflexivity|exact E].
Qed.

(** Step 1. *)
Lemma checks_paso1 (f : pyfun X) (a b : X) :
  checks (paso1_extremos f a b) (good f a && good f b) [a; b]
  /\ nothrow (paso1_extremos f a b).
Proof.
  split; [|apply nothrow_try].
  unfold paso1_extremos, good, checks_to, try_except, mbind, call.
  destruct (f a) as [va|ea]; simpl.
  - destruct (f b) as [vb|eb]; simpl.
    + destruct (undefined_ va); simpl.
      * split; [apply incl_refl|left; reflexivity].
      * destruct (undefined_ vb); simpl;
          (split; [apply incl_refl|]); [left|]; reflexivity.
    + rewrite andb_false_r.
      split; [apply incl_refl|left; reflexivity].
  - split; [|left; reflexivity].
    intros x [<-|[]]. left; reflexivity.
Qed.

(** Step 2, and every refined gap of step 3. *)
Lemma checks_paso2 (f : pyfun X) (l : list X) :
  checks (paso2_uniformes f l) (forallb (good f) l) l
  /\ nothrow (paso2_uniformes f l).
Proof.
  split; [|apply nothrow_try].
  unfold paso2_uniformes. apply checks_try.
  replace l with (flat_map (fun x => [x]) l) at 3.
  - apply checks_for. intros x _. apply checks_probe.
  - induction l as [|x l IH]; simpl; [|rewrite IH]; reflexivity.
Qed.

End TracedLemmas.

(** ** The four steps of [verificar_dominio] *)

Section StepLemmas.

Context {X : Type} `{PyFloat X}.
Local Open Scope py_scope.
Local Open Scope traced_scope.

Lemma forallb_flat_map {B : Type} (c : X -> bool) (T : B -> list X)
    (l : list B) :
  forallb c (flat_map T l) = forallb (fun x => forallb c (T x)) l.
Proof.
  induction l as [|x l IH]; [reflexivity|].
  cbn [flat_map forallb]. rewrite forallb_app, IH. reflexivity.
Qed.

Lemma length_np_diff (l : list X) :
  List.length (np_diff l) = (List.length l - 1)%nat.
Proof.
  induction l as [|x [|y t] IH]; try reflexivity.
  change (np_diff (x :: y :: t)) with ((y - x) :: np_diff (y :: t)).
  cbn [List.length] in *. rewrite IH. lia.
Qed.

Lemma np_where_gt_bound (l : list X) (u : X) (i : nat) :
  In i (np_where_gt l u) -> (i < List.length l)%nat.
Proof.
  unfold np_where_gt. intros Hi.
  apply in_map_iff in Hi. destruct Hi as [[j x] [<- Hp]].
  apply filter_In in Hp. destruct Hp as [Hp _].
  apply in_combine_l in Hp. apply in_seq in Hp. simpl. lia.
Qed.

Lemma sospechosos_bound (f : pyfun X) (grid : list X) (i : nat) :
  In i (sospechosos f grid) -> (i + 1 < List.length grid)%nat.
Proof.
  unfold sospechosos. intros Hi. apply np_where_gt_bound in Hi.
  unfold np_abs, valores_de in Hi.
  rewrite length_map, length_np_diff, length_map in Hi. lia.
Qed.

Lemma getitem_nth (l : list X) (i : nat) (d : X) :
  (i < List.length l)%nat -> getitem l i = Ok (nth i l d).
Proof.
  intros Hi. unfold getitem.
  rewrite (nth_error_nth' l d Hi). reflexivity.
Qed.

(** The comprehension of step 3 on a grid that passed step 2. *)
Lemma comprehension_valores (f : pyfun X) (l : list X) :
  forallb (good f) l = true ->
  comprehension (call f) l = (l, Next (map Num (valores_de f l))).
Proof.
  induction l as [|x l IH]; intros Hg.
  - reflexivity.
  - cbn [forallb] in Hg. apply andb_true_iff in Hg. destruct Hg as [Hx Hl].
    cbn [comprehension valores_de map]. rewrite (IH Hl).
    destruct (good_number f x Hx) as [v [Hv _]].
    unfold mbind, call, mmap. rewrite Hv. reflexivity.
Qed.

Lemma np_asarray_numeros (l : list X) : np_asarray (map Num l) = Ok l.
Proof.
  induction l as [|x l IH]; [reflexivity|].
  cbn [map np_asarray as_num bind]. rewrite IH. reflexivity.
Qed.

(** Step 3 on a grid that passed step 2: no exception can leave it. *)
Lemma checks_paso3 (f : pyfun X) (grid : list X) :
  forallb (good f) grid = true ->
  checks (paso3_adaptativo f grid) (forallb (good f) (refinados f grid))
         (grid ++ refinados f grid)
  /\ nothrow (paso3_adaptativo f grid).
Proof.
  intros Hg. unfold paso3_adaptativo.
  rewrite (mbind_next _ _ (a := map Num (valores_de f grid)))
    by (rewrite (comprehension_valores f grid Hg); reflexivity).
  rewrite (comprehension_valores f grid Hg). cbn [fst snd].
  rewrite np_asarray_numeros, mbind_lift_ok.
  fold (sospechosos f grid).
  set (body := fun i : nat =>
        x_izq <~ lift (getitem grid i) ;;
        x_der <~ lift (getitem grid (i + 1)) ;;
        try_except (for_ (np_linspace x_izq x_der 100) (probe f))
                   (return_ false)).
  assert (Hbody : forall i, In i (sospechosos f grid) ->
            body i = paso2_uniformes f
                       (np_linspace (nth i grid (of_int 0))
                                    (nth (i + 1) grid (of_int 0)) 100)).
  { intros i Hi. apply sospechosos_bound in Hi. unfold body.
    rewrite (getitem_nth grid (of_int 0)) by lia. rewrite mbind_lift_ok.
    rewrite (getitem_nth grid (of_int 0)) by lia. rewrite mbind_lift_ok.
    reflexivity. }
  split.
  - split.
    + cbn [fst]. apply incl_app; [apply incl_appl, incl_refl|].
      apply incl_appr.
      apply (checks_for body
               (fun i => forallb (good f)
                           (np_linspace (nth i grid (of_int 0))
                                        (nth (i + 1) grid (of_int 0)) 100))
               (fun i => np_linspace (nth i grid (of_int 0))
                                     (nth (i + 1) grid (of_int 0)) 100)).
      intros i Hi. rewrite (Hbody i Hi). apply checks_paso2.
    + cbn [snd]. unfold refinados. rewrite forallb_flat_map.
      apply (checks_for body
               (fun i => forallb (good f)
                           (np_linspace (nth i grid (of_int 0))
                                        (nth (i + 1) grid (of_int 0)) 100))
               (fun i => np_linspace (nth i grid (of_int 0))
                                     (nth (i + 1) grid (of_int 0)) 100)).
      intros i Hi. rewrite (Hbody i Hi). apply checks_paso2.
  - intros e. cbn [snd]. apply nothrow_for.
    intros i Hi. rewrite (Hbody i Hi). apply checks_paso2.
Qed.

(** Step 4: around each special point the probes are [vecinos]. *)
Lemma checks_punto (f : pyfun X) (a b tolerancia punto : X) :
  let m :=
    try_except (probe f punto) (return_ false) ;;;
    (if a + tolerancia <? punto
     then try_except (probe f (punto - tolerancia)) (return_ false)
     else mret tt) ;;;
    (if punto <? b - tolerancia
     then try_except (probe f (punto + tolerancia)) (return_ false)
     else mret tt) in
  checks m (forallb (good f) (vecinos a b tolerancia punto))
         (vecinos a b tolerancia punto)
  /\ nothrow m
  /\ (snd m = Next tt -> fst m = vecinos a b tolerancia punto).
Proof.
  cbv zeta. unfold vecinos.
  assert (P : forall x, checks (try_except (probe f x) (return_ false))
                               (good f x) [x]
                        /\ fst (try_except (probe f x) (return_ false)) = [x]).
  { intros x. split; [apply checks_try, checks_probe|].
    unfold try_except. pose proof (fst_probe f x) as Fx.
    destruct (snd (probe f x)); simpl; rewrite Fx; reflexivity. }
  split; [|split].
  - change (punto :: ?l) with ([punto] ++ l).
    rewrite forallb_app. cbn [forallb]. rewrite andb_true_r.
    apply checks_seq; [apply (proj1 (P _))|]. intros _.
    rewrite forallb_app. apply checks_seq.
    + destruct (a + tolerancia <? punto); cbn [forallb].
      * rewrite andb_true_r. apply (proj1 (P _)).
      * apply checks_skip.
    + intros _. destruct (punto <? b - tolerancia); cbn [forallb].
      * rewrite andb_true_r. apply (proj1 (P _)).
      * apply checks_skip.
  - apply nothrow_seq; [apply nothrow_try|]. intros _ _.
    apply nothrow_seq.
    + destruct (a + tolerancia <? punto);
        [apply nothrow_try|apply nothrow_mret].
    + intros _ _. destruct (punto <? b - tolerancia);
        [apply nothrow_try|apply nothrow_mret].
  - intros E. apply seq_next in E. destruct E as [_ [E F]]. rewrite F.
    apply seq_next in E. destruct E as [_ [_ F']]. rewrite F'.
    rewrite (proj2 (P punto)).
    destruct (a + tolerancia <? punto), (punto <? b - tolerancia);
      repeat rewrite (proj2 (P _)); reflexivity.
Qed.

Lemma checks_paso4 (f : pyfun X) (a b tolerancia : X) (puntos : list X) :
  checks (paso4_especiales f a b tolerancia puntos)
         (forallb (good f) (flat_map (vecinos a b tolerancia) puntos))
         (flat_map (vecinos a b tolerancia) puntos)
  /\ nothrow (paso4_especiales f a b tolerancia puntos).
Proof.
  unfold paso4_especiales. split.
  - rewrite forallb_flat_map.
    apply (checks_for _ (fun p => forallb (good f) (vecinos a b tolerancia p))
                        (vecinos a b tolerancia)).
    intros p _. apply (checks_punto f a b tolerancia p).
  - apply nothrow_for. intros p _. apply (checks_punto f a b tolerancia p).
Qed.

(** When step 4 falls through, it has evaluated the function at the
    neighbourhoods of the special points, one after the other, and nowhere
    else. *)
Lemma fst_paso4 (f : pyfun X) (a b tolerancia : X) (puntos : list X) :
  snd (paso4_especiales f a b tolerancia puntos) = Next tt ->
  fst (paso4_especiales f a b tolerancia puntos)
  = flat_map (vecinos a b tolerancia) puntos.
Proof.
  unfold paso4_especiales. induction puntos as [|p l IH].
  - reflexivity.
  - cbn [for_ flat_map]. intros E.
    apply seq_next in E. destruct E as [Ep [El F]]. rewrite F.
    pose proof (checks_punto f a b tolerancia p) as [_ [_ Hp]].
    cbv zeta in Hp. rewrite (Hp Ep), (IH El). reflexivity.
Qed.

End StepLemmas.

(** ** The whole of [verificar_dominio] (Clase_Integrales.py) *)

Section BodyLemmas.

Context {X : Type} `{PyFloat X}.
Local Open Scope py_scope.
Local Open Scope traced_scope.

Lemma forallb_todos (n_verificacion : Z) (f : pyfun X) (a b tolerancia : X)
    (int_a int_b : Z) :
  let grid := np_linspace a b n_verificacion in
  forallb (good f) (todos_los_puntos n_verificacion f a b tolerancia int_a int_b)
  = (good f a && good f b)
    && (forallb (good f) grid
        && (forallb (good f) (refinados f grid)
            && (forallb (good f)
                  (flat_map (vecinos a b tolerancia)
                            (pyset (puntos_especiales a b int_a int_b)))
                && true))).
Proof.
  cbv zeta. unfold todos_los_puntos.
  rewrite !forallb_app. cbn [forallb].
  destruct (good f a), (good f b),
    (forallb (good f) (np_linspace a b n_verificacion)),
    (forallb (good f) (refinados f (np_linspace a b n_verificacion)));
    cbn [andb]; try reflexivity;
    rewrite ?andb_true_r; reflexivity.
Qed.

(** The verdict is the conjunction of all the probes, the function is
    evaluated at probe points only, and no exception leaves the body,
    provided [int(a)] and [int(b)] are defined ([a] and [b] are finite). *)
Lemma verificar_dominio_body_spec (n_verificacion : Z) (f : pyfun X)
    (a b tolerancia : X) (int_a int_b : Z) :
  int_ a = Ok int_a -> int_ b = Ok int_b ->
  let T := todos_los_puntos n_verificacion f a b tolerancia int_a int_b in
  incl (fst (run (verificar_dominio_body n_verificacion f a b tolerancia))) T
  /\ snd (run (verificar_dominio_body n_verificacion f a b tolerancia))
     = Ok (forallb (good f) T).
Proof.
  intros Ha Hb T.
  set (grid := np_linspace a b n_verificacion).
  set (pts := pyset (puntos_especiales a b int_a int_b)).
  assert (C : checks_to (verificar_dominio_body n_verificacion f a b tolerancia)
                true (forallb (good f) T)
                ([a; b] ++ grid ++ (grid ++ refinados f grid)
                 ++ (flat_map (vecinos a b tolerancia) pts ++ []))
              /\ nothrow (verificar_dominio_body n_verificacion f a b tolerancia)).
  { unfold T. rewrite forallb_todos. fold grid. fold pts.
    unfold verificar_dominio_body. fold grid.
    rewrite Ha, Hb.
    split.
    - apply checks_seq; [apply checks_paso1|]. intros _.
      apply checks_seq; [apply checks_paso2|]. intros Hg.
      apply checks_seq; [apply (checks_paso3 f grid Hg)|]. intros _.
      rewrite !mbind_lift_ok.
      apply checks_seq; [apply checks_paso4|]. intros _.
      split; [apply incl_refl|reflexivity].
    - apply nothrow_seq; [apply checks_paso1|]. intros _ _.
      destruct (forallb (good f) grid) eqn:Hg.
      + apply nothrow_seq; [apply checks_paso2|]. intros _ _.
        apply nothrow_seq; [apply (checks_paso3 f grid Hg)|]. intros _ _.
        rewrite !mbind_lift_ok.
        apply nothrow_seq; [apply checks_paso4|]. intros _ _.
        apply nothrow_mret.
      + pose proof (checks_paso2 f grid) as [[_ S] N]. rewrite Hg in S.
        destruct S as [S|[e S]]; [|exfalso; exact (N e S)].
        rewrite (mbind_return _ _ S). intros e. discriminate. }
  destruct C as [[I S] N]. split.
  - unfold run. cbn [fst]. unfold T, todos_los_puntos. fold grid. fold pts.
    rewrite app_nil_r in I. exact I.
  - unfold run. cbn [snd]. destruct (forallb (good f) T).
    + rewrite S. reflexivity.
    + destruct S as [S|[e S]]; [rewrite S; reflexivity|].
      exfalso. exact (N e S).
Qed.

End BodyLemmas.

(** ** The whole of [verificar_dominio] (Int.py) *)

Section IntLemmas.

Context {X : Type} `{PyFloat X}.
Local Open Scope py_scope.
Local Open Scope traced_scope.

(** One probe of Int.py: [if np.isnan(f(x)) or np.isinf(f(x)): return False]. *)
Lemma checks_probe_Int (f : pyfun X) (x : X) :
  checks (Int.return_false_if (Int.or_ (Int.np_isnan f x) (Int.np_isinf f x)))
         (good f x) [x].
Proof.
  unfold Int.return_false_if, Int.or_, Int.np_isnan, Int.np_isinf,
    good, checks_to, mbind, call, lift.
  destruct (f x) as [[v|]|e]; cbn.
  - destruct (isnan v); cbn.
    + split; [apply incl_refl|left; reflexivity].
    + destruct (isinf v); cbn;
        (split; [intros y [<-|[<-|[]]]; left; reflexivity|]);
        [left|]; reflexivity.
  - split; [apply incl_refl|right; eexists; reflexivity].
  - split; [apply incl_refl|right; eexists; reflexivity].
Qed.

(** The test on the two end points, which calls the function up to four
    times. *)
Lemma checks_extremos_Int (f : pyfun X) (a b : X) :
  checks (Int.return_false_if
            (Int.or_ (Int.np_isnan f a) (Int.or_ (Int.np_isnan f b)
               (Int.or_ (Int.np_isinf f a) (Int.np_isinf f b)))))
         (good f a && good f b) [a; b].
Proof.
  assert (Ia : forall l, (forall y, In y l -> y = a \/ y = b) -> incl l [a; b]).
  { intros l Hl y Hy. destruct (Hl y Hy) as [->| ->];
      [left|right; left]; reflexivity. }
  unfold Int.return_false_if, Int.or_, Int.np_isnan, Int.np_isinf,
    good, checks_to, mbind, call, lift.
  destruct (f a) as [[va|]|ea]; cbn.
  - destruct (isnan va); cbn.
    + split; [apply Ia; intros y [<-|[]]; auto|left; reflexivity].
    + destruct (f b) as [[vb|]|eb]; cbn.
      * destruct (isnan vb); cbn.
        -- rewrite andb_false_r.
           split; [apply Ia; intros y [<-|[<-|[]]]; auto|left; reflexivity].
        -- destruct (isinf va); cbn.
           ++ split; [apply Ia; intros y [<-|[<-|[<-|[]]]]; auto
                     |left; reflexivity].
           ++ destruct (isinf vb); cbn;
                (split; [apply Ia; intros y [<-|[<-|[<-|[<-|[]]]]]; auto|]);
                [left|]; reflexivity.
      * rewrite andb_false_r.
        split; [apply Ia; intros y [<-|[<-|[]]]; auto
               |right; eexists; reflexivity].
      * rewrite andb_false_r.
        split; [apply Ia; intros y [<-|[<-|[]]]; auto
               |right; eexists; reflexivity].
  - split; [apply Ia; intros y [<-|[]]; auto|right; eexists; reflexivity].
  - split; [apply Ia; intros y [<-|[]]; auto|right; eexists; reflexivity].
Qed.

Lemma checks_lista_Int (f : pyfun X) (l : list X) :
  checks (for_ l (fun x =>
            Int.return_false_if (Int.or_ (Int.np_isnan f x) (Int.np_isinf f x))))
         (forallb (good f) l) l.
Proof.
  replace l with (flat_map (fun x => [x]) l) at 3.
  - apply checks_for. intros x _. apply checks_probe_Int.
  - induction l as [|x l IH]; simpl; [|rewrite IH]; reflexivity.
Qed.

(** A guarded neighbour: [if <cond> and (np.isnan(f(y)) or np.isinf(f(y)))]. *)
Lemma checks_vecino_Int (f : pyfun X) (cond : bool) (y : X) :
  checks (Int.return_false_if
            (Int.and_ cond (Int.or_ (Int.np_isnan f y) (Int.np_isinf f y))))
         (forallb (good f) (if cond then [y] else []))
         (if cond then [y] else []).
Proof.
  destruct cond; cbn [Int.and_ forallb].
  - rewrite andb_true_r. apply checks_probe_Int.
  - split; [apply incl_refl|reflexivity].
Qed.

Lemma verificar_dominio_Int_spec (f : pyfun X) (a b tolerancia : X)
    (int_a int_b : Z) :
  int_ a = Ok int_a -> int_ b = Ok int_b ->
  let T := todos_los_puntos 1000 f a b tolerancia int_a int_b in
  incl (fst (Int.verificar_dominio f a b tolerancia)) T
  /\ snd (Int.verificar_dominio f a b tolerancia) = Ok (forallb (good f) T).
Proof.
  intros Ha Hb T.
  set (grid := np_linspace a b 1000).
  set (pts := pyset (puntos_especiales a b int_a int_b)).
  unfold Int.verificar_dominio. fold grid. rewrite Ha, Hb.
  match goal with
  | |- context [try_except ?m _] => set (body := m)
  end.
  assert (C : checks_to body true (forallb (good f) T)
                ([a; b] ++ grid ++ (grid ++ refinados f grid)
                 ++ (flat_map (vecinos a b tolerancia) pts ++ []))).
  { unfold T. rewrite forallb_todos. fold grid. fold pts. unfold body.
    apply checks_seq; [apply checks_extremos_Int|]. intros _.
    apply checks_seq; [apply checks_lista_Int|]. intros Hg.
    rewrite (mbind_next _ _ (a := map Num (valores_de f grid)))
      by (rewrite (comprehension_valores f grid Hg); reflexivity).
    rewrite (comprehension_valores f grid Hg). cbn [fst snd].
    rewrite np_asarray_numeros, mbind_lift_ok.
    fold (sospechosos f grid).
    assert (G : forall (m : M X bool) c T',
               checks_to m true c T' ->
               checks_to (grid ++ fst m, snd m) true c (grid ++ T')).
    { intros m c T' [I S]. split; [|exact S]. cbn [fst].
      apply incl_app; [apply incl_appl, incl_refl|apply incl_appr; exact I]. }
    rewrite <- app_assoc. apply G.
    apply checks_seq.
    - unfold refinados. rewrite forallb_flat_map.
      apply (checks_for _
               (fun i => forallb (good f)
                           (np_linspace (nth i grid (of_int 0))
                                        (nth (i + 1) grid (of_int 0)) 100))
               (fun i => np_linspace (nth i grid (of_int 0))
                                     (nth (i + 1) grid (of_int 0)) 100)).
      intros i Hi. apply sospechosos_bound in Hi.
      rewrite (getitem_nth grid (of_int 0)) by lia. rewrite mbind_lift_ok.
      rewrite (getitem_nth grid (of_int 0)) by lia. rewrite mbind_lift_ok.
      apply checks_lista_Int.
    - intros _. rewrite !mbind_lift_ok.
      apply checks_seq; [|intros _; split; [apply incl_refl|reflexivity]].
      rewrite forallb_flat_map.
      apply (checks_for _
               (fun p => forallb (good f) (vecinos a b tolerancia p))
               (vecinos a b tolerancia)).
      intros p _. unfold vecinos.
      change (p :: ?l) with ([p] ++ l).
      rewrite forallb_app. cbn [forallb]. rewrite andb_true_r.
      apply checks_seq; [apply checks_probe_Int|]. intros _.
      rewrite forallb_app.
      apply checks_seq; [apply checks_vecino_Int|]. intros _.
      apply checks_vecino_Int. }
  destruct C as [I S]. rewrite app_nil_r in I.
  unfold run, try_except. split.
  - cbn [fst]. destruct (snd body); cbn [fst return_]; try exact I.
    rewrite app_nil_r. exact I.
  - cbn [snd]. destruct (forallb (good f) T).
    + rewrite S. cbn iota. rewrite S. reflexivity.
    + destruct S as [S|[e S]]; rewrite S; cbn iota; [rewrite S|];
        reflexivity.
Qed.

End IntLemmas.

(** ** Theorems on the domain validator, in every arithmetic *)

Lemma fail_closed_of_spec {X : Type} `{PyFloat X} (f : pyfun X)
    (r : list X * result bool) (T : list X) :
  incl (fst r) T -> snd r = Ok (forallb (good f) T) -> fail_closed f r.
Proof.
  intros I S. exists (forallb (good f) T). split; [exact S|].
  intros x Hx Hbad.
  destruct (forallb (good f) T) eqn:E; [|reflexivity].
  rewrite forallb_forall in E. rewrite (E x (I x Hx)) in Hbad.
  discriminate Hbad.
Qed.

(** C3.  Whenever [int(a)] and [int(b)] are defined (that is, [a] and [b]
    are numbers, not infinities or NaN), [verificar_dominio] hands its
    caller a boolean and never an exception, whatever the function does,
    and the boolean is [False] as soon as one of the evaluations of the
    function failed (it raised, or returned [None], a NaN or an infinity).
    This holds for both copies of Clase_Integrales.py and for Int.py. *)
Theorem verificar_dominio_fail_closed {X : Type} `{PyFloat X}
    (f : pyfun X) (a b tolerancia : X) (int_a int_b : Z) :
  int_ a = Ok int_a -> int_ b = Ok int_b ->
  fail_closed f (verificar_dominio f a b tolerancia) /\
  fail_closed f (verificar_dominio_2 f a b tolerancia) /\
  fail_closed f (Int.verificar_dominio f a b tolerancia).
Proof.
  intros Ha Hb. repeat split.
  - destruct (verificar_dominio_body_spec 1000000 f a b tolerancia Ha Hb)
      as [I S].
    exact (fail_closed_of_spec f _ I S).
  - destruct (verificar_dominio_body_spec 1000 f a b tolerancia Ha Hb)
      as [I S].
    exact (fail_closed_of_spec f _ I S).
  - destruct (verificar_dominio_Int_spec f a b tolerancia Ha Hb) as [I S].
    exact (fail_closed_of_spec f _ I S).
Qed.

Lemma verificar_dominio_fail_closed_witness :
  int_ (F64.of_Z (-1)) = Ok (-1)%Z /\ int_ (F64.of_Z 1) = Ok 1%Z /\
  fail_closed Ex.inv
    (verificar_dominio Ex.inv (F64.of_Z (-1)) (F64.of_Z 1) Ex.tol) /\
  fail_closed Ex.inv
    (verificar_dominio_2 Ex.inv (F64.of_Z (-1)) (F64.of_Z 1) Ex.tol) /\
  fail_closed Ex.inv
    (Int.verificar_dominio Ex.inv (F64.of_Z (-1)) (F64.of_Z 1) Ex.tol).
Proof.
  split; [reflexivity|]. split; [reflexivity|].
  apply (@verificar_dominio_fail_closed float float_PyFloat Ex.inv
           (F64.of_Z (-1)) (F64.of_Z 1) Ex.tol (-1)%Z 1%Z);
    reflexivity.
Defined.

(** ** The probe points, over the reals *)

Lemma In_count_from (k : nat) (lo i : Z) :
  In i (count_from lo k) <-> (lo <= i < lo + Z.of_nat k)%Z.
Proof.
  revert lo. induction k as [|k IH]; intros lo.
  - simpl. lia.
  - cbn [count_from In]. rewrite IH. lia.
Qed.

Lemma In_range2 (lo hi i : Z) : In i (range2 lo hi) <-> (lo <= i < hi)%Z.
Proof. unfold range2. rewrite In_count_from. lia. Qed.

Lemma In_range (n i : Z) : In i (range n) <-> (0 <= i < n)%Z.
Proof. apply In_range2. Qed.

Lemma pyset_incl {X : Type} `{PyFloat X} (l : list X) (x : X) :
  In x (pyset l) -> In x l.
Proof.
  induction l as [|y t IH]; [intros []|].
  cbn [pyset]. destruct (existsb (eqb y) t).
  - intros Hx. right. apply IH. exact Hx.
  - intros [<-|Hx]; [left; reflexivity|right; apply IH; exact Hx].
Qed.

Section ExactLemmas.

Local Open Scope R_scope.

Lemma Rleb_true (x y : R) : Exact.Rleb x y = true <-> x <= y.
Proof.
  unfold Exact.Rleb. destruct (Rle_dec x y) as [Hl|Hn]; split; intros Hx;
    try reflexivity; try exact Hl; try discriminate Hx; contradiction.
Qed.

Lemma Rltb_true (x y : R) : Exact.Rltb x y = true <-> x < y.
Proof.
  unfold Exact.Rltb. destruct (Rlt_dec x y) as [Hl|Hn]; split; intros Hx;
    try reflexivity; try exact Hl; try discriminate Hx; contradiction.
Qed.

Lemma Reqb_true (x y : R) : Exact.Reqb x y = true <-> x = y.
Proof.
  unfold Exact.Reqb. destruct (Req_dec_T x y) as [Hl|Hn]; split; intros Hx;
    try reflexivity; try exact Hl; try discriminate Hx; contradiction.
Qed.

Lemma between_true (a b x : R) :
  (leb a x && leb x b)%py = true <-> a <= x <= b.
Proof.
  cbn [leb R_PyFloat]. rewrite andb_true_iff, !Rleb_true. tauto.
Qed.

(** Over the reals [set] keeps exactly the elements of the list. *)
Lemma pyset_In_R (l : list R) (x : R) : In x (pyset l) <-> In x l.
Proof.
  split; [apply pyset_incl|].
  induction l as [|y t IH]; [intros []|].
  cbn [pyset]. intros [->|Hx].
  - destruct (existsb (eqb x) t) eqn:E.
    + apply IH. apply existsb_exists in E. destruct E as [z [Hz Ez]].
      cbn [eqb R_PyFloat] in Ez. apply Reqb_true in Ez. subst z. exact Hz.
    + left; reflexivity.
  - destruct (existsb (eqb y) t); [|right]; apply IH; exact Hx.
Qed.

(** [int(x)] brackets the integers on the right side of [x]. *)
Lemma to_Z_le (x : R) (k : Z) : x <= IZR k -> (Exact.to_Z x <= k)%Z.
Proof.
  intros Hk. unfold Exact.to_Z. destruct (Rle_dec 0 x) as [Hx|Hx].
  - destruct (base_Int_part x) as [B1 B2].
    apply le_IZR. lra.
  - destruct (base_Int_part (- x)) as [B1 B2].
    assert (Hlt : IZR (- Int_part (- x)) < IZR k + 1).
    { rewrite opp_IZR. lra. }
    rewrite <- plus_IZR in Hlt. apply lt_IZR in Hlt. lia.
Qed.

Lemma to_Z_ge (x : R) (k : Z) : IZR k <= x -> (k <= Exact.to_Z x)%Z.
Proof.
  intros Hk. unfold Exact.to_Z. destruct (Rle_dec 0 x) as [Hx|Hx].
  - destruct (base_Int_part x) as [B1 B2].
    assert (Hlt : IZR k < IZR (Int_part x) + 1) by lra.
    rewrite <- plus_IZR in Hlt. apply lt_IZR in Hlt. lia.
  - destruct (base_Int_part (- x)) as [B1 B2].
    apply le_IZR. rewrite opp_IZR. lra.
Qed.

(** The list built in step 4 holds the special points of the
    specification and nothing else. *)
Lemma puntos_especiales_R (a b p : R) :
  In p (puntos_especiales a b (Exact.to_Z a) (Exact.to_Z b))
  <-> special_point a b p.
Proof.
  unfold puntos_especiales, special_point.
  rewrite !in_app_iff, !filter_In, in_flat_map, !between_true.
  split.
  - intros [[Hp Hab]|[[i [Hi Hp]]|[Hp Hab]]].
    + split; [exact Hab|]. left.
      apply in_map_iff in Hp. destruct Hp as [k [<- _]].
      exists k. reflexivity.
    + apply filter_In in Hp. destruct Hp as [Hp Hab].
      apply between_true in Hab. split; [exact Hab|]. right; left.
      apply in_map_iff in Hp. destruct Hp as [j [<- Hj]].
      apply In_range2 in Hi. apply In_range in Hj.
      exists i, j. repeat split; try lia.
    + split; [exact Hab|]. right; right. exact Hp.
  - intros [Hab [[k ->]|[[i [j [Hi [Hj ->]]]]|Hp]]].
    + left. split; [|exact Hab].
      apply in_map_iff. exists k. split; [reflexivity|].
      apply In_range2. destruct Hab as [Hak Hkb].
      apply to_Z_le in Hak. apply to_Z_ge in Hkb. lia.
    + assert (Hi0 : IZR i <> 0) by (apply not_0_IZR; lia).
      destruct (Z.eq_dec j i) as [->|Hne].
      * (* j = i: the point is the integer 1 *)
        left.
        assert (E1 : IZR i / IZR i = IZR 1) by (field; exact Hi0).
        rewrite E1 in *. split; [|exact Hab].
        apply in_map_iff. exists 1%Z. split; [reflexivity|].
        apply In_range2. destruct Hab as [Hak Hkb].
        apply to_Z_le in Hak. apply to_Z_ge in Hkb. lia.
      * right; left. exists i. split; [apply In_range2; lia|].
        apply filter_In. split; [|apply between_true; exact Hab].
        apply in_map_iff. exists j. split; [reflexivity|].
        apply In_range. lia.
    + right; right. split; assumption.
Qed.

(** Every sample of [np.linspace] lies between its two ends. *)
Lemma np_linspace_between (lo hi start stop : R) (num : Z) (p : R) :
  lo <= start <= hi -> lo <= stop <= hi ->
  In p (np_linspace start stop num) -> lo <= p <= hi.
Proof.
  intros Hs He. unfold np_linspace.
  destruct (num <=? 0)%Z; [intros []|].
  destruct (Z.eqb_spec num 1) as [_|Hn1]; [intros [<-|[]]; exact Hs|].
  rewrite in_app_iff. intros [Hp|[<-|[]]]; [|exact He].
  apply in_map_iff in Hp. destruct Hp as [i [<- Hi]].
  apply In_range in Hi. cbn [add sub mul div of_int R_PyFloat].
  assert (Hd : 0 < IZR (num - 1)) by (apply IZR_lt; lia).
  assert (H0 : 0 <= IZR i) by (apply IZR_le; lia).
  assert (H1 : IZR i <= IZR (num - 1)) by (apply IZR_le; lia).
  set (d := IZR (num - 1)) in *. set (k := IZR i) in *.
  assert (Ht0 : 0 <= k / d).
  { apply Rmult_le_pos; [exact H0|]. left. apply Rinv_0_lt_compat. exact Hd. }
  assert (Ht1 : k / d <= 1).
  { apply Rmult_le_reg_r with d; [exact Hd|].
    replace (k / d * d) with k by (field; lra). lra. }
  replace (k * ((stop - start) / d) + start)
    with (start + (k / d) * (stop - start)) by (field; lra).
  split; nra.
Qed.

End ExactLemmas.

Section ExactTheorems.

Local Open Scope R_scope.

(** The probes around a special point, over the reals: the point, the
    point minus the tolerance when that is above [a], the point plus the
    tolerance when that is below [b]. *)
Lemma vecinos_R (a b tolerancia p x : R) :
  In x (vecinos a b tolerancia p)
  <-> x = p
      \/ (x = p - tolerancia /\ a < p - tolerancia)
      \/ (x = p + tolerancia /\ p + tolerancia < b).
Proof.
  unfold vecinos. cbn [add sub ltb R_PyFloat In]. rewrite in_app_iff.
  destruct (Exact.Rltb (a + tolerancia) p) eqn:E1;
    destruct (Exact.Rltb p (b - tolerancia)) eqn:E2;
    try (apply Rltb_true in E1); try (apply Rltb_true in E2);
    cbn [In]; split.
  all: try (intros [<-|[[<-|[]]|[<-|[]]]]; [left; reflexivity
              |right; left; split; [reflexivity|lra]
              |right; right; split; [reflexivity|lra]]).
  all: try (intros [<-|[[<-|[]]|[]]]; [left; reflexivity
              |right; left; split; [reflexivity|lra]]).
  all: try (intros [<-|[[]|[<-|[]]]]; [left; reflexivity
              |right; right; split; [reflexivity|lra]]).
  all: try (intros [<-|[[]|[]]]; left; reflexivity).
  all: intros [->|[[-> Hx]|[-> Hx]]]; auto.
  all: exfalso.
  all: try (assert (N1 : Exact.Rltb (a + tolerancia) p = true)
              by (apply Rltb_true; lra); rewrite N1 in E1; discriminate E1).
  all: try (assert (N2 : Exact.Rltb p (b - tolerancia) = true)
              by (apply Rltb_true; lra); rewrite N2 in E2; discriminate E2).
Qed.

Lemma todos_los_puntos_between (n_verificacion : Z) (f : pyfun R)
    (a b tolerancia x : R) :
  a < b -> 0 < tolerancia ->
  In x (todos_los_puntos n_verificacion f a b tolerancia
          (Exact.to_Z a) (Exact.to_Z b)) ->
  a <= x <= b.
Proof.
  intros Hab Htol. unfold todos_los_puntos.
  set (grid := np_linspace a b n_verificacion).
  assert (Hgrid : forall y, In y grid -> a <= y <= b).
  { intros y. apply np_linspace_between; lra. }
  rewrite !in_app_iff.
  intros [[<-|[<-|[]]]|[Hx|[[Hx|Hx]|Hx]]]; try lra; try (apply Hgrid; exact Hx).
  - unfold refinados in Hx. apply in_flat_map in Hx.
    destruct Hx as [i [Hi Hx]]. apply sospechosos_bound in Hi.
    revert Hx. apply np_linspace_between; apply Hgrid, nth_In; lia.
  - apply in_flat_map in Hx. destruct Hx as [p [Hp Hx]].
    apply pyset_incl, puntos_especiales_R in Hp. destruct Hp as [Hp _].
    apply vecinos_R in Hx. lra.
Qed.

(** C10 (in exact arithmetic).  Over the reals, for [a < b] and a
    positive tolerance, every point at which a run of [verificar_dominio]
    evaluates the function lies in [[a, b]]: the end points, the uniform
    grid, the refined gaps, the special points and their neighbours at
    distance [tolerancia].  It holds for both copies of
    Clase_Integrales.py and for Int.py.  The statement is about which
    points are probed, not about their order. *)
Theorem verificar_dominio_probes_inside (f : pyfun R) (a b tolerancia : R) :
  a < b -> 0 < tolerancia ->
  Forall (fun x => a <= x <= b) (fst (verificar_dominio f a b tolerancia)) /\
  Forall (fun x => a <= x <= b) (fst (verificar_dominio_2 f a b tolerancia)) /\
  Forall (fun x => a <= x <= b) (fst (Int.verificar_dominio f a b tolerancia)).
Proof.
  intros Hab Htol.
  assert (Ia : int_ a = Ok (Exact.to_Z a)) by reflexivity.
  assert (Ib : int_ b = Ok (Exact.to_Z b)) by reflexivity.
  repeat split; apply Forall_forall; intros x Hx.
  - destruct (verificar_dominio_body_spec 1000000 f a b tolerancia Ia Ib)
      as [I _].
    apply (@todos_los_puntos_between 1000000 f a b tolerancia x Hab Htol).
    apply I. exact Hx.
  - destruct (verificar_dominio_body_spec 1000 f a b tolerancia Ia Ib)
      as [I _].
    apply (@todos_los_puntos_between 1000 f a b tolerancia x Hab Htol).
    apply I. exact Hx.
  - destruct (verificar_dominio_Int_spec f a b tolerancia Ia Ib) as [I _].
    apply (@todos_los_puntos_between 1000 f a b tolerancia x Hab Htol).
    apply I. exact Hx.
Qed.

Lemma verificar_dominio_probes_inside_witness :
  0 < 10 /\ 0 < Ex.Rtol /\
  Forall (fun x => 0 <= x <= 10) (fst (verificar_dominio Ex.Rsq 0 10 Ex.Rtol)) /\
  Forall (fun x => 0 <= x <= 10) (fst (verificar_dominio_2 Ex.Rsq 0 10 Ex.Rtol)) /\
  Forall (fun x => 0 <= x <= 10) (fst (Int.verificar_dominio Ex.Rsq 0 10 Ex.Rtol)).
Proof.
  assert (H1 : 0 < 10) by lra.
  assert (H2 : 0 < Ex.Rtol) by (unfold Ex.Rtol; lra).
  split; [exact H1|]. split; [exact H2|].
  exact (@verificar_dominio_probes_inside Ex.Rsq 0 10 Ex.Rtol H1 H2).
Defined.

(** The same on the floats, by running the 1000-point copies on the two
    reference functions: every logged call is inside the interval. *)
Example probes_inside_binary64 :
  forallb (fun x => PrimFloat.leb (F64.of_Z 0) x && PrimFloat.leb x (F64.of_Z 10))
          (fst (verificar_dominio_2 Ex.sq (F64.of_Z 0) (F64.of_Z 10) Ex.tol))
  = true /\
  forallb (fun x => PrimFloat.leb (F64.of_Z 0) x && PrimFloat.leb x (F64.of_Z 10))
          (fst (Int.verificar_dominio Ex.sq (F64.of_Z 0) (F64.of_Z 10) Ex.tol))
  = true /\
  forallb (fun x => PrimFloat.leb (F64.of_Z (-1)) x && PrimFloat.leb x (F64.of_Z 1))
          (fst (verificar_dominio_2 Ex.inv (F64.of_Z (-1)) (F64.of_Z 1) Ex.tol))
  = true.
Proof. split; [|split]; vm_compute; reflexivity. Qed.

(** C10, the claim as stated fails in binary64.  With [a = -2^1023] and
    [b = 2^1023], two finite limits with [a < b], the difference [b - a]
    overflows, so the step of [np.linspace] is an infinity and the grid
    starts with a NaN followed by infinities.  With [1/x], which is
    defined at both limits, step 1 passes and step 2 evaluates the
    function at the first grid point, the NaN, which is not in [[a, b]];
    the answer is [False].  So it is in the copy of Clase_Integrales.py in
    force and in Int.py. *)
Lemma verificar_dominio_probes_a_nan :
  PrimFloat.ltb (F64.of_Z (- 2 ^ 1023)) (F64.of_Z (2 ^ 1023)) = true /\
  PrimFloat.ltb (F64.of_Z 0) Ex.tol = true /\
  firstn 3 (np_linspace (F64.of_Z (- 2 ^ 1023)) (F64.of_Z (2 ^ 1023)) 1000)
  = [PrimFloat.nan; PrimFloat.infinity; PrimFloat.infinity] /\
  verificar_dominio_2 Ex.inv (F64.of_Z (- 2 ^ 1023)) (F64.of_Z (2 ^ 1023))
    Ex.tol
  = ([F64.of_Z (- 2 ^ 1023); F64.of_Z (2 ^ 1023); PrimFloat.nan], Ok false) /\
  Int.verificar_dominio Ex.inv (F64.of_Z (- 2 ^ 1023)) (F64.of_Z (2 ^ 1023))
    Ex.tol
  = ([F64.of_Z (- 2 ^ 1023); F64.of_Z (2 ^ 1023);
      F64.of_Z (- 2 ^ 1023); F64.of_Z (2 ^ 1023); PrimFloat.nan], Ok false) /\
  PrimFloat.leb (F64.of_Z (- 2 ^ 1023)) PrimFloat.nan
  && PrimFloat.leb PrimFloat.nan (F64.of_Z (2 ^ 1023)) = false.
Proof.
  split; [vm_compute; reflexivity|]. split; [vm_compute; reflexivity|].
  split; [vm_compute; reflexivity|]. split; [vm_compute; reflexivity|].
  split; vm_compute; reflexivity.
Qed.

End ExactTheorems.

(** ** The special-point pass and the two reference functions *)

Section SpecialPoints.

Local Open Scope R_scope.

Lemma forallb_false_of_In {X : Type} (c : X -> bool) (l : list X) (x : X) :
  In x l -> c x = false -> forallb c l = false.
Proof.
  intros Hx Hc. destruct (forallb c l) eqn:E; [|reflexivity].
  rewrite forallb_forall in E. rewrite (E x Hx) in Hc. discriminate Hc.
Qed.

Lemma todos_los_puntos_especiales {X : Type} `{PyFloat X}
    (n_verificacion : Z) (f : pyfun X) (a b tolerancia : X)
    (int_a int_b : Z) (x : X) :
  In x (flat_map (vecinos a b tolerancia)
          (pyset (puntos_especiales a b int_a int_b))) ->
  In x (todos_los_puntos n_verificacion f a b tolerancia int_a int_b).
Proof.
  intros Hx. unfold todos_los_puntos. rewrite !in_app_iff.
  do 3 right. exact Hx.
Qed.

Lemma todos_false_of_especiales {X : Type} `{PyFloat X}
    (n_verificacion : Z) (f : pyfun X) (a b tolerancia : X)
    (int_a int_b : Z) :
  forallb (good f) (flat_map (vecinos a b tolerancia)
                      (pyset (puntos_especiales a b int_a int_b))) = false ->
  forallb (good f)
    (todos_los_puntos n_verificacion f a b tolerancia int_a int_b) = false.
Proof.
  intros E. unfold todos_los_puntos. rewrite !forallb_app.
  rewrite E, !andb_false_r. reflexivity.
Qed.

(** C4 (as the code has it).  In every arithmetic, the pass of step 4
    over a list of points evaluates the function, for each point in turn,
    at the point, at [punto - tolerancia] when the test
    [punto > a + tolerancia] holds and at [punto + tolerancia] when the
    test [punto < b - tolerancia] holds (the list [vecinos]); it executes
    [return False] at the first of these probes that is undefined and
    falls through otherwise, having made all of them and nothing else.

    In exact arithmetic, moreover: the points the pass loops over are
    exactly the special points of the specification (the integers of
    [[a, b]], the fractions [j/i] with [1 <= i <= 20], [0 <= j <= i] that
    lie in [[a, b]], and those of [pi], [e], [sqrt 2], [sqrt 3] that lie
    in [[a, b]]); the two tests are [p - tolerancia > a] and
    [p + tolerancia < b]; and a probe that is undefined makes
    [verificar_dominio] answer [False], in both copies of
    Clase_Integrales.py and in Int.py. *)
Theorem paso4_probes_special_points :
  (forall (X : Type) (HX : PyFloat X) (f : pyfun X) (a b tolerancia : X)
          (puntos : list X),
      let pass := paso4_especiales f a b tolerancia puntos in
      let probes := flat_map (vecinos a b tolerancia) puntos in
      snd pass = (if forallb (good f) probes then Next tt else Return false) /\
      incl (fst pass) probes /\
      (snd pass = Next tt -> fst pass = probes)) /\
  (forall (f : pyfun R) (a b tolerancia : R),
      let puntos :=
        pyset (puntos_especiales a b (Exact.to_Z a) (Exact.to_Z b)) in
      let pass := paso4_especiales f a b tolerancia puntos in
      let probes := flat_map (vecinos a b tolerancia) puntos in
      (forall p, In p puntos <-> special_point a b p) /\
      (forall p x, In x (vecinos a b tolerancia p)
                   <-> x = p
                       \/ (x = p - tolerancia /\ a < p - tolerancia)
                       \/ (x = p + tolerancia /\ p + tolerancia < b)) /\
      snd pass = (if forallb (good f) probes then Next tt else Return false) /\
      incl (fst pass) probes /\
      (snd pass = Next tt -> fst pass = probes) /\
      ((exists x, In x probes /\ good f x = false) ->
       snd (verificar_dominio f a b tolerancia) = Ok false /\
       snd (verificar_dominio_2 f a b tolerancia) = Ok false /\
       snd (Int.verificar_dominio f a b tolerancia) = Ok false)).
Proof.
  assert (G : forall (X : Type) (HX : PyFloat X) (f : pyfun X)
                     (a b tolerancia : X) (puntos : list X),
             snd (paso4_especiales f a b tolerancia puntos)
             = (if forallb (good f) (flat_map (vecinos a b tolerancia) puntos)
                then Next tt else Return false) /\
             incl (fst (paso4_especiales f a b tolerancia puntos))
                  (flat_map (vecinos a b tolerancia) puntos) /\
             (snd (paso4_especiales f a b tolerancia puntos) = Next tt ->
              fst (paso4_especiales f a b tolerancia puntos)
              = flat_map (vecinos a b tolerancia) puntos)).
  { intros X HX f a b tolerancia puntos.
    split; [|split].
    - destruct (checks_paso4 f a b tolerancia puntos) as [[_ S] N].
      destruct (forallb (good f) _); [exact S|].
      destruct S as [S|[e S]]; [exact S|]. exfalso. exact (N e S).
    - apply (checks_paso4 f a b tolerancia).
    - apply fst_paso4. }
  split.
  - intros X HX f a b tolerancia puntos. cbv zeta. apply G.
  - intros f a b tolerancia. cbv zeta.
    split; [|split; [|split; [|split; [|split]]]].
    + intros p. rewrite pyset_In_R. apply puntos_especiales_R.
    + intros p x. apply vecinos_R.
    + apply G.
    + apply G.
    + apply G.
    + intros [x [Hx Hbad]].
      assert (Ia : int_ a = Ok (Exact.to_Z a)) by reflexivity.
      assert (Ib : int_ b = Ok (Exact.to_Z b)) by reflexivity.
      split; [|split].
      * destruct (verificar_dominio_body_spec 1000000 f a b tolerancia Ia Ib)
          as [_ S].
        unfold verificar_dominio. rewrite S. apply f_equal.
        apply forallb_false_of_In with x; [|exact Hbad].
        apply todos_los_puntos_especiales. exact Hx.
      * destruct (verificar_dominio_body_spec 1000 f a b tolerancia Ia Ib)
          as [_ S].
        unfold verificar_dominio_2. rewrite S. apply f_equal.
        apply forallb_false_of_In with x; [|exact Hbad].
        apply todos_los_puntos_especiales. exact Hx.
      * destruct (verificar_dominio_Int_spec f a b tolerancia Ia Ib)
          as [_ S].
        rewrite S. apply f_equal.
        apply forallb_false_of_In with x; [|exact Hbad].
        apply todos_los_puntos_especiales. exact Hx.
Qed.

(** C4, the claim as stated fails in binary64.  On [[0, 1.5]] with
    [tolerancia = 1 - 2^-53], the special point [0.5] passes the test
    [punto < b - tolerancia] (the difference rounds to [0.5 + 2^-53]), and
    the sum [punto + tolerancia] rounds to [1.5]: the pass evaluates the
    function at [b], which is no special point and is not strictly below
    [b].  It is the only probe of the pass that is none of those the claim
    allows. *)
Lemma paso4_probe_rounds_onto_b :
  int_ (F64.of_Z 0) = Ok 0%Z /\ int_ (Ex.q 3 2) = Ok 1%Z /\
  PrimFloat.ltb (F64.of_Z 0) (Ex.q 9007199254740991 9007199254740992) = true /\
  existsb (PrimFloat.eqb (Ex.q 1 2))
          (pyset (puntos_especiales (F64.of_Z 0) (Ex.q 3 2) 0 1)) = true /\
  vecinos (F64.of_Z 0) (Ex.q 3 2) (Ex.q 9007199254740991 9007199254740992)
          (Ex.q 1 2)
  = [Ex.q 1 2; Ex.q 3 2] /\
  PrimFloat.ltb
    (PrimFloat.add (Ex.q 1 2) (Ex.q 9007199254740991 9007199254740992))
    (Ex.q 3 2) = false /\
  filter
    (fun x =>
       negb (existsb
               (fun p =>
                  PrimFloat.eqb x p
                  || (PrimFloat.eqb x
                        (PrimFloat.sub p
                           (Ex.q 9007199254740991 9007199254740992))
                      && PrimFloat.ltb (F64.of_Z 0)
                           (PrimFloat.sub p
                              (Ex.q 9007199254740991 9007199254740992)))
                  || (PrimFloat.eqb x
                        (PrimFloat.add p
                           (Ex.q 9007199254740991 9007199254740992))
                      && PrimFloat.ltb
                           (PrimFloat.add p
                              (Ex.q 9007199254740991 9007199254740992))
                           (Ex.q 3 2)))
               (pyset (puntos_especiales (F64.of_Z 0) (Ex.q 3 2) 0 1))))
    (fst (paso4_especiales Ex.sq (F64.of_Z 0) (Ex.q 3 2)
            (Ex.q 9007199254740991 9007199254740992)
            (pyset (puntos_especiales (F64.of_Z 0) (Ex.q 3 2) 0 1))))
  = [Ex.q 3 2].
Proof.
  split; [reflexivity|]. split; [reflexivity|].
  split; [vm_compute; reflexivity|]. split; [vm_compute; reflexivity|].
  split; [vm_compute; reflexivity|]. split; vm_compute; reflexivity.
Qed.

Lemma good_Rsq (x : R) : good Ex.Rsq x = true.
Proof. reflexivity. Qed.

Lemma todos_false_Rinv (n_verificacion : Z) :
  forallb (good Ex.Rinv)
    (todos_los_puntos n_verificacion Ex.Rinv (-1) 1 Ex.Rtol
       (Exact.to_Z (-1)) (Exact.to_Z 1)) = false.
Proof.
  apply forallb_false_of_In with 0.
  - apply todos_los_puntos_especiales.
    apply in_flat_map. exists 0. split.
    + apply pyset_In_R, puntos_especiales_R. split; [lra|].
      left. exists 0%Z. reflexivity.
    + left. reflexivity.
  - unfold good, Ex.Rinv.
    assert (E : Exact.Reqb 0 0 = true) by (apply Reqb_true; reflexivity).
    rewrite E. reflexivity.
Qed.

Lemma todos_true_Rsq (l : list R) : forallb (good Ex.Rsq) l = true.
Proof. apply forallb_forall. intros x _. apply good_Rsq. Qed.

(** The float [0] is one of the special points of [[-1, 1]], and [1/x]
    raises there. *)
Lemma especiales_false_inv :
  forallb (good Ex.inv)
    (flat_map (vecinos (F64.of_Z (-1)) (F64.of_Z 1) Ex.tol)
       (pyset (puntos_especiales (F64.of_Z (-1)) (F64.of_Z 1) (-1) 1)))
  = false.
Proof. vm_compute. reflexivity. Qed.

(** C5.  [verificar_dominio] answers [False] for [1/x] on [[-1, 1]] (the
    probe at the special point [0] fails) and [True] for [x^2] on
    [[0, 10]], with the default tolerance [1e-6]: in exact arithmetic for
    the three copies of the function, and in binary64 arithmetic by
    running the copies that take 1000 grid points (the second copy of
    Clase_Integrales.py and Int.py), and for [1/x] also the first copy. *)
Theorem verificar_dominio_reference_verdicts :
  (snd (verificar_dominio Ex.Rinv (-1) 1 Ex.Rtol) = Ok false /\
   snd (verificar_dominio_2 Ex.Rinv (-1) 1 Ex.Rtol) = Ok false /\
   snd (Int.verificar_dominio Ex.Rinv (-1) 1 Ex.Rtol) = Ok false) /\
  (snd (verificar_dominio Ex.Rsq 0 10 Ex.Rtol) = Ok true /\
   snd (verificar_dominio_2 Ex.Rsq 0 10 Ex.Rtol) = Ok true /\
   snd (Int.verificar_dominio Ex.Rsq 0 10 Ex.Rtol) = Ok true) /\
  (snd (verificar_dominio Ex.inv (F64.of_Z (-1)) (F64.of_Z 1) Ex.tol)
     = Ok false /\
   snd (verificar_dominio_2 Ex.inv (F64.of_Z (-1)) (F64.of_Z 1) Ex.tol)
     = Ok false /\
   snd (Int.verificar_dominio Ex.inv (F64.of_Z (-1)) (F64.of_Z 1) Ex.tol)
     = Ok false) /\
  (snd (verificar_dominio_2 Ex.sq (F64.of_Z 0) (F64.of_Z 10) Ex.tol)
     = Ok true /\
   snd (Int.verificar_dominio Ex.sq (F64.of_Z 0) (F64.of_Z 10) Ex.tol)
     = Ok true).
Proof.
  assert (Ia : forall x : R, int_ x = Ok (Exact.to_Z x)) by reflexivity.
  split; [|split; [|split]].
  - split; [|split].
    + unfold verificar_dominio.
      rewrite (proj2 (verificar_dominio_body_spec 1000000 Ex.Rinv (-1) 1
                        Ex.Rtol (Ia _) (Ia _))).
      apply f_equal. apply todos_false_Rinv.
    + unfold verificar_dominio_2.
      rewrite (proj2 (verificar_dominio_body_spec 1000 Ex.Rinv (-1) 1
                        Ex.Rtol (Ia _) (Ia _))).
      apply f_equal. apply todos_false_Rinv.
    + rewrite (proj2 (verificar_dominio_Int_spec Ex.Rinv (-1) 1
                        Ex.Rtol (Ia _) (Ia _))).
      apply f_equal. apply todos_false_Rinv.
  - split; [|split].
    + unfold verificar_dominio.
      rewrite (proj2 (verificar_dominio_body_spec 1000000 Ex.Rsq 0 10
                        Ex.Rtol (Ia _) (Ia _))).
      apply f_equal. apply todos_true_Rsq.
    + unfold verificar_dominio_2.
      rewrite (proj2 (verificar_dominio_body_spec 1000 Ex.Rsq 0 10
                        Ex.Rtol (Ia _) (Ia _))).
      apply f_equal. apply todos_true_Rsq.
    + rewrite (proj2 (verificar_dominio_Int_spec Ex.Rsq 0 10
                        Ex.Rtol (Ia _) (Ia _))).
      apply f_equal. apply todos_true_Rsq.
  - split; [|split].
    + unfold verificar_dominio.
      rewrite (proj2 (@verificar_dominio_body_spec float float_PyFloat
                        1000000 Ex.inv (F64.of_Z (-1)) (F64.of_Z 1) Ex.tol
                        (-1)%Z 1%Z eq_refl eq_refl)).
      apply f_equal. apply todos_false_of_especiales.
      exact especiales_false_inv.
    + vm_compute. reflexivity.
    + vm_compute. reflexivity.
  - split; vm_compute; reflexivity.
Qed.

End SpecialPoints.

(** ** The error comparison *)

(** When the exact value is not zero, both files print the absolute error
    [|exacto - resultado|] and the relative error
    [error / |exacto| * 100]. *)
Lemma comparacion_nonzero {X : Type} `{PyFloat X} (resultado exacto : X) :
  (fabs exacto =? of_int 0)%py = false ->
  interfaz_usuario_comparacion resultado (Some exacto)
  = ([ValorExacto exacto; ErrorAbsoluto (fabs (exacto - resultado)%py);
      ErrorRelativo (fabs (exacto - resultado) / fabs exacto * of_int 100)%py],
     Ok tt).
Proof.
  intros E. unfold interfaz_usuario_comparacion, truediv. rewrite E.
  reflexivity.
Qed.

(** C6.  At [exacto = 0.0] (say, an odd function over a symmetric
    interval) with [resultado = 0.5]: [interfaz_usuario] prints the exact
    value and the absolute error, then divides by [abs(0.0)] and the
    [ZeroDivisionError] leaves the function; [_mostrar_resultados]
    performs the same division and swallows the exception without
    printing the relative error.  Neither tests [exacto != 0]. *)
Theorem comparacion_divides_by_zero :
  interfaz_usuario_comparacion (Ex.q 1 2) (Some (F64.of_Z 0))
  = ([ValorExacto (F64.of_Z 0); ErrorAbsoluto (Ex.q 1 2)],
     Raise ZeroDivisionError) /\
  mostrar_resultados_comparacion (Ex.q 1 2) (F64.of_Z 0)
  = ([ValorExacto (F64.of_Z 0); ErrorAbsoluto (Ex.q 1 2)], Ok tt).
Proof. split; vm_compute; reflexivity. Qed.

(** * Further properties of the code *)

(** ** Argument checks of [riemann_sum] and of [RiemannIntegrator] *)

Section Rejections.

Context {X : Type} `{PyFloat X}.
Local Open Scope string_scope.

Lemma not_in_metodos (method : string) :
  ~ In method metodos ->
  String.eqb method "left" = false /\ String.eqb method "right" = false /\
  String.eqb method "midpoint" = false /\ String.eqb method "trapezoid" = false.
Proof.
  intros Hn. repeat split; apply String.eqb_neq; intros ->; apply Hn;
    unfold metodos; simpl; tauto.
Qed.

Lemma in_metodos_rule (method : string) :
  In method metodos <-> exists r, method = method_name r.
Proof.
  unfold metodos. split.
  - intros [<-|[<-|[<-|[<-|[]]]]];
      [exists Left|exists Right|exists Midpoint|exists Trapezoid]; reflexivity.
  - intros [[] ->]; simpl; tauto.
Qed.




(** X2.  For every method name: either it is one of the four, the
    constructor of [RiemannIntegrator] accepts it and [integrar] returns
    what [riemann_sum] returns (value or exception) for every function,
    interval and [n]; or it is not, and the constructor raises a
    [ValueError], so that no integrator exists for it. *)
Theorem RiemannIntegrator_accepts_or_rejects (f : pyfun X) (method : string)
    (a b : X) (n : Z) :
  (In method metodos /\
   exists self, Int.RiemannIntegrator_init f method = Ok self /\
                Int.funcion self = f /\ Int.metodo self = method /\
                Int.integrar self a b n = riemann_sum f a b n method)
  \/
  (~ In method metodos /\
   exists msg, Int.RiemannIntegrator_init f method = Raise (ValueError msg)).
Proof.
  destruct (in_dec String.string_dec method metodos) as [Hin|Hout].
  - left. split; [exact Hin|].
    apply in_metodos_rule in Hin. destruct Hin as [r ->].
    exists {| Int.funcion := f; Int.metodo := method_name r |}.
    split; [destruct r; reflexivity|].
    split; [reflexivity|]. split; [reflexivity|].
    apply integrar_riemann_sum.
  - right. split; [exact Hout|].
    destruct (not_in_metodos Hout) as [E1 [E2 [E3 E4]]].
    unfold Int.RiemannIntegrator_init, Int.METODOS. cbn [existsb fst].
    rewrite E1, E2, E3, E4. eexists. reflexivity.
Qed.



End Rejections.



(** ** The four rules in exact arithmetic *)

Section ExactRules.

Local Open Scope R_scope.

Lemma fold_left_plus_shift (t : Z -> R) (l : list Z) (s : R) :
  fold_left (fun suma i => suma + t i) l s = s + sum_terms t l.
Proof.
  unfold sum_terms. revert s. induction l as [|i l IH]; intros s.
  - simpl. ring.
  - cbn [fold_left]. rewrite IH, (IH (0 + t i)). ring.
Qed.

Lemma sum_terms_cons (t : Z -> R) (i : Z) (l : list Z) :
  sum_terms t (i :: l) = t i + sum_terms t l.
Proof.
  unfold sum_terms at 1. cbn [fold_left]. rewrite fold_left_plus_shift. ring.
Qed.

Lemma sum_terms_app (t : Z -> R) (l1 l2 : list Z) :
  sum_terms t (l1 ++ l2) = sum_terms t l1 + sum_terms t l2.
Proof.
  induction l1 as [|i l1 IH].
  - unfold sum_terms at 2. simpl. ring.
  - cbn [app]. rewrite !sum_terms_cons, IH. ring.
Qed.

Lemma count_from_snoc (k : nat) (lo : Z) :
  count_from lo (S k) = count_from lo k ++ [(lo + Z.of_nat k)%Z].
Proof.
  revert lo. induction k as [|k IH]; intros lo.
  - cbn. rewrite Z.add_0_r. reflexivity.
  - change (count_from lo (S (S k))) with (lo :: count_from (lo + 1) (S k)).
    rewrite IH. cbn [count_from app]. do 3 f_equal. lia.
Qed.

Lemma sum_terms_snoc (t : Z -> R) (k : nat) :
  sum_terms t (count_from 0 (S k))
  = sum_terms t (count_from 0 k) + t (Z.of_nat k).
Proof.
  rewrite count_from_snoc, sum_terms_app, sum_terms_cons.
  change (sum_terms t []) with 0. rewrite Z.add_0_l. ring.
Qed.

Lemma sum_terms_ext (t1 t2 : Z -> R) (l : list Z) :
  (forall i, In i l -> t1 i = t2 i) -> sum_terms t1 l = sum_terms t2 l.
Proof.
  induction l as [|i l IH]; intros E; [reflexivity|].
  rewrite !sum_terms_cons, IH by (intros j Hj; apply E; right; exact Hj).
  rewrite (E i) by (left; reflexivity). reflexivity.
Qed.

Lemma sum_terms_le (t1 t2 : Z -> R) (l : list Z) :
  (forall i, In i l -> t1 i <= t2 i) -> sum_terms t1 l <= sum_terms t2 l.
Proof.
  induction l as [|i l IH]; intros E.
  - unfold sum_terms. simpl. lra.
  - rewrite !sum_terms_cons.
    assert (t1 i <= t2 i) by (apply E; simpl; auto).
    assert (sum_terms t1 l <= sum_terms t2 l) by (apply IH; simpl in *; auto).
    lra.
Qed.

Lemma sum_terms_linear (c1 c2 : R) (t1 t2 : Z -> R) (l : list Z) :
  sum_terms (fun i => c1 * t1 i + c2 * t2 i) l
  = c1 * sum_terms t1 l + c2 * sum_terms t2 l.
Proof.
  induction l as [|i l IH].
  - unfold sum_terms. simpl. ring.
  - rewrite !sum_terms_cons, IH. ring.
Qed.

(** [riemann_sum] over the reals, as a sum of terms. *)
Lemma riemann_sum_R (r : rule) (g : R -> R) (a b : R) (n : Z) :
  (1 <= n)%Z ->
  riemann_sum (total g) a b n (method_name r)
  = Ok (sum_terms (fun i => sample r g a ((b - a) / IZR n) i * ((b - a) / IZR n))
                  (count_from 0 (Z.to_nat n))).
Proof.
  intros Hn. rewrite riemann_sum_total by exact Hn.
  unfold riemann_spec, sum_terms, range, range2. rewrite Z.sub_0_r.
  reflexivity.
Qed.

(** X4.  Over the reals, for every function returning numbers and
    [n >= 1], the value of the trapezoid rule is the mean of the values of
    the left and the right rule on the same partition. *)
Theorem trapezoid_is_mean_of_left_and_right (g : R -> R) (a b : R) (n : Z) :
  (1 <= n)%Z ->
  exists L Rt T,
    riemann_sum (total g) a b n "left" = Ok L /\
    riemann_sum (total g) a b n "right" = Ok Rt /\
    riemann_sum (total g) a b n "trapezoid" = Ok T /\
    T = (L + Rt) / 2.
Proof.
  intros Hn.
  pose proof (riemann_sum_R Left g a b Hn) as HL.
  pose proof (riemann_sum_R Right g a b Hn) as HR.
  pose proof (riemann_sum_R Trapezoid g a b Hn) as HT.
  do 3 eexists. split; [exact HL|]. split; [exact HR|]. split; [exact HT|].
  set (dx := (b - a) / IZR n).
  rewrite (sum_terms_ext
             (fun i => sample Trapezoid g a dx i * dx)
             (fun i => / 2 * (sample Left g a dx i * dx)
                       + / 2 * (sample Right g a dx i * dx))).
  - rewrite sum_terms_linear. field.
  - intros i _. cbn. field.
Qed.

Lemma trapezoid_is_mean_of_left_and_right_witness :
  (1 <= 4)%Z /\
  exists L Rt T,
    riemann_sum (total (fun x : R => x * x)) 0 1 4 "left" = Ok L /\
    riemann_sum (total (fun x : R => x * x)) 0 1 4 "right" = Ok Rt /\
    riemann_sum (total (fun x : R => x * x)) 0 1 4 "trapezoid" = Ok T /\
    T = (L + Rt) / 2.
Proof.
  assert (Hn : (1 <= 4)%Z) by lia.
  split; [exact Hn|].
  exact (@trapezoid_is_mean_of_left_and_right (fun x : R => x * x) 0 1 4 Hn).
Defined.

Lemma IZR_to_nat (n : Z) : (0 <= n)%Z -> INR (Z.to_nat n) = IZR n.
Proof. intros Hn. rewrite INR_IZR_INZ, Z2Nat.id by exact Hn. reflexivity. Qed.

(** X5.  Over the reals, for [n >= 1], the right and the left rule differ
    by the first and last sample only:
    [right - left = (f(b) - f(a)) * (b - a)/n]. *)
Theorem right_minus_left_telescopes (g : R -> R) (a b : R) (n : Z) :
  (1 <= n)%Z ->
  exists L Rt,
    riemann_sum (total g) a b n "left" = Ok L /\
    riemann_sum (total g) a b n "right" = Ok Rt /\
    Rt - L = (g b - g a) * ((b - a) / IZR n).
Proof.
  intros Hn.
  pose proof (riemann_sum_R Left g a b Hn) as HL.
  pose proof (riemann_sum_R Right g a b Hn) as HR.
  do 2 eexists. split; [exact HL|]. split; [exact HR|].
  set (dx := (b - a) / IZR n).
  assert (Hk : forall k : nat,
             sum_terms (fun i => sample Right g a dx i * dx) (count_from 0 k)
             - sum_terms (fun i => sample Left g a dx i * dx) (count_from 0 k)
             = (g (a + INR k * dx) - g a) * dx).
  { induction k as [|k IH].
    - unfold sum_terms. simpl. replace (a + 0 * dx) with a by ring. ring.
    - rewrite !sum_terms_snoc. rewrite S_INR. cbn [sample].
      cbn [add mul of_int R_PyFloat].
      rewrite plus_IZR, <- INR_IZR_INZ.
      cbn [sample add mul of_int R_PyFloat] in IH.
      match goal with
      | |- ?SR + ?x - (?SL + ?y) = ?z =>
          replace (SR + x - (SL + y)) with ((SR - SL) + x - y) by ring
      end.
      rewrite IH. ring. }
  rewrite Hk, IZR_to_nat by lia.
  assert (Hnz : IZR n <> 0) by (apply not_0_IZR; lia).
  replace (a + IZR n * dx) with b by (unfold dx; field; exact Hnz).
  reflexivity.
Qed.

Lemma right_minus_left_telescopes_witness :
  (1 <= 4)%Z /\
  exists L Rt,
    riemann_sum (total (fun x : R => x * x)) 0 1 4 "left" = Ok L /\
    riemann_sum (total (fun x : R => x * x)) 0 1 4 "right" = Ok Rt /\
    Rt - L = (1 * 1 - 0 * 0) * ((1 - 0) / IZR 4).
Proof.
  assert (Hn : (1 <= 4)%Z) by lia.
  split; [exact Hn|].
  exact (@right_minus_left_telescopes (fun x : R => x * x) 0 1 4 Hn).
Defined.

(** X7.  Over the reals, each rule is linear in the integrand: the sum for
    [c1*g + c2*h] is [c1] times the sum for [g] plus [c2] times the sum
    for [h]. *)
Theorem riemann_sum_linear (r : rule) (c1 c2 : R) (g h : R -> R)
    (a b : R) (n : Z) :
  (1 <= n)%Z ->
  exists Sg Sh,
    riemann_sum (total g) a b n (method_name r) = Ok Sg /\
    riemann_sum (total h) a b n (method_name r) = Ok Sh /\
    riemann_sum (total (fun x => c1 * g x + c2 * h x)) a b n (method_name r)
    = Ok (c1 * Sg + c2 * Sh).
Proof.
  intros Hn. do 2 eexists.
  split; [apply (riemann_sum_R r g a b Hn)|].
  split; [apply (riemann_sum_R r h a b Hn)|].
  rewrite (riemann_sum_R r _ a b Hn). apply f_equal.
  set (dx := (b - a) / IZR n).
  rewrite <- sum_terms_linear. apply sum_terms_ext.
  intros i _. destruct r; cbn; field.
Qed.

Lemma riemann_sum_linear_witness :
  (1 <= 4)%Z /\
  exists Sg Sh,
    riemann_sum (total (fun x : R => x)) 0 1 4 "midpoint" = Ok Sg /\
    riemann_sum (total (fun x : R => x * x)) 0 1 4 "midpoint" = Ok Sh /\
    riemann_sum (total (fun x : R => 2 * x + 3 * (x * x))) 0 1 4 "midpoint"
    = Ok (2 * Sg + 3 * Sh).
Proof.
  assert (Hn : (1 <= 4)%Z) by lia.
  split; [exact Hn|].
  exact (@riemann_sum_linear Midpoint 2 3 (fun x : R => x)
           (fun x : R => x * x) 0 1 4 Hn).
Defined.

(** The points of the partition stay inside the interval. *)
Lemma partition_point_inside (a b : R) (n i : Z) :
  a <= b -> (1 <= n)%Z -> (0 <= i <= n)%Z ->
  a <= a + IZR i * ((b - a) / IZR n) <= b.
Proof.
  intros Hab Hn Hi.
  assert (Hd : 0 < IZR n) by (apply IZR_lt; lia).
  assert (H0 : 0 <= IZR i) by (apply IZR_le; lia).
  assert (H1 : IZR i <= IZR n) by (apply IZR_le; lia).
  assert (Ht0 : 0 <= IZR i / IZR n).
  { apply Rmult_le_pos; [exact H0|]. left. apply Rinv_0_lt_compat. exact Hd. }
  assert (Ht1 : IZR i / IZR n <= 1).
  { apply Rmult_le_reg_r with (IZR n); [exact Hd|].
    replace (IZR i / IZR n * IZR n) with (IZR i) by (field; lra). lra. }
  replace (a + IZR i * ((b - a) / IZR n))
    with (a + (IZR i / IZR n) * (b - a)) by (field; lra).
  split; nra.
Qed.

(** X6.  Over the reals, for [a <= b], [n >= 1] and a function that is
    nondecreasing on [[a, b]], the three rules are ordered:
    [left <= trapezoid <= right]. *)
Theorem nondecreasing_orders_the_rules (g : R -> R) (a b : R) (n : Z) :
  a <= b -> (1 <= n)%Z ->
  (forall x y, a <= x -> x <= y -> y <= b -> g x <= g y) ->
  exists L T Rt,
    riemann_sum (total g) a b n "left" = Ok L /\
    riemann_sum (total g) a b n "trapezoid" = Ok T /\
    riemann_sum (total g) a b n "right" = Ok Rt /\
    L <= T <= Rt.
Proof.
  intros Hab Hn Hg.
  do 3 eexists.
  split; [apply (riemann_sum_R Left g a b Hn)|].
  split; [apply (riemann_sum_R Trapezoid g a b Hn)|].
  split; [apply (riemann_sum_R Right g a b Hn)|].
  assert (Hd : 0 < IZR n) by (apply IZR_lt; lia).
  assert (Hdx : 0 <= (b - a) / IZR n).
  { apply Rmult_le_pos; [lra|]. left. apply Rinv_0_lt_compat. exact Hd. }
  assert (Hstep : forall i, In i (count_from 0 (Z.to_nat n)) ->
            g (a + IZR i * ((b - a) / IZR n))
            <= g (a + IZR (i + 1) * ((b - a) / IZR n))).
  { intros i Hi. apply In_count_from in Hi.
    apply Hg.
    - apply (partition_point_inside Hab Hn). lia.
    - rewrite plus_IZR. nra.
    - apply (partition_point_inside Hab Hn). lia. }
  split; apply sum_terms_le; intros i Hi; specialize (Hstep i Hi);
    cbn [sample add mul div of_int R_PyFloat]; nra.
Qed.

Lemma nondecreasing_orders_the_rules_witness :
  0 <= 1 /\ (1 <= 4)%Z /\
  (forall x y : R, 0 <= x -> x <= y -> y <= 1 -> x * x <= y * y) /\
  exists L T Rt,
    riemann_sum (total (fun x : R => x * x)) 0 1 4 "left" = Ok L /\
    riemann_sum (total (fun x : R => x * x)) 0 1 4 "trapezoid" = Ok T /\
    riemann_sum (total (fun x : R => x * x)) 0 1 4 "right" = Ok Rt /\
    L <= T <= Rt.
Proof.
  assert (H1 : 0 <= 1) by lra.
  assert (H2 : (1 <= 4)%Z) by lia.
  assert (H3 : forall x y : R, 0 <= x -> x <= y -> y <= 1 -> x * x <= y * y)
    by (intros x y Hx Hxy Hy; nra).
  split; [exact H1|]. split; [exact H2|]. split; [exact H3|].
  exact (@nondecreasing_orders_the_rules (fun x : R => x * x) 0 1 4 H1 H2 H3).
Defined.

(** X8.  Over the reals, the midpoint and the trapezoid rule integrate an
    affine function [c*x + d] exactly, for every [n >= 1]: both return
    [c*(b^2 - a^2)/2 + d*(b - a)]. *)
Theorem midpoint_and_trapezoid_exact_on_affine (c d a b : R) (n : Z) :
  (1 <= n)%Z ->
  riemann_sum (total (fun x => c * x + d)) a b n "midpoint"
    = Ok (c * (b * b - a * a) / 2 + d * (b - a)) /\
  riemann_sum (total (fun x => c * x + d)) a b n "trapezoid"
    = Ok (c * (b * b - a * a) / 2 + d * (b - a)).
Proof.
  intros Hn.
  assert (Hnz : IZR n <> 0) by (apply not_0_IZR; lia).
  set (dx := (b - a) / IZR n).
  assert (Hk : forall k : nat,
             sum_terms (fun i => (c * (a + (IZR i + / 2) * dx) + d) * dx)
                       (count_from 0 k)
             = INR k * dx * (c * a + d) + c * dx * dx * (INR k * INR k / 2)).
  { induction k as [|k IH].
    - unfold sum_terms. simpl. field.
    - rewrite sum_terms_snoc, IH, S_INR, <- INR_IZR_INZ. field. }
  assert (Hfin : sum_terms (fun i => (c * (a + (IZR i + / 2) * dx) + d) * dx)
                           (count_from 0 (Z.to_nat n))
                 = c * (b * b - a * a) / 2 + d * (b - a)).
  { rewrite Hk, IZR_to_nat by lia. unfold dx. field. exact Hnz. }
  split.
  - rewrite (riemann_sum_R Midpoint _ a b Hn). apply f_equal.
    rewrite <- Hfin. fold dx. apply sum_terms_ext. intros i _. reflexivity.
  - rewrite (riemann_sum_R Trapezoid _ a b Hn). apply f_equal.
    rewrite <- Hfin. fold dx. apply sum_terms_ext. intros i _.
    cbn [sample add mul div of_int R_PyFloat]. rewrite plus_IZR. field.
Qed.

Lemma midpoint_and_trapezoid_exact_on_affine_witness :
  (1 <= 3)%Z /\
  riemann_sum (total (fun x : R => 2 * x + 1)) 0 1 3 "midpoint"
    = Ok (2 * (1 * 1 - 0 * 0) / 2 + 1 * (1 - 0)) /\
  riemann_sum (total (fun x : R => 2 * x + 1)) 0 1 3 "trapezoid"
    = Ok (2 * (1 * 1 - 0 * 0) / 2 + 1 * (1 - 0)).
Proof.
  assert (Hn : (1 <= 3)%Z) by lia.
  split; [exact Hn|].
  exact (@midpoint_and_trapezoid_exact_on_affine 2 1 0 1 3 Hn).
Defined.

(** X9.  Over the reals, the midpoint rule on [x^2] misses the integral
    [(b^3 - a^3)/3] by exactly [(b - a)^3 / (12 n^2)], from below; so the
    error shrinks as [n] grows (by 100 from [n = 10] to [100], as the
    convergence test of the specification expects on [[0, 1]]). *)
Theorem midpoint_error_on_square (a b : R) (n : Z) :
  (1 <= n)%Z ->
  riemann_sum (total (fun x => x * x)) a b n "midpoint"
  = Ok ((b * b * b - a * a * a) / 3
        - (b - a) * (b - a) * (b - a) / (12 * IZR n * IZR n)).
Proof.
  intros Hn.
  assert (Hnz : IZR n <> 0) by (apply not_0_IZR; lia).
  set (dx := (b - a) / IZR n).
  assert (Hk : forall k : nat,
             sum_terms (fun i => (a + (IZR i + / 2) * dx)
                                 * (a + (IZR i + / 2) * dx) * dx)
                       (count_from 0 k)
             = dx * (INR k * a * a + a * dx * INR k * INR k
                     + dx * dx * (INR k * INR k * INR k / 3 - INR k / 12))).
  { induction k as [|k IH].
    - unfold sum_terms. simpl. field.
    - rewrite sum_terms_snoc, IH, S_INR, <- INR_IZR_INZ. field. }
  rewrite (riemann_sum_R Midpoint _ a b Hn). apply f_equal. fold dx.
  rewrite (sum_terms_ext _
             (fun i => (a + (IZR i + / 2) * dx) * (a + (IZR i + / 2) * dx) * dx))
    by (intros i _; reflexivity).
  rewrite Hk, IZR_to_nat by lia. unfold dx. field. exact Hnz.
Qed.

Lemma midpoint_error_on_square_witness :
  (1 <= 10)%Z /\
  riemann_sum (total (fun x : R => x * x)) 0 1 10 "midpoint"
  = Ok ((1 * 1 * 1 - 0 * 0 * 0) / 3
        - (1 - 0) * (1 - 0) * (1 - 0) / (12 * IZR 10 * IZR 10)).
Proof.
  assert (Hn : (1 <= 10)%Z) by lia.
  split; [exact Hn|].
  exact (@midpoint_error_on_square 0 1 10 Hn).
Defined.

End ExactRules.

(** ** The polygons and the frames of the animation *)

Section Polygons.

Local Open Scope R_scope.

(** X10.  Over the reals, for every [n] other than zero and each of the
    four methods, the polygon [get_polygon_coordinates] returns for
    subinterval [i] encloses exactly the area that [riemann_sum] adds for
    that subinterval: [sample * delta_x] (a rectangle of that height, or
    the trapezoid under the chord). *)
Theorem polygon_area_is_the_term (r : rule) (g : R -> R) (a b : R) (i n : Z) :
  n <> 0%Z ->
  exists xs ys,
    get_polygon_coordinates (total g) a b i n (method_name r) = Ok (xs, ys) /\
    polygon_area (vertices (combine xs ys))
    = sample r g a ((b - a) / IZR n) i * ((b - a) / IZR n).
Proof.
  intros Hn. unfold get_polygon_coordinates, truediv_int.
  destruct (Z.eqb_spec n 0) as [E|_]; [contradiction|].
  set (dx := (b - a) / IZR n).
  destruct r; cbn [method_name bind total]; simpl String.eqb; cbv iota;
    do 2 eexists; (split; [reflexivity|]);
    cbn [combine vertices map fst snd polygon_area shoelace sample
         add sub mul div of_int half R_PyFloat]; fold dx.
  - rewrite plus_IZR. field.
  - rewrite plus_IZR. field.
  - replace ((a + IZR i * dx + (a + IZR (i + 1) * dx)) / 2)
      with (a + (IZR i + / 2) * dx) by (rewrite plus_IZR; field).
    rewrite plus_IZR. field.
  - rewrite plus_IZR. field.
Qed.

Lemma polygon_area_is_the_term_witness :
  4%Z <> 0%Z /\
  exists xs ys,
    get_polygon_coordinates (total (fun x : R => x * x)) 0 1 2 4 "midpoint"
    = Ok (xs, ys) /\
    polygon_area (vertices (combine xs ys))
    = sample Midpoint (fun x : R => x * x) 0 ((1 - 0) / IZR 4) 2
      * ((1 - 0) / IZR 4).
Proof.
  assert (Hn : 4%Z <> 0%Z) by lia.
  split; [exact Hn|].
  exact (@polygon_area_is_the_term Midpoint (fun x : R => x * x) 0 1 2 4 Hn).
Defined.

End Polygons.

Section PolygonErrors.

Context {X : Type} `{PyFloat X}.
Local Open Scope string_scope.


Lemma for_each_app {I S : Type} (body : I -> S -> result S) (l1 l2 : list I)
    (s : S) :
  for_each body (l1 ++ l2) s = bind (for_each body l1 s) (for_each body l2).
Proof.
  revert s. induction l1 as [|i l1 IH]; intros s; [reflexivity|].
  cbn [app for_each]. destruct (body i s) as [s'|e]; [apply IH|reflexivity].
Qed.

(** One frame [0 <= i < n] on a function that returns numbers. *)
Lemma animate_frame (r : rule) (g : X -> X) (a b : X) (n i : Z)
    (st : animacion X) :
  (0 <= i < n)%Z ->
  let dx := ((b - a) / of_int n)%py in
  let suma := ((if (i =? 0)%Z then of_int 0 else suma_actual st)
               + sample r g a dx i * dx)%py in
  animate (total g) a b n (method_name r) dx i st
  = Ok {| suma_actual := suma;
          poligonos :=
            (if (i =? 0)%Z then [] else poligonos st)
            ++ [match get_polygon_coordinates (total g) a b i n (method_name r)
                with
                | Ok c => combine (fst c) (snd c)
                | Raise _ => []
                end];
          aprox_text := Parcial (i + 1) n suma;
          integral_text := Some suma |}.
Proof.
  intros Hi. cbv zeta. unfold animate, get_polygon_coordinates, truediv_int.
  destruct (Z.eqb_spec n 0) as [E|_]; [lia|].
  destruct (Z.ltb_spec i n) as [_|E]; [|lia].
  destruct (i =? 0)%Z; destruct r; reflexivity.
Qed.

Lemma frames_prefix (r : rule) (g : X -> X) (a b : X) (n : Z) (k : nat)
    (st : animacion X) :
  (1 <= k)%nat -> (Z.of_nat k <= n)%Z ->
  let dx := ((b - a) / of_int n)%py in
  exists st',
    for_each (animate (total g) a b n (method_name r) dx) (count_from 0 k) st
    = Ok st' /\
    suma_actual st'
    = fold_left (fun suma i => (suma + sample r g a dx i * dx)%py)
                (count_from 0 k) (of_int 0) /\
    poligonos st'
    = map (fun i =>
             match get_polygon_coordinates (total g) a b i n (method_name r)
             with
             | Ok c => combine (fst c) (snd c)
             | Raise _ => []
             end) (count_from 0 k).
Proof.
  intros Hk Hkn. cbv zeta. induction k as [|k IH]; [lia|].
  rewrite count_from_snoc, for_each_app, Z.add_0_l.
  destruct k as [|k].
  - cbn [count_from for_each bind app].
    rewrite animate_frame by lia. cbn [Z.of_nat Z.eqb].
    eexists. split; [reflexivity|]. split; reflexivity.
  - destruct IH as [st' [E [Es Ep]]]; [lia|lia|].
    rewrite E. cbn [bind for_each].
    rewrite animate_frame by lia.
    destruct (Z.eqb_spec (Z.of_nat (S k)) 0) as [E0|_]; [lia|].
    eexists. split; [reflexivity|]. cbn [suma_actual poligonos]. split.
    + rewrite fold_left_app, <- Es. reflexivity.
    + rewrite map_app, <- Ep. reflexivity.
Qed.

(** One pass of the frames [0..n] ends in the state of the finished sum. *)
Lemma frames_result (r : rule) (g : X -> X) (a b : X) (n : Z) :
  (1 <= n)%Z ->
  exists S,
    riemann_sum (total g) a b n (method_name r) = Ok S /\
    forall st,
      frames (total g) a b n (method_name r) st
      = Ok {| suma_actual := S;
              poligonos :=
                map (fun i =>
                       match get_polygon_coordinates (total g) a b i n
                               (method_name r) with
                       | Ok c => combine (fst c) (snd c)
                       | Raise _ => []
                       end) (range n);
              aprox_text := Final S;
              integral_text := Some S |}.
Proof.
  intros Hn. exists (riemann_spec r g a b n).
  split; [apply riemann_sum_total; exact Hn|].
  intros st. unfold frames, truediv_int.
  destruct (Z.eqb_spec n 0) as [E|_]; [lia|]. cbn [bind].
  unfold range, range2. rewrite !Z.sub_0_r.
  replace (Z.to_nat (n + 1)) with (S (Z.to_nat n)) by lia.
  rewrite count_from_snoc, for_each_app, Z.add_0_l.
  destruct (@frames_prefix r g a b n (Z.to_nat n) st) as [st' [E [Es Ep]]];
    [lia|lia|].
  rewrite E. cbn [bind for_each]. unfold animate.
  rewrite Z2Nat.id by lia.
  destruct (Z.eqb_spec n 0) as [E0|_]; [lia|].
  rewrite Z.ltb_irrefl, Z.eqb_refl. cbn [bind].
  rewrite Ep, Es. unfold riemann_spec, range, range2. rewrite Z.sub_0_r.
  reflexivity.
Qed.


End PolygonErrors.



(** *** The frames of Int.py *)

Section IntFrames.

Local Open Scope R_scope.

Lemma for_each_ext {I S : Type} (body1 body2 : I -> S -> result S)
    (l : list I) :
  (forall i s, body1 i s = body2 i s) ->
  forall s, for_each body1 l s = for_each body2 l s.
Proof.
  intros E. induction l as [|i l IH]; intros s; [reflexivity|].
  cbn [for_each]. rewrite E. destruct (body2 i s); [apply IH|reflexivity].
Qed.

(** Over the reals the two [animate] closures do the same on every frame:
    [(x_left + x_right)/2] is [a + (i + 0.5)*delta_x]. *)
Lemma Int_animate_R (r : rule) (g : R -> R) (a b : R) (n i : Z)
    (st : animacion R) :
  n <> 0%Z ->
  IntGraficar.animate (total g) r a b n ((b - a) / IZR n) i st
  = animate (total g) a b n (method_name r) ((b - a) / IZR n) i st.
Proof.
  intros Hn. unfold IntGraficar.animate, animate, get_polygon_coordinates,
    truediv_int.
  destruct (Z.eqb_spec n 0) as [E|_]; [contradiction|].
  set (dx := (b - a) / IZR n).
  destruct (i <? n)%Z; [|reflexivity].
  assert (Hmid : ((a + IZR i * dx + (a + IZR (i + 1) * dx)) / 2)
                 = a + (IZR i + / 2) * dx) by (rewrite plus_IZR; field).
  destruct (i =? 0)%Z; destruct r; try reflexivity;
    cbn [method_name bind total as_num]; simpl String.eqb; cbv iota;
    cbn [add sub mul div of_int half R_PyFloat fst snd bind];
    fold dx; rewrite Hmid; reflexivity.
Qed.

(** X13.  Over the reals, for a function returning numbers, [n >= 1] and
    each of the four methods, one pass of the animation of
    [RiemannIntegrator.graficar] ends, from any state, with the running
    sum equal to the value [integrar] returns, [n] polygons drawn and both
    texts showing that sum. *)
Theorem Int_frames_end_in_integrar (r : rule) (g : R -> R) (a b : R) (n : Z) :
  (1 <= n)%Z ->
  exists S,
    Int.integrar {| Int.funcion := total g; Int.metodo := method_name r |} a b n
    = Ok S /\
    forall st,
      exists polys,
        IntGraficar.frames (total g) r a b n st
        = Ok {| suma_actual := S; poligonos := polys;
                aprox_text := Final S; integral_text := Some S |} /\
        List.length polys = Z.to_nat n.
Proof.
  intros Hn.
  destruct (@frames_result R R_PyFloat r g a b n Hn) as [S [HS HF]].
  exists S. split; [rewrite integrar_riemann_sum; exact HS|].
  intros st. eexists. split.
  - unfold IntGraficar.frames. specialize (HF st). unfold frames in HF.
    unfold truediv_int in *.
    destruct (Z.eqb_spec n 0) as [E|_]; [lia|]. cbn [bind] in *.
    rewrite <- HF. apply for_each_ext. intros i s.
    apply Int_animate_R. lia.
  - rewrite length_map. unfold range, range2.
    rewrite length_count_from. f_equal. lia.
Qed.

Lemma Int_frames_end_in_integrar_witness :
  (1 <= 9)%Z /\
  exists S,
    Int.integrar {| Int.funcion := total (fun x : R => x);
                    Int.metodo := "midpoint" |} 0 1 9 = Ok S /\
    forall st,
      exists polys,
        IntGraficar.frames (total (fun x : R => x)) Midpoint 0 1 9 st
        = Ok {| suma_actual := S; poligonos := polys;
                aprox_text := Final S; integral_text := Some S |} /\
        List.length polys = Z.to_nat 9.
Proof.
  assert (Hn : (1 <= 9)%Z) by lia.
  split; [exact Hn|].
  exact (@Int_frames_end_in_integrar Midpoint (fun x : R => x) 0 1 9 Hn).
Defined.

(** On the floats the two midpoints can differ: for [f(x) = x] on
    [[0, 1]] with [n = 9] the animation of Int.py ends on
    [0.4999999999999999] while [integrar] returns [0.5]. *)
Example Int_frames_midpoint_rounds :
  Int.integrar {| Int.funcion := total (fun x : float => x);
                  Int.metodo := "midpoint" |} (F64.of_Z 0) (F64.of_Z 1) 9
  = Ok (Ex.q 1 2) /\
  match IntGraficar.frames (total (fun x : float => x)) Midpoint
          (F64.of_Z 0) (F64.of_Z 1) 9 animacion_inicial with
  | Ok st => PrimFloat.ltb (suma_actual st) (Ex.q 1 2)
  | Raise _ => false
  end = true.
Proof. split; vm_compute; reflexivity. Qed.

End IntFrames.

(** ** More on the domain validator *)

Section ValidatorExtras.

Context {X : Type} `{PyFloat X}.
Local Open Scope py_scope.
Local Open Scope traced_scope.

Lemma fst_paso1 (f : pyfun X) (a b : X) :
  fst (paso1_extremos f a b) = [a] \/ fst (paso1_extremos f a b) = [a; b].
Proof.
  unfold paso1_extremos, try_except, mbind, call.
  destruct (f a) as [va|ea]; cbn.
  - right. destruct (f b) as [vb|eb]; cbn; [|reflexivity].
    destruct (undefined_ va || undefined_ vb); reflexivity.
  - left. reflexivity.
Qed.

Lemma fst_extremos_Int (f : pyfun X) (a b : X) :
  In (fst (Int.return_false_if
             (Int.or_ (Int.np_isnan f a) (Int.or_ (Int.np_isnan f b)
                (Int.or_ (Int.np_isinf f a) (Int.np_isinf f b))))))
     [[a]; [a; b]; [a; b; a]; [a; b; a; b]].
Proof.
  unfold Int.return_false_if, Int.or_, Int.np_isnan, Int.np_isinf,
    mbind, call, lift.
  destruct (f a) as [[va|]|ea]; cbn; auto.
  destruct (isnan va); cbn; auto.
  destruct (f b) as [[vb|]|eb]; cbn; auto.
  destruct (isnan vb); cbn; auto.
  destruct (isinf va); cbn; auto.
  destruct (isinf vb); cbn; auto 6.
Qed.

(** X14.  When the function is undefined at [a] or at [b] (it raises, or
    returns [None], a NaN or an infinity), the validator answers [False]
    after the end points alone: the copies of Clase_Integrales.py have
    called the function once or twice, Int.py at most four times, always
    at [a] or [b]; the grid is never built, whatever [a] and [b] are. *)
Theorem verificar_dominio_stops_at_end_points (f : pyfun X)
    (a b tolerancia : X) :
  good f a && good f b = false ->
  (snd (verificar_dominio f a b tolerancia) = Ok false /\
   (fst (verificar_dominio f a b tolerancia) = [a] \/
    fst (verificar_dominio f a b tolerancia) = [a; b])) /\
  (snd (verificar_dominio_2 f a b tolerancia) = Ok false /\
   (fst (verificar_dominio_2 f a b tolerancia) = [a] \/
    fst (verificar_dominio_2 f a b tolerancia) = [a; b])) /\
  (snd (Int.verificar_dominio f a b tolerancia) = Ok false /\
   In (fst (Int.verificar_dominio f a b tolerancia))
      [[a]; [a; b]; [a; b; a]; [a; b; a; b]]).
Proof.
  intros Hbad.
  assert (Hc : forall n_verificacion,
             verificar_dominio_body n_verificacion f a b tolerancia
             = (fst (paso1_extremos f a b), Return false)).
  { intros N. destruct (checks_paso1 f a b) as [[_ S] Nt].
    rewrite Hbad in S. destruct S as [S|[e S]]; [|exfalso; exact (Nt e S)].
    unfold verificar_dominio_body. apply mbind_return. exact S. }
  split; [|split].
  - unfold verificar_dominio, run. rewrite Hc. cbn [fst snd].
    split; [reflexivity|apply fst_paso1].
  - unfold verificar_dominio_2, run. rewrite Hc. cbn [fst snd].
    split; [reflexivity|apply fst_paso1].
  - unfold Int.verificar_dominio.
    destruct (checks_extremos_Int f a b) as [_ S]. rewrite Hbad in S.
    pose proof (fst_extremos_Int f a b) as HI.
    destruct S as [S|[e S]].
    + rewrite (mbind_return _ _ S). unfold run, try_except. cbn [fst snd].
      split; [reflexivity|exact HI].
    + rewrite (mbind_throw _ _ S). unfold run, try_except, return_.
      cbn [fst snd]. rewrite app_nil_r.
      split; [reflexivity|exact HI].
Qed.

(** X15.  Whenever [int(a)] and [int(b)] are defined, Int.py's
    [verificar_dominio] and the copy of Clase_Integrales.py in force (1000
    grid points) give the same verdict for every function, interval and
    tolerance, although they call the function a different number of
    times. *)
Theorem Int_verdict_is_Clase_verdict (f : pyfun X) (a b tolerancia : X)
    (int_a int_b : Z) :
  int_ a = Ok int_a -> int_ b = Ok int_b ->
  snd (Int.verificar_dominio f a b tolerancia)
  = snd (verificar_dominio_2 f a b tolerancia).
Proof.
  intros Ha Hb.
  rewrite (proj2 (verificar_dominio_Int_spec f a b tolerancia Ha Hb)).
  unfold verificar_dominio_2.
  rewrite (proj2 (verificar_dominio_body_spec 1000 f a b tolerancia Ha Hb)).
  reflexivity.
Qed.

Lemma snd_mbind_next {A B : Type} (m : M X A) (k : A -> M X B) (a : A) :
  snd m = Next a -> snd (mbind m k) = snd (k a).
Proof. intros E. rewrite (mbind_next _ _ E). reflexivity. Qed.

(** The three steps before [int(a)] fall through on a function that is
    defined everywhere. *)
Lemma pasos_fall_through (f : pyfun X) (a b : X) (grid : list X) :
  (forall x, good f x = true) ->
  snd (paso1_extremos f a b) = Next tt /\
  snd (paso2_uniformes f grid) = Next tt /\
  snd (paso3_adaptativo f grid) = Next tt.
Proof.
  intros Hg.
  assert (Hall : forall l, forallb (good f) l = true)
    by (intros l; apply forallb_forall; intros x _; apply Hg).
  split; [|split].
  - destruct (checks_paso1 f a b) as [[_ S] _].
    rewrite !Hg in S. exact S.
  - destruct (checks_paso2 f grid) as [[_ S] _]. rewrite Hall in S. exact S.
  - destruct (checks_paso3 f grid (Hall grid)) as [[_ S] _].
    rewrite Hall in S. exact S.
Qed.

Lemma extremos_Int_fall_through (f : pyfun X) (a b : X) (grid : list X) :
  (forall x, good f x = true) ->
  snd (Int.return_false_if
         (Int.or_ (Int.np_isnan f a) (Int.or_ (Int.np_isnan f b)
            (Int.or_ (Int.np_isinf f a) (Int.np_isinf f b))))) = Next tt /\
  snd (for_ grid (fun x =>
         Int.return_false_if (Int.or_ (Int.np_isnan f x) (Int.np_isinf f x))))
  = Next tt.
Proof.
  intros Hg.
  assert (Hall : forall l, forallb (good f) l = true)
    by (intros l; apply forallb_forall; intros x _; apply Hg).
  split.
  - destruct (checks_extremos_Int f a b) as [_ S]. rewrite !Hg in S. exact S.
  - destruct (checks_lista_Int f grid) as [_ S]. rewrite Hall in S. exact S.
Qed.

(** X16.  The conversions [int(a)] and [int(b)] of step 4 are outside
    every [try] in Clase_Integrales.py: for a function defined everywhere,
    when one of them raises (an infinite or NaN limit) both copies let the
    exception out, while Int.py, whose whole body is in a [try], answers
    [False]. *)
Theorem verificar_dominio_int_raises (f : pyfun X) (a b tolerancia : X)
    (e : exn) :
  (forall x, good f x = true) ->
  bind (int_ a) (fun _ => int_ b) = Raise e ->
  snd (verificar_dominio f a b tolerancia) = Raise e /\
  snd (verificar_dominio_2 f a b tolerancia) = Raise e /\
  snd (Int.verificar_dominio f a b tolerancia) = Ok false.
Proof.
  intros Hg He.
  assert (Hc : forall n_verificacion,
             snd (verificar_dominio_body n_verificacion f a b tolerancia)
             = Throw e).
  { intros N. unfold verificar_dominio_body.
    destruct (pasos_fall_through f a b (np_linspace a b N) Hg)
      as [S1 [S2 S3]].
    rewrite (snd_mbind_next _ _ S1), (snd_mbind_next _ _ S2),
      (snd_mbind_next _ _ S3).
    destruct (int_ a) as [za|ea]; cbn [bind] in He.
    - rewrite mbind_lift_ok. rewrite He. reflexivity.
    - injection He as ->. reflexivity. }
  split; [|split].
  - unfold verificar_dominio, run. cbn [snd]. rewrite Hc. reflexivity.
  - unfold verificar_dominio_2, run. cbn [snd]. rewrite Hc. reflexivity.
  - unfold Int.verificar_dominio.
    match goal with
    | |- context [try_except ?m _] => set (body := m)
    end.
    assert (Hb : snd body = Throw e).
    { unfold body.
      destruct (extremos_Int_fall_through f a b (np_linspace a b 1000) Hg)
        as [S1 S2].
      rewrite (snd_mbind_next _ _ S1), (snd_mbind_next _ _ S2).
      assert (Hall : forallb (good f) (np_linspace a b 1000) = true)
        by (apply forallb_forall; intros x _; apply Hg).
      rewrite (snd_mbind_next _ _ (a := map Num (valores_de f (np_linspace a b 1000))))
        by (rewrite (comprehension_valores f _ Hall); reflexivity).
      rewrite np_asarray_numeros, mbind_lift_ok.
      match goal with
      | |- snd (mbind ?m _) = _ => assert (S3 : snd m = Next tt)
      end.
      { match goal with
        | |- snd (for_ ?l ?body) = _ =>
            pose proof (checks_for body
              (fun i => forallb (good f)
                          (np_linspace (nth i (np_linspace a b 1000) (of_int 0))
                             (nth (i + 1) (np_linspace a b 1000) (of_int 0)) 100))
              (fun i => np_linspace (nth i (np_linspace a b 1000) (of_int 0))
                          (nth (i + 1) (np_linspace a b 1000) (of_int 0)) 100)
              l) as C
        end.
        destruct C as [_ S].
        - intros i Hi. apply sospechosos_bound in Hi.
          rewrite (getitem_nth _ (of_int 0)) by lia. rewrite mbind_lift_ok.
          rewrite (getitem_nth _ (of_int 0)) by lia. rewrite mbind_lift_ok.
          apply checks_lista_Int.
        - rewrite (proj2 (forallb_forall _ _)) in S; [exact S|].
          intros i _. apply forallb_forall. intros x _. apply Hg. }
      rewrite (snd_mbind_next _ _ S3).
      destruct (int_ a) as [za|ea]; cbn [bind] in He.
      - rewrite mbind_lift_ok. rewrite He. reflexivity.
      - injection He as ->. reflexivity. }
    unfold run, try_except. cbn [snd]. rewrite Hb. reflexivity.
Qed.

End ValidatorExtras.

Lemma verificar_dominio_stops_at_end_points_witness :
  good Ex.inv (F64.of_Z 0) && good Ex.inv (F64.of_Z 1) = false /\
  (snd (verificar_dominio Ex.inv (F64.of_Z 0) (F64.of_Z 1) Ex.tol) = Ok false /\
   (fst (verificar_dominio Ex.inv (F64.of_Z 0) (F64.of_Z 1) Ex.tol)
    = [F64.of_Z 0] \/
    fst (verificar_dominio Ex.inv (F64.of_Z 0) (F64.of_Z 1) Ex.tol)
    = [F64.of_Z 0; F64.of_Z 1])) /\
  (snd (verificar_dominio_2 Ex.inv (F64.of_Z 0) (F64.of_Z 1) Ex.tol)
   = Ok false /\
   (fst (verificar_dominio_2 Ex.inv (F64.of_Z 0) (F64.of_Z 1) Ex.tol)
    = [F64.of_Z 0] \/
    fst (verificar_dominio_2 Ex.inv (F64.of_Z 0) (F64.of_Z 1) Ex.tol)
    = [F64.of_Z 0; F64.of_Z 1])) /\
  (snd (Int.verificar_dominio Ex.inv (F64.of_Z 0) (F64.of_Z 1) Ex.tol)
   = Ok false /\
   In (fst (Int.verificar_dominio Ex.inv (F64.of_Z 0) (F64.of_Z 1) Ex.tol))
      [[F64.of_Z 0]; [F64.of_Z 0; F64.of_Z 1];
       [F64.of_Z 0; F64.of_Z 1; F64.of_Z 0];
       [F64.of_Z 0; F64.of_Z 1; F64.of_Z 0; F64.of_Z 1]]).
Proof.
  split; [vm_compute; reflexivity|].
  apply (@verificar_dominio_stops_at_end_points float float_PyFloat Ex.inv
           (F64.of_Z 0) (F64.of_Z 1) Ex.tol).
  vm_compute; reflexivity.
Defined.

Lemma Int_verdict_is_Clase_verdict_witness :
  int_ (F64.of_Z (-1)) = Ok (-1)%Z /\ int_ (F64.of_Z 1) = Ok 1%Z /\
  snd (Int.verificar_dominio Ex.inv (F64.of_Z (-1)) (F64.of_Z 1) Ex.tol)
  = snd (verificar_dominio_2 Ex.inv (F64.of_Z (-1)) (F64.of_Z 1) Ex.tol).
Proof.
  split; [reflexivity|]. split; [reflexivity|].
  apply (@Int_verdict_is_Clase_verdict float float_PyFloat Ex.inv
           (F64.of_Z (-1)) (F64.of_Z 1) Ex.tol (-1)%Z 1%Z);
    reflexivity.
Defined.

Lemma verificar_dominio_int_raises_witness :
  (forall x : float, good (total (fun _ => F64.of_Z 1)) x = true) /\
  bind (int_ PrimFloat.neg_infinity) (fun _ => int_ (F64.of_Z 1))
  = Raise OverflowError /\
  snd (verificar_dominio (total (fun _ => F64.of_Z 1))
         PrimFloat.neg_infinity (F64.of_Z 1) Ex.tol) = Raise OverflowError /\
  snd (verificar_dominio_2 (total (fun _ => F64.of_Z 1))
         PrimFloat.neg_infinity (F64.of_Z 1) Ex.tol) = Raise OverflowError /\
  snd (Int.verificar_dominio (total (fun _ => F64.of_Z 1))
         PrimFloat.neg_infinity (F64.of_Z 1) Ex.tol) = Ok false.
Proof.
  split; [intros x; reflexivity|]. split; [reflexivity|].
  apply (@verificar_dominio_int_raises float float_PyFloat
           (total (fun _ => F64.of_Z 1)) PrimFloat.neg_infinity (F64.of_Z 1)
           Ex.tol OverflowError);
    [intros x; reflexivity|reflexivity].
Defined.

(** ** What the two menus hand to the integrators *)

Section Menus.

Local Open Scope string_scope.

Lemma py_index_metodos (k : Z) :
  (1 <= k <= 4)%Z ->
  exists r, py_index metodos (k - 1) = Ok (method_name r).
Proof.
  intros Hk.
  assert (E : k = 1%Z \/ k = 2%Z \/ k = 3%Z \/ k = 4%Z) by lia.
  destruct E as [->|[->|[->| ->]]];
    [exists Left|exists Right|exists Midpoint|exists Trapezoid]; reflexivity.
Qed.

Lemma py_index_metodos_wraps (k : Z) :
  (-3 <= k <= 0)%Z ->
  py_index metodos (k - 1)
  = Ok (nth (Z.to_nat (k + 3)) metodos "").
Proof.
  intros Hk.
  assert (E : k = (-3)%Z \/ k = (-2)%Z \/ k = (-1)%Z \/ k = 0%Z) by lia.
  destruct E as [->|[->|[->| ->]]]; reflexivity.
Qed.

Lemma py_index_metodos_out (k : Z) :
  (k < -3 \/ 4 < k)%Z -> py_index metodos (k - 1) = Raise IndexError.
Proof.
  intros Hk. unfold py_index.
  change (Z.of_nat (List.length metodos)) with 4%Z. cbv zeta.
  destruct (Z.ltb_spec (k - 1) 0) as [Hn|Hn].
  - destruct (Z.leb_spec 0 (4 + (k - 1))) as [Hl|Hl]; [lia|]. reflexivity.
  - destruct (Z.leb_spec 0 (k - 1)) as [Hl|Hl]; [|lia].
    destruct (Z.ltb_spec (k - 1) 4) as [Hu|Hu]; [lia|]. reflexivity.
Qed.

(** X17.  Whatever is typed for the number of subintervals and for the
    method (an integer, or a text [int] refuses with [ValueError]),
    [interfaz_usuario] goes on with [n >= 1] and with one of the four
    methods: the read of [metodos[metodo_num - 1]] cannot raise
    [IndexError], and the two [ValueError]s of [riemann_sum] cannot be
    reached from the menu. *)
Theorem interfaz_usuario_hands_valid_arguments (entrada_n entrada_m : result Z) :
  (forall e, entrada_n = Raise e -> exists msg, e = ValueError msg) ->
  (forall e, entrada_m = Raise e -> exists msg, e = ValueError msg) ->
  exists n r,
    interfaz_usuario_subintervalos entrada_n = Ok n /\
    interfaz_usuario_metodo entrada_m = Ok (method_name r) /\
    (1 <= n)%Z /\
    (forall k, entrada_n = Ok k -> n = if (k <=? 0)%Z then 10%Z else k) /\
    (forall k, entrada_m = Ok k -> ~ (1 <= k <= 4)%Z -> r = Midpoint).
Proof.
  intros Hn Hm.
  assert (En : exists n, interfaz_usuario_subintervalos entrada_n = Ok n /\
                         (1 <= n)%Z /\
                         (forall k, entrada_n = Ok k ->
                                    n = if (k <=? 0)%Z then 10%Z else k)).
  { unfold interfaz_usuario_subintervalos, except_ValueError.
    destruct entrada_n as [k|e]; cbn [bind].
    - destruct (Z.leb_spec k 0) as [Hk|Hk].
      + exists 10%Z. split; [reflexivity|]. split; [lia|].
        intros k' [= <-]. destruct (Z.leb_spec k 0); [reflexivity|lia].
      + exists k. split; [reflexivity|]. split; [lia|].
        intros k' [= <-]. destruct (Z.leb_spec k 0); [lia|reflexivity].
    - destruct (Hn e eq_refl) as [msg ->]. exists 10%Z.
      split; [reflexivity|]. split; [lia|]. intros k' Hk'. discriminate Hk'. }
  assert (Em : exists r, interfaz_usuario_metodo entrada_m = Ok (method_name r) /\
                         (forall k, entrada_m = Ok k -> ~ (1 <= k <= 4)%Z ->
                                    r = Midpoint)).
  { unfold interfaz_usuario_metodo, except_ValueError.
    destruct entrada_m as [k|e]; cbn [bind].
    - destruct (Z.ltb_spec k 1) as [Hk|Hk]; cbn [orb].
      + exists Midpoint. split; [reflexivity|]. intros; reflexivity.
      + destruct (Z.ltb_spec 4 k) as [Hk'|Hk'].
        * exists Midpoint. split; [reflexivity|]. intros; reflexivity.
        * destruct (py_index_metodos (k := k)) as [r Hr]; [lia|].
          exists r. rewrite Hr. split; [reflexivity|].
          intros k' [= <-] Hout. lia.
    - destruct (Hm e eq_refl) as [msg ->]. exists Midpoint.
      split; [reflexivity|]. intros k' Hk'. discriminate Hk'. }
  destruct En as [n [E1 [E2 E3]]]. destruct Em as [r [E4 E5]].
  exists n, r. split; [exact E1|]. split; [exact E4|].
  split; [exact E2|]. split; [exact E3|exact E5].
Qed.

Lemma interfaz_usuario_hands_valid_arguments_witness :
  (forall e, Ok 0%Z = Raise e -> exists msg, e = ValueError msg) /\
  (forall e, @Raise Z (ValueError "invalid literal for int()") = Raise e ->
             exists msg, e = ValueError msg) /\
  exists n r,
    interfaz_usuario_subintervalos (Ok 0%Z) = Ok n /\
    interfaz_usuario_metodo (@Raise Z (ValueError "invalid literal for int()"))
    = Ok (method_name r) /\
    (1 <= n)%Z /\
    (forall k, Ok 0%Z = Ok k -> n = if (k <=? 0)%Z then 10%Z else k) /\
    (forall k, @Raise Z (ValueError "invalid literal for int()") = Ok k ->
               ~ (1 <= k <= 4)%Z -> r = Midpoint).
Proof.
  assert (H1 : forall e, Ok 0%Z = Raise e -> exists msg, e = ValueError msg)
    by (intros e He; discriminate He).
  assert (H2 : forall e,
             @Raise Z (ValueError "invalid literal for int()") = Raise e ->
             exists msg, e = ValueError msg)
    by (intros e [= <-]; eexists; reflexivity).
  split; [exact H1|]. split; [exact H2|].
  exact (@interfaz_usuario_hands_valid_arguments (Ok 0%Z)
           (@Raise Z (ValueError "invalid literal for int()")) H1 H2).
Defined.

(** X18.  The same for Int.py: [_obtener_subintervalos] gives [n >= 1] and
    the method of [_seleccionar_metodo_riemann] is always accepted by the
    constructor of [RiemannIntegrator], whatever is typed. *)
Theorem Calculadora_builds_the_integrator {X : Type} `{PyFloat X}
    (f : pyfun X) (entrada_n entrada_m : result Z) :
  (forall e, entrada_n = Raise e -> exists msg, e = ValueError msg) ->
  (forall e, entrada_m = Raise e -> exists msg, e = ValueError msg) ->
  exists n r,
    Calculadora.obtener_subintervalos entrada_n = Ok n /\
    (1 <= n)%Z /\
    bind (Calculadora.seleccionar_metodo_riemann entrada_m)
         (Int.RiemannIntegrator_init f)
    = Ok {| Int.funcion := f; Int.metodo := method_name r |}.
Proof.
  intros Hn Hm.
  assert (En : exists n, Calculadora.obtener_subintervalos entrada_n = Ok n /\
                         (1 <= n)%Z).
  { unfold Calculadora.obtener_subintervalos, except_ValueError.
    destruct entrada_n as [k|e]; cbn [bind].
    - exists (Z.max 1 k). split; [reflexivity|lia].
    - destruct (Hn e eq_refl) as [msg ->]. exists 100%Z.
      split; [reflexivity|lia]. }
  assert (Em : exists r, Calculadora.seleccionar_metodo_riemann entrada_m
                         = Ok (method_name r)).
  { unfold Calculadora.seleccionar_metodo_riemann.
    destruct entrada_m as [k|e]; cbn [bind].
    - destruct (Z_le_gt_dec 1 k) as [H1|H1].
      + destruct (Z_le_gt_dec k 4) as [H4|H4].
        * destruct (py_index_metodos (k := k)) as [r Hr]; [lia|].
          exists r. rewrite Hr. reflexivity.
        * rewrite py_index_metodos_out by lia. exists Midpoint. reflexivity.
      + destruct (Z_le_gt_dec (-3) k) as [H3|H3].
        * assert (E : k = (-3)%Z \/ k = (-2)%Z \/ k = (-1)%Z \/ k = 0%Z) by lia.
          destruct E as [->|[->|[->| ->]]];
            [exists Left|exists Right|exists Midpoint|exists Trapezoid];
            reflexivity.
        * rewrite py_index_metodos_out by lia. exists Midpoint. reflexivity.
    - destruct (Hm e eq_refl) as [msg ->]. exists Midpoint. reflexivity. }
  destruct En as [n [E1 E2]]. destruct Em as [r Er].
  exists n, r. split; [exact E1|]. split; [exact E2|].
  rewrite Er. cbn [bind]. destruct r; reflexivity.
Qed.

Lemma Calculadora_builds_the_integrator_witness :
  (forall e, Ok 0%Z = Raise e -> exists msg, e = ValueError msg) /\
  (forall e, Ok 0%Z = Raise e -> exists msg, e = ValueError msg) /\
  exists n r,
    Calculadora.obtener_subintervalos (Ok 0%Z) = Ok n /\
    (1 <= n)%Z /\
    bind (Calculadora.seleccionar_metodo_riemann (Ok 0%Z))
         (Int.RiemannIntegrator_init Ex.sq)
    = Ok {| Int.funcion := Ex.sq; Int.metodo := method_name r |}.
Proof.
  assert (H1 : forall e, Ok 0%Z = Raise e -> exists msg, e = ValueError msg)
    by (intros e He; discriminate He).
  split; [exact H1|]. split; [exact H1|].
  exact (@Calculadora_builds_the_integrator float float_PyFloat Ex.sq
           (Ok 0%Z) (Ok 0%Z) H1 H1).
Defined.

(** X19.  The two menus choose the same method for every integer typed
    except 0, -2 and -3: Clase_Integrales.py tests the range first and
    falls back on the midpoint rule, while Int.py indexes the list
    directly, where [metodos[-1]], [metodos[-3]] and [metodos[-4]] are
    'trapezoid', 'right' and 'left' ([metodos[-2]] is the midpoint rule
    itself). *)
Theorem menus_agree_but_on_negative_indices (k : Z) :
  interfaz_usuario_metodo (Ok k) = Calculadora.seleccionar_metodo_riemann (Ok k)
  <-> (k <> 0 /\ k <> -2 /\ k <> -3)%Z.
Proof.
  unfold interfaz_usuario_metodo, Calculadora.seleccionar_metodo_riemann,
    except_ValueError. cbn [bind].
  destruct (Z_le_gt_dec 1 k) as [H1|H1].
  - destruct (Z.ltb_spec k 1) as [Hk|_]; [lia|]. cbn [orb].
    destruct (Z.ltb_spec 4 k) as [H4|H4].
    + rewrite py_index_metodos_out by lia. split; [lia|reflexivity].
    + destruct (py_index_metodos (k := k)) as [r Hr]; [lia|]. rewrite Hr.
      split; [lia|]. intros _. destruct r; reflexivity.
  - destruct (Z.ltb_spec k 1) as [_|Hk]; [|lia]. cbn [orb].
    destruct (Z_le_gt_dec (-3) k) as [H3|H3].
    + assert (E : k = (-3)%Z \/ k = (-2)%Z \/ k = (-1)%Z \/ k = 0%Z) by lia.
      destruct E as [->|[->|[->| ->]]]; cbn;
        (split; [intros E; try discriminate E; lia|]);
        try reflexivity; lia.
    + rewrite py_index_metodos_out by lia. split; [lia|reflexivity].
Qed.

(** X20.  In exact arithmetic both programs go on with limits [a < b]:
    limits typed in the wrong order, equal, or not numbers are replaced by
    0 and 1. *)
Theorem limits_are_ordered (entrada_a entrada_b : result R) :
  (forall e, entrada_a = Raise e -> exists msg, e = ValueError msg) ->
  (forall e, entrada_b = Raise e -> exists msg, e = ValueError msg) ->
  exists a b : R,
    interfaz_usuario_limites entrada_a entrada_b = Ok (a, b) /\
    Calculadora.definir_limites entrada_a entrada_b = Ok (a, b) /\
    (a < b)%R /\
    (forall a0 b0, entrada_a = Ok a0 -> entrada_b = Ok b0 -> (a0 < b0)%R ->
                   a = a0 /\ b = b0).
Proof.
  intros Ha Hb.
  unfold interfaz_usuario_limites, Calculadora.definir_limites,
    except_ValueError.
  destruct entrada_a as [a0|e]; cbn [bind].
  - destruct entrada_b as [b0|e]; cbn [bind].
    + change (@leb R R_PyFloat b0 a0) with (Exact.Rleb b0 a0).
      destruct (Exact.Rleb b0 a0) eqn:E.
      * apply Rleb_true in E. exists 0%R, 1%R.
        split; [reflexivity|]. split; [reflexivity|]. split; [lra|].
        intros a1 b1 [= <-] [= <-] Hlt. lra.
      * exists a0, b0. split; [reflexivity|]. split; [reflexivity|].
        split.
        -- destruct (Rlt_le_dec a0 b0) as [Hlt|Hle]; [exact Hlt|].
           apply Rleb_true in Hle. rewrite Hle in E. discriminate E.
        -- intros a1 b1 [= <-] [= <-] _. split; reflexivity.
    + destruct (Hb e eq_refl) as [msg ->]. exists 0%R, 1%R.
      split; [reflexivity|]. split; [reflexivity|]. split; [lra|].
      intros a1 b1 _ Hb1. discriminate Hb1.
  - destruct (Ha e eq_refl) as [msg ->]. exists 0%R, 1%R.
    split; [reflexivity|]. split; [reflexivity|]. split; [lra|].
    intros a1 b1 Ha1. discriminate Ha1.
Qed.

Lemma limits_are_ordered_witness :
  (forall e, Ok 2%R = Raise e -> exists msg, e = ValueError msg) /\
  (forall e, Ok 1%R = Raise e -> exists msg, e = ValueError msg) /\
  exists a b : R,
    interfaz_usuario_limites (Ok 2%R) (Ok 1%R) = Ok (a, b) /\
    Calculadora.definir_limites (Ok 2%R) (Ok 1%R) = Ok (a, b) /\
    (a < b)%R /\
    (forall a0 b0, Ok 2%R = Ok a0 -> Ok 1%R = Ok b0 -> (a0 < b0)%R ->
                   a = a0 /\ b = b0).
Proof.
  assert (H2 : forall e, Ok 2%R = Raise e -> exists msg, e = ValueError msg)
    by (intros e He; discriminate He).
  assert (H1 : forall e, Ok 1%R = Raise e -> exists msg, e = ValueError msg)
    by (intros e He; discriminate He).
  split; [exact H2|]. split; [exact H1|].
  exact (@limits_are_ordered (Ok 2%R) (Ok 1%R) H2 H1).
Defined.

(** In binary64 the test [a >= b] is false on a NaN: the text "nan", which
    [float] accepts, goes through as a limit in both programs. *)
Example limits_let_nan_through :
  interfaz_usuario_limites (Ok PrimFloat.nan) (Ok (F64.of_Z 1))
  = Ok (PrimFloat.nan, F64.of_Z 1) /\
  Calculadora.definir_limites (Ok PrimFloat.nan) (Ok (F64.of_Z 1))
  = Ok (PrimFloat.nan, F64.of_Z 1).
Proof. split; reflexivity. Qed.

End Menus.

(** ** The sums on the two evaluators of an expression *)

Section OnEvaluators.

Context {X : Type} `{PyFloat X}.
Local Open Scope string_scope.
Local Open Scope py_scope.








End OnEvaluators.




(** ** A NaN in the sum, in binary64 *)

Section NaN.

Local Open Scope float_scope.











End NaN.

(** ** The comparison with the exact value, in both programs *)

(** X24.  For an exact value that is not a NaN, the comparison blocks of
    [interfaz_usuario] and of [_mostrar_resultados] print the same lines
    for every approximation: three lines when [abs(exacto)] is not zero,
    and only the first two when it is zero.  In that case
    [interfaz_usuario] ends with [ZeroDivisionError], while
    [_mostrar_resultados] never raises. *)
Theorem comparison_blocks_print_the_same {X : Type} `{PyFloat X}
    (resultado exacto : X) :
  isnan exacto = false ->
  fst (interfaz_usuario_comparacion resultado (Some exacto))
  = fst (mostrar_resultados_comparacion resultado exacto) /\
  List.length (fst (mostrar_resultados_comparacion resultado exacto))
  = (if (fabs exacto =? of_int 0)%py then 2%nat else 3%nat) /\
  snd (interfaz_usuario_comparacion resultado (Some exacto))
  = (if (fabs exacto =? of_int 0)%py then Raise ZeroDivisionError else Ok tt) /\
  snd (mostrar_resultados_comparacion resultado exacto) = Ok tt.
Proof.
  intros Hnan.
  unfold interfaz_usuario_comparacion, mostrar_resultados_comparacion, truediv.
  rewrite Hnan.
  destruct (fabs exacto =? of_int 0)%py; cbn [fst snd List.length];
    (split; [reflexivity|]); (split; [reflexivity|]); split; reflexivity.
Qed.

Lemma comparison_blocks_print_the_same_witness :
  isnan (F64.of_Z 0) = false /\
  fst (interfaz_usuario_comparacion (Ex.q 1 2) (Some (F64.of_Z 0)))
  = fst (mostrar_resultados_comparacion (Ex.q 1 2) (F64.of_Z 0)) /\
  List.length (fst (mostrar_resultados_comparacion (Ex.q 1 2) (F64.of_Z 0)))
  = (if (fabs (F64.of_Z 0) =? of_int 0)%py then 2%nat else 3%nat) /\
  snd (interfaz_usuario_comparacion (Ex.q 1 2) (Some (F64.of_Z 0)))
  = (if (fabs (F64.of_Z 0) =? of_int 0)%py
     then Raise ZeroDivisionError else Ok tt) /\
  snd (mostrar_resultados_comparacion (Ex.q 1 2) (F64.of_Z 0)) = Ok tt.
Proof.
  split; [reflexivity|].
  apply (@comparison_blocks_print_the_same float float_PyFloat
           (Ex.q 1 2) (F64.of_Z 0)).
  reflexivity.
Defined.

(** ** Ejercicios/Ejercicio_7_19_02.py *)

Lemma fold_factorial (k : nat) :
  fold_left (fun fact i => (fact * i)%Z) (count_from 1 k) 1%Z
  = Z.of_nat (fact k).
Proof.
  induction k as [|k IH]; [reflexivity|].
  rewrite count_from_snoc, fold_left_app, IH. cbn [fold_left].
  change (fact (S k)) with (S k * fact k)%nat. lia.
Qed.

Lemma factorial_fact (n : Z) : factorial n = Z.of_nat (fact (Z.to_nat n)).
Proof.
  unfold factorial, range2.
  replace (Z.to_nat (n + 1 - 1)) with (Z.to_nat n) by lia.
  apply fold_factorial.
Qed.

(** X25.  [factorial(n)] is [n!] for every integer [n >= 0], and 1 for
    every negative [n] (the loop runs over an empty range; no error is
    raised). *)
Theorem factorial_is_the_factorial (n : Z) :
  factorial n = Z.of_nat (fact (Z.to_nat n)) /\
  ((n < 0)%Z -> factorial n = 1%Z) /\
  ((0 <= n)%Z -> factorial (n + 1) = ((n + 1) * factorial n)%Z).
Proof.
  split; [apply factorial_fact|]. split.
  - intros Hn. rewrite factorial_fact.
    replace (Z.to_nat n) with 0%nat by lia. reflexivity.
  - intros Hn. rewrite !factorial_fact.
    replace (Z.to_nat (n + 1)) with (S (Z.to_nat n)) by lia.
    change (fact (S (Z.to_nat n))) with (S (Z.to_nat n) * fact (Z.to_nat n))%nat.
    lia.
Qed.

Section TaylorSin.

Local Open Scope R_scope.

Lemma taylor_sin_loop_exit (fuel : nat) (x tol term sum_sin : R) (n : Z) :
  Rabs term <= tol ->
  taylor_sin_loop fuel x tol term sum_sin n = Some sum_sin.
Proof.
  intros Hle.
  assert (E : Exact.Rltb tol (Rabs term) = false).
  { destruct (Exact.Rltb tol (Rabs term)) eqn:E; [|reflexivity].
    apply Rltb_true in E. lra. }
  destruct fuel; cbn [taylor_sin_loop]; rewrite E; reflexivity.
Qed.

Lemma taylor_sin_loop_turn (fuel : nat) (x tol term sum_sin : R) (n : Z) :
  tol < Rabs term ->
  taylor_sin_loop (S fuel) x tol term sum_sin n
  = taylor_sin_loop fuel x tol
      (IZR ((-1) ^ n) * x ^ Z.to_nat (2 * n + 1) / IZR (factorial (2 * n + 1)))
      (sum_sin + IZR ((-1) ^ n) * x ^ Z.to_nat (2 * n + 1)
                 / IZR (factorial (2 * n + 1)))
      (n + 1).
Proof.
  intros Hlt. apply Rltb_true in Hlt.
  cbn [taylor_sin_loop]. rewrite Hlt. reflexivity.
Qed.

(** The term the loop computes on turn [n] is the term of the sine
    series. *)
Lemma taylor_sin_term (x : R) (k : nat) :
  IZR ((-1) ^ Z.of_nat k) * x ^ Z.to_nat (2 * Z.of_nat k + 1)
  / IZR (factorial (2 * Z.of_nat k + 1))
  = sin_term x k.
Proof.
  unfold sin_term. rewrite factorial_fact.
  replace (Z.to_nat (2 * Z.of_nat k + 1)) with (2 * k + 1)%nat by lia.
  rewrite <- INR_IZR_INZ, <- pow_IZR. unfold Rdiv. ring.
Qed.

Lemma sin_term_0 (x : R) : sin_term x 0 = x.
Proof. unfold sin_term. cbn. field. Qed.

(** From the state after [j] turns, when the term of index [j + d] is within
    the tolerance, [d] more turns are enough. *)
Lemma taylor_sin_loop_returns (x tol : R) (d : nat) :
  forall (j fuel : nat),
    Rabs (sin_term x (j + d)) <= tol ->
    (d <= fuel)%nat ->
    exists N : nat,
      (j <= N)%nat /\ (N <= j + d)%nat /\
      taylor_sin_loop fuel x tol (sin_term x j) (sin_approx x j)
        (Z.of_nat (S j)) = Some (sin_approx x N) /\
      Rabs (sin_term x N) <= tol /\
      (forall i, (j <= i)%nat -> (i < N)%nat -> tol < Rabs (sin_term x i)).
Proof.
  induction d as [|d IH]; intros j fuel Hd Hfuel.
  - rewrite Nat.add_0_r in Hd. exists j.
    split; [lia|]. split; [lia|].
    split; [apply taylor_sin_loop_exit; exact Hd|].
    split; [exact Hd|]. intros i Hi Hi'. lia.
  - destruct (Rle_lt_dec (Rabs (sin_term x j)) tol) as [Hle|Hlt].
    + exists j. split; [lia|]. split; [lia|].
      split; [apply taylor_sin_loop_exit; exact Hle|].
      split; [exact Hle|]. intros i Hi Hi'. lia.
    + destruct fuel as [|fuel]; [lia|].
      rewrite (taylor_sin_loop_turn _ _ _ _ _ Hlt).
      rewrite taylor_sin_term.
      replace (Z.of_nat (S j) + 1)%Z with (Z.of_nat (S (S j))) by lia.
      change (sin_approx x j + sin_term x (S j)) with (sin_approx x (S j)).
      destruct (IH (S j) fuel) as [N [HN [HN2 [E [Hle Hbefore]]]]].
      * replace (S j + d)%nat with (j + S d)%nat by lia. exact Hd.
      * lia.
      * exists N. split; [lia|]. split; [lia|]. split; [exact E|].
        split; [exact Hle|].
        intros i Hi Hi'. destruct (Nat.eq_dec i j) as [->|Hne]; [exact Hlt|].
        apply Hbefore; lia.
Qed.

(** The terms of the sine series tend to 0. *)
Lemma sin_term_small (x tol : R) :
  0 < tol -> exists d : nat, Rabs (sin_term x d) <= tol.
Proof.
  intros Htol. destruct (cv_speed_pow_fact x tol Htol) as [N HN].
  exists N. specialize (HN (2 * N + 1)%nat ltac:(lia)).
  unfold Rdist in HN. rewrite Rminus_0_r in HN.
  unfold sin_term. rewrite Rabs_mult, pow_1_abs, Rmult_1_l.
  apply Rlt_le. exact HN.
Qed.

Lemma taylor_sin_result (x tol : R) :
  0 < tol ->
  exists N fuel0 : nat,
    (forall fuel, (fuel0 <= fuel)%nat ->
                  taylor_sin fuel x tol = Some (sin_approx x N)) /\
    Rabs (sin_term x N) <= tol /\
    (forall i, (i < N)%nat -> tol < Rabs (sin_term x i)).
Proof.
  intros Htol. destruct (sin_term_small x Htol) as [d Hd].
  destruct (@taylor_sin_loop_returns x tol d 0%nat d Hd (le_n d))
    as [N [HN [HN2 [_ [Hle Hbefore]]]]].
  exists N, d. split; [|split; [exact Hle|]].
  - intros fuel Hfuel.
    destruct (@taylor_sin_loop_returns x tol d 0%nat fuel Hd Hfuel)
      as [N' [HN' [HN2' [E' [Hle' Hbefore']]]]].
    assert (N' = N).
    { destruct (Nat.lt_trichotomy N' N) as [Hlt|[Heq|Hgt]]; [|exact Heq|].
      - specialize (Hbefore N' ltac:(lia) Hlt). lra.
      - specialize (Hbefore' N ltac:(lia) Hgt). lra. }
    subst N'. unfold taylor_sin.
    rewrite <- (sin_term_0 x) at 2 3. exact E'.
  - intros i Hi. apply Hbefore; lia.
Qed.

(** X26.  In exact arithmetic [taylor_sin(x, tol)] returns for every [x]
    and every [tol > 0]: the loop stops after finitely many turns, and the
    value returned is the partial sum of the sine series up to the first
    term whose absolute value is at most [tol]. *)
Theorem taylor_sin_returns_partial_sum (x tol : R) :
  0 < tol ->
  exists N fuel0 : nat,
    (forall fuel, (fuel0 <= fuel)%nat ->
                  taylor_sin fuel x tol = Some (sin_approx x N)) /\
    Rabs (sin_term x N) <= tol /\
    (forall i, (i < N)%nat -> tol < Rabs (sin_term x i)).
Proof. exact (@taylor_sin_result x tol). Qed.

Lemma taylor_sin_returns_partial_sum_witness :
  0 < 1 / 10 /\
  exists N fuel0 : nat,
    (forall fuel, (fuel0 <= fuel)%nat ->
                  taylor_sin fuel 1 (1 / 10) = Some (sin_approx 1 N)) /\
    Rabs (sin_term 1 N) <= 1 / 10 /\
    (forall i, (i < N)%nat -> 1 / 10 < Rabs (sin_term 1 i)).
Proof.
  assert (H : 0 < 1 / 10) by lra.
  split; [exact H|].
  exact (@taylor_sin_returns_partial_sum 1 (1 / 10) H).
Defined.

End TaylorSin.

(** ** The value of [taylor_sin] and the sine *)

Section TaylorSinError.

Local Open Scope R_scope.

Lemma sin_term_abs (a : R) (i : nat) :
  0 <= a -> Rabs (sin_term a i) = a ^ (2 * i + 1) / INR (fact (2 * i + 1)).
Proof.
  intros Ha. unfold sin_term. rewrite Rabs_mult, pow_1_abs, Rmult_1_l.
  apply Rabs_pos_eq. apply Rmult_le_pos.
  - apply pow_le. exact Ha.
  - apply Rlt_le, Rinv_0_lt_compat, INR_fact_lt_0.
Qed.

Lemma sin_term_decreases (a : R) (i : nat) :
  0 <= a -> a * a <= INR (2 * i + 2) * INR (2 * i + 3) ->
  Rabs (sin_term a (S i)) <= Rabs (sin_term a i).
Proof.
  intros Ha Hsq. rewrite !sin_term_abs by exact Ha.
  assert (E1 : a ^ (2 * S i + 1) = a ^ (2 * i + 1) * (a * a)).
  { replace (2 * S i + 1)%nat with (S (S (2 * i + 1))) by lia.
    cbn [pow]. ring. }
  assert (E2 : INR (fact (2 * S i + 1))
               = INR (2 * i + 2) * INR (2 * i + 3) * INR (fact (2 * i + 1))).
  { replace (2 * S i + 1)%nat with (S (S (2 * i + 1))) by lia.
    rewrite !fact_simpl, !mult_INR.
    replace (S (S (2 * i + 1))) with (2 * i + 3)%nat by lia.
    replace (S (2 * i + 1)) with (2 * i + 2)%nat by lia. ring. }
  rewrite E1, E2.
  set (p := a ^ (2 * i + 1)). set (F := INR (fact (2 * i + 1))).
  set (c := INR (2 * i + 2) * INR (2 * i + 3)) in *.
  assert (Hp : 0 <= p) by (apply pow_le; exact Ha).
  assert (HF : 0 < F) by apply INR_fact_lt_0.
  assert (Hc : 0 < c).
  { unfold c. apply Rmult_lt_0_compat; apply lt_0_INR; lia. }
  replace (p * (a * a) / (c * F)) with (p / F * ((a * a) / c))
    by (field; lra).
  rewrite <- (Rmult_1_r (p / F)) at 2.
  apply Rmult_le_compat_l.
  - apply Rmult_le_pos; [exact Hp|apply Rlt_le, Rinv_0_lt_compat; exact HF].
  - apply Rmult_le_reg_r with c; [exact Hc|].
    unfold Rdiv. rewrite Rmult_assoc, Rinv_l by lra. lra.
Qed.

Lemma sin_approx_S (a : R) (N : nat) :
  sin_approx a (S N) = sin_approx a N + sin_term a (S N).
Proof. reflexivity. Qed.

Lemma sin_approx_error (a : R) (N : nat) :
  0 <= a -> a <= 4 ->
  Rabs (sin_approx a N - sin a) <= Rabs (sin_term a (S N)).
Proof.
  intros H0 H4.
  destruct (Nat.Even_or_Odd N) as [[m Hm]|[m Hm]].
  - assert (Hlow : sin_approx a N + sin_term a (S N) <= sin a).
    { rewrite <- sin_approx_S. replace (S N) with (2 * m + 1)%nat by lia.
      apply (pre_sin_bound a m H0 H4). }
    assert (Hup : sin a <= sin_approx a N).
    { destruct m as [|m'].
      - replace N with 0%nat by lia. unfold sin_approx. cbn [sum_f_R0].
        replace (sin_term a 0) with a by (unfold sin_term; cbn; field).
        destruct H0 as [Hpos|<-]; [apply Rlt_le, sin_lt_x; exact Hpos|].
        rewrite sin_0. lra.
      - replace N with (2 * (m' + 1))%nat by lia.
        apply (pre_sin_bound a m' H0 H4). }
    assert (Hn : sin_term a (S N) <= 0) by lra.
    rewrite (Rabs_left1 _ Hn). rewrite Rabs_pos_eq by lra. lra.
  - assert (Hlow : sin_approx a N <= sin a).
    { rewrite Hm. apply (pre_sin_bound a m H0 H4). }
    assert (Hup : sin a <= sin_approx a N + sin_term a (S N)).
    { rewrite <- sin_approx_S. replace (S N) with (2 * (m + 1))%nat by lia.
      apply (pre_sin_bound a m H0 H4). }
    assert (Hn : 0 <= sin_term a (S N)) by lra.
    rewrite (Rabs_pos_eq _ Hn). rewrite Rabs_left1 by lra. lra.
Qed.

Lemma sin_term_opp (x : R) (i : nat) : sin_term (- x) i = - sin_term x i.
Proof.
  unfold sin_term.
  replace ((- x) ^ (2 * i + 1)) with (- x ^ (2 * i + 1)).
  - unfold Rdiv. ring.
  - replace (- x) with (-1 * x) by ring. rewrite Rpow_mult_distr.
    replace (2 * i + 1)%nat with (S (2 * i)) by lia.
    rewrite pow_1_odd. ring.
Qed.

Lemma sin_approx_opp (x : R) (N : nat) : sin_approx (- x) N = - sin_approx x N.
Proof.
  unfold sin_approx. induction N as [|N IH]; cbn [sum_f_R0].
  - apply sin_term_opp.
  - rewrite IH, sin_term_opp. ring.
Qed.

Lemma sin_approx_within (a tol : R) (N : nat) :
  0 <= a -> a <= 4 -> tol <= 1 ->
  Rabs (sin_term a N) <= tol ->
  Rabs (sin_approx a N - sin a) <= tol.
Proof.
  intros H0 H4 Htol HN.
  apply Rle_trans with (Rabs (sin_term a (S N))); [apply sin_approx_error; assumption|].
  apply Rle_trans with (Rabs (sin_term a N)); [|exact HN].
  apply sin_term_decreases; [exact H0|].
  destruct N as [|N].
  - rewrite sin_term_abs in HN by exact H0.
    change (a ^ (2 * 0 + 1) / INR (fact (2 * 0 + 1))) with (a * 1 / 1) in HN.
    change (INR (2 * 0 + 2) * INR (2 * 0 + 3)) with ((1 + 1) * (1 + 1 + 1)).
    assert (a <= 1) by lra. nra.
  - assert (E2 : INR 4 <= INR (2 * S N + 2)) by (apply le_INR; lia).
    assert (E3 : INR 5 <= INR (2 * S N + 3)) by (apply le_INR; lia).
    change (INR 4) with (1 + 1 + 1 + 1) in E2.
    change (INR 5) with (1 + 1 + 1 + 1 + 1) in E3.
    nra.
Qed.

Lemma sin_approx_within_abs (x tol : R) (N : nat) :
  Rabs x <= 4 -> tol <= 1 ->
  Rabs (sin_term x N) <= tol ->
  Rabs (sin_approx x N - sin x) <= tol.
Proof.
  intros H4 Htol HN.
  destruct (Rle_lt_dec 0 x) as [Hpos|Hneg].
  - rewrite (Rabs_pos_eq _ Hpos) in H4.
    apply sin_approx_within; assumption.
  - rewrite (Rabs_left _ Hneg) in H4.
    replace x with (- - x) by ring.
    rewrite sin_approx_opp, sin_antisym.
    replace (- sin_approx (- x) N - - sin (- x))
      with (- (sin_approx (- x) N - sin (- x))) by ring.
    rewrite Rabs_Ropp.
    apply sin_approx_within; [lra|exact H4|exact Htol|].
    rewrite sin_term_opp, Rabs_Ropp. exact HN.
Qed.

(** X27.  In exact arithmetic, for [|x| <= 4] and [0 < tol <= 1] (the
    default tolerance is 1e-10), the value [taylor_sin(x, tol)] returns is
    within [tol] of [sin x]: from the term where the loop stops on, the
    terms of the series decrease, so the alternating remainder is below
    the last term added. *)
Theorem taylor_sin_within_tolerance (x tol : R) :
  0 < tol -> tol <= 1 -> Rabs x <= 4 ->
  exists (s : R) (fuel0 : nat),
    (forall fuel, (fuel0 <= fuel)%nat -> taylor_sin fuel x tol = Some s) /\
    Rabs (s - sin x) <= tol.
Proof.
  intros Htol Htol1 Hx.
  destruct (taylor_sin_result x Htol) as [N [fuel0 [Hret [HN _]]]].
  exists (sin_approx x N), fuel0. split; [exact Hret|].
  apply sin_approx_within_abs; assumption.
Qed.

Lemma taylor_sin_within_tolerance_witness :
  0 < 1 / 10 /\ 1 / 10 <= 1 /\ Rabs 1 <= 4 /\
  exists (s : R) (fuel0 : nat),
    (forall fuel, (fuel0 <= fuel)%nat -> taylor_sin fuel 1 (1 / 10) = Some s) /\
    Rabs (s - sin 1) <= 1 / 10.
Proof.
  assert (H1 : 0 < 1 / 10) by lra.
  assert (H2 : 1 / 10 <= 1) by lra.
  assert (H3 : Rabs 1 <= 4) by (rewrite Rabs_R1; lra).
  split; [exact H1|]. split; [exact H2|]. split; [exact H3|].
  exact (@taylor_sin_within_tolerance 1 (1 / 10) H1 H2 H3).
Defined.

Lemma PI_lt_4 : PI < 4.
Proof.
  pose proof (PI_ineq 1) as [_ Hle].
  unfold tg_alt, PI_tg in Hle. cbn in Hle. lra.
Qed.

(** Outside these bounds the tolerance is not a bound on the error: with
    [x = 4] and [tol = 4] the loop is not entered and the value returned
    is 4, while [sin 4] is negative. *)
Example taylor_sin_large_tolerance :
  taylor_sin 0 4 4 = Some 4 /\ 4 < Rabs (4 - sin 4).
Proof.
  split.
  - unfold taylor_sin. apply taylor_sin_loop_exit.
    rewrite Rabs_pos_eq; lra.
  - assert (Hneg : sin 4 < 0).
    { apply sin_lt_0; [exact PI_lt_4|]. pose proof PI2_3_2. lra. }
    rewrite Rabs_pos_eq by lra. lra.
Qed.

End TaylorSinError.

(** ** The order in which the set of special points is iterated *)

Section SetOrder.

Context {X : Type} `{PyFloat X}.



End SetOrder.

